(** * EvolMerc: trend estimation and snapshot assembly of a market dashboard

    The repository holds two versions of one script:
    - [EvolMerc.py]       (module [EvolMerc]):    the cache-and-rerun page;
    - [EvolMerc - old.py] (module [EvolMercOld]): the background-thread page.

    Both fit a straight line through a short price series, turn its slope
    into an angle, classify the angle into one of five trend bands, and
    assemble a per-symbol snapshot (price change, percentage change, trend)
    that is then rendered as a card and a normalised chart trace.

    Numbers.  The scripts compute with IEEE binary64 floats.  The embedding
    keeps the special values that change control flow (NaN, the two
    infinities) and the places where Python raises (division by zero,
    [min] of an empty list), and treats the arithmetic on finite values as
    exact arithmetic over [R]: rounding is not modelled and the two zeros
    are one number.  The comparisons of the classification are also
    written on hardware floats (module [Binary64]).

    Libraries.  [numpy.polyfit], [numpy.arctan], the pandas fills and the
    market-data provider are not part of the repository; they are modelled
    by what they compute (least squares, [atan]) or taken as parameters
    (the provider's answers, [polyfit] outside the well-posed case).  *)

From Stdlib Require Import Reals Lra Lia List String Floats Sorted.
From stdpp Require Import gmap strings.

Local Open Scope R_scope.

(** ** Python floats, up to rounding *)

Inductive pyfloat : Type :=
  | Fin (x : R)
  | PInf
  | NInf
  | NaN.

Definition is_nan (a : pyfloat) : bool :=
  match a with NaN => true | _ => false end.

Definition is_finite (a : pyfloat) : bool :=
  match a with Fin _ => true | _ => false end.

(** [a < b]; every comparison with NaN is false. *)
Definition py_lt (a b : pyfloat) : bool :=
  match a, b with
  | NaN, _ | _, NaN => false
  | Fin x, Fin y => if Rlt_dec x y then true else false
  | NInf, NInf => false
  | NInf, _ => true
  | _, NInf => false
  | PInf, _ => false
  | Fin _, PInf => true
  end.

(** [a > b] *)
Definition py_gt (a b : pyfloat) : bool := py_lt b a.

(** [a == b] *)
Definition py_eq (a b : pyfloat) : bool :=
  match a, b with
  | Fin x, Fin y => if Req_dec_T x y then true else false
  | PInf, PInf | NInf, NInf => true
  | _, _ => false
  end.

(** [a != b] *)
Definition py_ne (a b : pyfloat) : bool := negb (py_eq a b).

(** [a <= b] *)
Definition py_le (a b : pyfloat) : bool := py_lt a b || py_eq a b.

(** [a >= b] *)
Definition py_ge (a b : pyfloat) : bool := py_le b a.

(** [bool(a)]: a float is falsy exactly when it is zero. *)
Definition py_truthy (a : pyfloat) : bool := negb (py_eq a (Fin 0)).

(** [a - b] *)
Definition py_sub (a b : pyfloat) : pyfloat :=
  match a, b with
  | NaN, _ | _, NaN => NaN
  | Fin x, Fin y => Fin (x - y)
  | PInf, PInf | NInf, NInf => NaN
  | PInf, _ => PInf
  | NInf, _ => NInf
  | Fin _, PInf => NInf
  | Fin _, NInf => PInf
  end.

Definition py_neg (a : pyfloat) : pyfloat :=
  match a with
  | Fin x => Fin (- x)
  | PInf => NInf
  | NInf => PInf
  | NaN => NaN
  end.

(** The infinity that has the sign of [x], NaN when [x] is zero. *)
Definition signed_inf (x : R) : pyfloat :=
  if Rlt_dec 0 x then PInf else if Rlt_dec x 0 then NInf else NaN.

(** [a * b] *)
Definition py_mul (a b : pyfloat) : pyfloat :=
  match a, b with
  | NaN, _ | _, NaN => NaN
  | Fin x, Fin y => Fin (x * y)
  | Fin x, PInf | PInf, Fin x => signed_inf x
  | Fin x, NInf | NInf, Fin x => py_neg (signed_inf x)
  | PInf, PInf | NInf, NInf => PInf
  | PInf, NInf | NInf, PInf => NInf
  end.

(** IEEE division, as numpy and pandas perform it: total, a zero divisor
    gives an infinity or NaN. *)
Definition ieee_div (a b : pyfloat) : pyfloat :=
  match a, b with
  | NaN, _ | _, NaN => NaN
  | Fin x, Fin y => if Req_dec_T y 0 then signed_inf x else Fin (x / y)
  | Fin _, _ => Fin 0
  | PInf, Fin y => if Rlt_dec y 0 then NInf else PInf
  | NInf, Fin y => if Rlt_dec y 0 then PInf else NInf
  | _, _ => NaN
  end.

(** ** Exceptions *)

Inductive exn : Type :=
  | ZeroDivisionError
  | ValueError
  | TypeError
  | AttributeError
  | IndexError
  | LinAlgError
  | KeyError
  | ProviderError (msg : string).

Inductive result (A : Type) : Type :=
  | Ok (a : A)
  | Raise (e : exn).
Arguments Ok {A} a.
Arguments Raise {A} e.

#[global] Instance result_ret : MRet result := fun _ a => Ok a.
#[global] Instance result_bind : MBind result := fun _ _ f m =>
  match m with
  | Ok a => f a
  | Raise e => Raise e
  end.

Definition raises {A} (m : result A) : Prop := exists e, m = Raise e.
Definition returns {A} (m : result A) : Prop := exists a, m = Ok a.

(** [try: m  except Exception: h] *)
Definition try_except {A} (m : result A) (h : exn -> A) : A :=
  match m with
  | Ok a => a
  | Raise e => h e
  end.

(** Python's float [a / b]: raises on a zero divisor. *)
Definition py_div (a b : pyfloat) : result pyfloat :=
  if py_eq b (Fin 0) then Raise ZeroDivisionError else Ok (ieee_div a b).

(** [min(l)] and [max(l)]: the first element is kept until a later one
    compares strictly below (above) it; an empty list raises. *)
Definition py_min (l : list pyfloat) : result pyfloat :=
  match l with
  | [] => Raise ValueError
  | x :: r => Ok (fold_left (fun m y => if py_lt y m then y else m) r x)
  end.

Definition py_max (l : list pyfloat) : result pyfloat :=
  match l with
  | [] => Raise ValueError
  | x :: r => Ok (fold_left (fun m y => if py_gt y m then y else m) r x)
  end.

(** [l[0]] and [l[-1]] *)
Definition py_first {A} (l : list A) : result A :=
  match l with
  | [] => Raise IndexError
  | x :: _ => Ok x
  end.

Definition py_last {A} (l : list A) : result A :=
  match last l with
  | None => Raise IndexError
  | Some x => Ok x
  end.

(** Monadic traversals of a list, left to right. *)
Fixpoint traverse {A B} (f : A -> result B) (l : list A) : result (list B) :=
  match l with
  | [] => Ok []
  | a :: r => b ← f a; bs ← traverse f r; Ok (b :: bs)
  end.

Fixpoint filter_result {A} (f : A -> result bool) (l : list A) : result (list A) :=
  match l with
  | [] => Ok []
  | a :: r => keep ← f a; rest ← filter_result f r;
              Ok (if keep : bool then a :: rest else rest)
  end.

(** The entries of a list that are not [None]. *)
Definition present {A} (l : list (option A)) : list A :=
  omap (fun entry : option A => entry) l.

(** ** numpy: [arange], [polyfit] of degree 1, [arctan], [pi] *)

Definition Rsum (l : list R) : R := fold_right Rplus 0 l.

Definition dot (xs ys : list R) : R := Rsum (zip_with Rmult xs ys).

(** Determinant of the normal equations of a straight-line fit. *)
Definition lstsq_det (xs : list R) : R :=
  INR (length xs) * dot xs xs - Rsum xs * Rsum xs.

(** Solution [(slope, intercept)] of the normal equations. *)
Definition lstsq_line (xs ys : list R) : R * R :=
  let n := INR (length xs) in
  let slope := (n * dot xs ys - Rsum xs * Rsum ys) / lstsq_det xs in
  (slope, (Rsum ys - slope * Rsum xs) / n).

Fixpoint finite_values (l : list pyfloat) : option (list R) :=
  match l with
  | [] => Some []
  | Fin x :: r => cons x <$> finite_values r
  | _ :: _ => None
  end.

Definition np_arange (n : nat) : list pyfloat :=
  map (fun i => Fin (INR i)) (seq 0 n).

Definition np_pi : pyfloat := Fin PI.

Definition np_arctan (a : pyfloat) : pyfloat :=
  match a with
  | Fin x => Fin (atan x)
  | PInf => Fin (PI / 2)
  | NInf => Fin (- (PI / 2))
  | NaN => NaN
  end.

Section Numpy.

(** What [numpy.polyfit] does outside the well-posed case (data holding
    NaN or an infinity, vectors of different lengths, a singular system)
    is decided by LAPACK and is left open: it may raise or return
    anything. *)
Variable polyfit_illposed :
  list pyfloat -> list pyfloat -> result (pyfloat * pyfloat).

(** [numpy.polyfit(x, y, 1)]: coefficients of the least-squares line,
    highest degree first. *)
Definition np_polyfit1 (x y : list pyfloat) : result (pyfloat * pyfloat) :=
  match finite_values x, finite_values y with
  | Some xs, Some ys =>
      if (length xs =? length ys)%nat then
        if Req_dec_T (lstsq_det xs) 0 then polyfit_illposed x y
        else Ok (Fin (fst (lstsq_line xs ys)), Fin (snd (lstsq_line xs ys)))
      else polyfit_illposed x y
  | _, _ => polyfit_illposed x y
  end.

(** ** [calculate_slope]

    The two versions of the script define it alike; the old one returns
    the integers [0, 0] where the new one returns [0.0, 0.0], the same
    numbers. *)
Definition calculate_slope (prices : list pyfloat) : result (pyfloat * pyfloat) :=
  if (length prices <? 2)%nat then Ok (Fin 0, Fin 0)
  else
    let x := np_arange (length prices) in
    let y := prices in
    coeffs ← np_polyfit1 x y;
    let slope := fst coeffs in
    k ← py_div (Fin 180) np_pi;
    let angle := py_mul (np_arctan slope) k in
    Ok (slope, angle).

End Numpy.

(** [calculate_slope] over the line fit it is given: the same body, where
    [polyfit] stands for [numpy.polyfit(x, y, 1)] as the machine computes
    it, rounding included. *)
Definition calculate_slope_with
    (polyfit : list pyfloat -> list pyfloat -> result (pyfloat * pyfloat))
    (prices : list pyfloat) : result (pyfloat * pyfloat) :=
  if (length prices <? 2)%nat then Ok (Fin 0, Fin 0)
  else
    let x := np_arange (length prices) in
    let y := prices in
    coeffs ← polyfit x y;
    let slope := fst coeffs in
    k ← py_div (Fin 180) np_pi;
    let angle := py_mul (np_arctan slope) k in
    Ok (slope, angle).

(** ** plotly

    [make_subplots(rows=n, cols=1, vertical_spacing=v, ...)] wants at least
    one row, and a spacing between 0 and 1 that leaves room for the rows,
    at most [1 / (n - 1)]: it raises [ValueError] otherwise.  The figure is
    kept as its number of rows. *)
Definition make_subplots (rows : nat) (vertical_spacing : R) : result nat :=
  if (rows =? 0)%nat then Raise ValueError
  else if Rlt_dec vertical_spacing 0 then Raise ValueError
  else if Rlt_dec 1 vertical_spacing then Raise ValueError
  else if (rows <=? 1)%nat then Ok rows
  else if Rlt_dec (1 / INR (rows - 1)) vertical_spacing then Raise ValueError
  else Ok rows.

(** ** The market-data provider

    [yf.Ticker(symbol).history(...)] either raises, or returns nothing, or
    returns a frame: rows of a timestamp and a closing price, where a
    missing price is NaN.  Timestamps are instants; localising them and
    converting them to the Lisbon zone does not change the instant. *)

Inductive history_result : Type :=
  | HistoryRaises (e : exn)
  | HistoryNone
  | HistoryFrame (rows : list (Z * pyfloat)).

(** [df['Close'].dropna()] *)
Definition dropna (rows : list (Z * pyfloat)) : list (Z * pyfloat) :=
  List.filter (fun row => negb (is_nan (snd row))) rows.

Definition is_empty {A} (l : list A) : bool :=
  match l with [] => true | _ => false end.

(** ** pandas: [ffill], [bfill], [Series.min], [Series.max] *)

Fixpoint ffill_from (prev : pyfloat) (l : list pyfloat) : list pyfloat :=
  match l with
  | [] => []
  | v :: r => let v' := if is_nan v then prev else v in v' :: ffill_from v' r
  end.

Definition ffill (l : list pyfloat) : list pyfloat := ffill_from NaN l.

(** [pd.Series(values, index=index)] of two lists: [ValueError] when they
    differ in length.  The series is kept as its values. *)
Definition pd_Series {A} (values : list pyfloat) (index : list A)
  : result (list pyfloat) :=
  if (length values =? length index)%nat then Ok values else Raise ValueError.

Definition bfill (l : list pyfloat) : list pyfloat := rev (ffill (rev l)).

(** Minimum and maximum skip NaN; of nothing they are NaN. *)
Definition pd_min (l : list pyfloat) : pyfloat :=
  match List.filter (fun v => negb (is_nan v)) l with
  | [] => NaN
  | x :: r => fold_left (fun m y => if py_lt y m then y else m) r x
  end.

Definition pd_max (l : list pyfloat) : pyfloat :=
  match List.filter (fun v => negb (is_nan v)) l with
  | [] => NaN
  | x :: r => fold_left (fun m y => if py_gt y m then y else m) r x
  end.

(** * [EvolMerc.py] *)

Module EvolMerc.

Record asset_info : Type := {
  asset_name : string;
  asset_color : string;
  asset_unit : string;
  asset_interval : string
}.

Definition ASSETS : list (string * asset_info) :=
  [ ("GC=F",   {| asset_name := "Ouro (Gold)";      asset_color := "#FFD700"; asset_unit := "$"; asset_interval := "30m" |});
    ("SI=F",   {| asset_name := "Prata (Silver)";   asset_color := "#C0C0C0"; asset_unit := "$"; asset_interval := "30m" |});
    ("CL=F",   {| asset_name := "Petróleo (Crude)"; asset_color := "#00B4D8"; asset_unit := "$"; asset_interval := "30m" |});
    ("^GSPC",  {| asset_name := "S&P 500";          asset_color := "#10B981"; asset_unit := "";  asset_interval := "5m" |});
    ("^NDX",   {| asset_name := "NASDAQ 100";       asset_color := "#3B82F6"; asset_unit := "";  asset_interval := "5m" |});
    ("^DJI",   {| asset_name := "Dow Jones";        asset_color := "#EC4899"; asset_unit := "";  asset_interval := "5m" |});
    ("^GDAXI", {| asset_name := "DAX";              asset_color := "#F59E0B"; asset_unit := "";  asset_interval := "15m" |}) ]%string.

Definition get_trend_info (angle : pyfloat) : string * string :=
  if py_gt angle (Fin 15) then ("FORTE ALTA", "#10B981")%string
  else if py_gt angle (Fin 5) then ("ALTA MODERADA", "#34D399")%string
  else if py_gt angle (Fin (-5)) then ("LATERAL", "#FBBF24")%string
  else if py_gt angle (Fin (-15)) then ("BAIXA MODERADA", "#FB923C")%string
  else ("FORTE BAIXA", "#EF4444")%string.

Record snapshot : Type := {
  current_price : pyfloat;
  last_time : Z;
  change : pyfloat;
  change_pct : pyfloat;
  trend : string;
  trend_color : string;
  angle : pyfloat;
  prices : list pyfloat;
  times : list Z
}.

Inductive card : Type :=
  | NoDataCard (info : asset_info)
  | DataCard (info : asset_info) (data : snapshot) (change_sign change_color : string).

Section Page.

Variable polyfit_illposed :
  list pyfloat -> list pyfloat -> result (pyfloat * pyfloat).

(** The provider's answer for a symbol at a sampling interval, as seen by
    this run of the script (through the 60-second cache or not). *)
Variable history : string -> string -> history_result.

Definition fetch_asset_data (symbol : string) (info : asset_info)
  : result (option snapshot) :=
  match history symbol (asset_interval info) with
  | HistoryRaises e => Raise e
  | HistoryNone => Ok None
  | HistoryFrame rows =>
      if is_empty rows then Ok None
      else
        let closes := dropna rows in
        if is_empty closes then Ok None
        else
          let prices := map snd closes in
          let times := map fst closes in
          current_price ← py_last prices;
          previous_price ← py_first prices;
          let change := py_sub current_price previous_price in
          change_pct ← (if py_truthy previous_price
                        then q ← py_div change previous_price; Ok (py_mul q (Fin 100))
                        else Ok (Fin 0));
          '(slope, angle) ← calculate_slope polyfit_illposed prices;
          let '(trend, trend_color) := get_trend_info angle in
          last_time ← py_last times;
          Ok (Some {| current_price := current_price; last_time := last_time;
                      change := change; change_pct := change_pct;
                      trend := trend; trend_color := trend_color;
                      angle := angle; prices := prices; times := times |})
  end.

(** The loading loop: a fetch that raises is warned about and counts as
    no data. *)
Definition load_step (data_store : gmap string snapshot)
    (entry : string * asset_info) : gmap string snapshot :=
  let '(symbol, info) := entry in
  let data := try_except (fetch_asset_data symbol info) (fun _ => None) in
  match data with
  | Some d => <[symbol := d]> data_store
  | None => data_store
  end.

Definition data_store : gmap string snapshot := fold_left load_step ASSETS ∅.

End Page.

(** One card per configured asset. *)
Definition render_card (store : gmap string snapshot)
    (entry : string * asset_info) : card :=
  let '(symbol, info) := entry in
  match store !! symbol with
  | None => NoDataCard info
  | Some data =>
      if py_ge (change data) (Fin 0)
      then DataCard info data "↑" "#10B981"
      else DataCard info data "↓" "#EF4444"
  end.

Definition cards (store : gmap string snapshot) : list card :=
  map (render_card store) ASSETS.

(** Symbols that get a chart: data present, more than one point, and a
    price that varies. *)
Definition chartable (store : gmap string snapshot) (s : string) : result bool :=
  match store !! s with
  | None => Ok false
  | Some data =>
      if (1 <? length (prices data))%nat then
        mn ← py_min (prices data);
        mx ← py_max (prices data);
        Ok (py_ne mn mx)
      else Ok false
  end.

Definition scripts (store : gmap string snapshot) : result (list string) :=
  filter_result (chartable store) (map fst ASSETS).

(** [(prices - prices.min()) / (prices.max() - prices.min()) * 100] on the
    filled series. *)
Definition normalized (prices : list pyfloat) : list pyfloat :=
  let prices := bfill (ffill prices) in
  map (fun p => py_mul (ieee_div (py_sub p (pd_min prices))
                                 (py_sub (pd_max prices) (pd_min prices)))
                       (Fin 100)) prices.

(** The trace of one symbol: the symbol and the normalised values of the
    series of its prices, indexed by its times. *)
Definition draw_trace (store : gmap string snapshot) (symbol : string)
  : result (string * list pyfloat) :=
  match store !! symbol with
  | None => Raise KeyError
  | Some data =>
      series ← pd_Series (prices data) (times data);
      Ok (symbol, normalized series)
  end.

(** The figure of the chosen symbols: [make_subplots] with one row per
    symbol, then one trace per symbol. *)
Definition draw_traces (store : gmap string snapshot) (ss : list string)
  : result (list (string * list pyfloat)) :=
  make_subplots (length ss) (6 / 100);;
  traverse (draw_trace store) ss.

(** The traces of the figure. *)
Definition chart_traces (store : gmap string snapshot)
  : result (list (string * list pyfloat)) :=
  ss ← scripts store;
  draw_traces store ss.

(** What the page shows below the cards: the figure when [scripts] is not
    empty, a notice otherwise. *)
Inductive chart_area : Type :=
  | plotly_chart (traces : list (string * list pyfloat))
  | info (message : string).

Definition show_chart (store : gmap string snapshot) : result chart_area :=
  ss ← scripts store;
  traces ← draw_traces store ss;
  if is_empty ss then Ok (info "Gráfico: aguardando dados válidos...")
  else Ok (plotly_chart traces).

End EvolMerc.

(** * [EvolMerc - old.py] *)

Module EvolMercOld.

Record asset_info : Type := {
  asset_name : string;
  asset_color : string;
  asset_unit : string
}.

Definition ASSETS : list (string * asset_info) :=
  [ ("GC=F",     {| asset_name := "Ouro (Gold)";    asset_color := "#FFD700"; asset_unit := "$" |});
    ("SI=F",     {| asset_name := "Prata (Silver)"; asset_color := "#C0C0C0"; asset_unit := "$" |});
    ("NG=F",     {| asset_name := "Gás Natural";    asset_color := "#FF6B35"; asset_unit := "$" |});
    ("BZ=F",     {| asset_name := "Brent";          asset_color := "#00B4D8"; asset_unit := "$" |});
    ("^GSPC",    {| asset_name := "S&P 500";        asset_color := "#10B981"; asset_unit := "" |});
    ("EURUSD=X", {| asset_name := "EUR/USD";        asset_color := "#3B82F6"; asset_unit := "" |});
    ("USDJPY=X", {| asset_name := "USD/JPY";        asset_color := "#EC4899"; asset_unit := "" |}) ]%string.

Definition get_trend_info (slope angle : pyfloat) : string * string :=
  if py_gt angle (Fin 15) then ("📈 FORTE ALTA", "#10B981")%string
  else if py_gt angle (Fin 5) then ("↗️ ALTA MODERADA", "#34D399")%string
  else if py_gt angle (Fin (-5)) then ("➡️ LATERAL", "#FBBF24")%string
  else if py_gt angle (Fin (-15)) then ("↘️ BAIXA MODERADA", "#FB923C")%string
  else ("📉 FORTE BAIXA", "#EF4444")%string.

Record snapshot : Type := {
  symbol : string;
  prices : list pyfloat;
  times : list Z;
  current_price : pyfloat;
  change : pyfloat;
  change_pct : pyfloat;
  slope : pyfloat;
  angle : pyfloat;
  trend : string;
  trend_color : string
}.

Inductive card : Type :=
  | DataCard (info : asset_info) (data : snapshot) (card_color : string).

Section Fetch.

Variable polyfit_illposed :
  list pyfloat -> list pyfloat -> result (pyfloat * pyfloat).

(** The provider's answer for a symbol (one-minute bars of the last three
    minutes) during one refresh. *)
Variable history : string -> history_result.

(** The body of the [try] block. *)
Definition fetch_asset_data_try (symbol : string) : result (option snapshot) :=
  match history symbol with
  | HistoryRaises e => Raise e
  | HistoryNone => Raise AttributeError
  | HistoryFrame rows =>
      if is_empty rows then Ok None
      else
        let prices := map snd rows in
        let times := map fst rows in
        if (length prices <? 2)%nat then Ok None
        else
          current_price ← py_last prices;
          previous_price ← py_first prices;
          let change := py_sub current_price previous_price in
          q ← py_div change previous_price;
          let change_pct := py_mul q (Fin 100) in
          '(slope, angle) ← calculate_slope polyfit_illposed prices;
          let '(trend, trend_color) := get_trend_info slope angle in
          Ok (Some {| symbol := symbol; prices := prices; times := times;
                      current_price := current_price; change := change;
                      change_pct := change_pct; slope := slope; angle := angle;
                      trend := trend; trend_color := trend_color |})
  end.

(** [except Exception]: the error is printed and the fetch gives [None]. *)
Definition fetch_asset_data (symbol : string) : option snapshot :=
  try_except (fetch_asset_data_try symbol) (fun _ => None).

(** One pass of the loop of [update_all_data] (and of the initial load):
    the store keeps its entry for a symbol whose fetch gave [None]. *)
Definition update_step (data_store : gmap string snapshot)
    (entry : string * asset_info) : gmap string snapshot :=
  match fetch_asset_data (fst entry) with
  | Some d => <[fst entry := d]> data_store
  | None => data_store
  end.

Definition update_all_data_pass (data_store : gmap string snapshot)
  : gmap string snapshot :=
  fold_left update_step ASSETS data_store.

End Fetch.

(** [update_all_data] never returns; its effect after the provider has
    answered [histories] in successive passes. *)
Definition update_all_data_passes
    (polyfit_illposed : list pyfloat -> list pyfloat -> result (pyfloat * pyfloat))
    (histories : list (string -> history_result))
    (data_store : gmap string snapshot) : gmap string snapshot :=
  fold_left (fun store history => update_all_data_pass polyfit_illposed history store)
            histories data_store.

(** Cards of [update_dashboard]: one per asset that has data. *)
Definition cards (store : gmap string snapshot) : list card :=
  omap (fun entry : string * asset_info =>
          data ← store !! fst entry;
          Some (DataCard (snd entry) data
                  (if py_ge (change data) (Fin 0) then "#10B981" else "#EF4444")%string))
       ASSETS.

(** The list comprehension that normalises the prices of one trace. *)
Definition normalized (prices : list pyfloat) : result (list pyfloat) :=
  traverse (fun p =>
              mx ← py_max prices;
              mn ← py_min prices;
              if py_ne mx mn then
                mn1 ← py_min prices;
                mx2 ← py_max prices;
                mn2 ← py_min prices;
                q ← py_div (py_sub p mn1) (py_sub mx2 mn2);
                Ok (py_mul q (Fin 100))
              else Ok (Fin 50))
           prices.

(** The traces of the figure: one per asset that has data. *)
Definition chart_trace (store : gmap string snapshot)
    (entry : string * asset_info) : result (option (string * list pyfloat)) :=
  match store !! fst entry with
  | None => Ok None
  | Some data =>
      ys ← normalized (prices data);
      Ok (Some (fst entry, ys))
  end.

Definition chart_traces (store : gmap string snapshot)
  : result (list (string * list pyfloat)) :=
  traces ← traverse (chart_trace store) ASSETS;
  Ok (present traces).

End EvolMercOld.

(** * The classification on IEEE binary64

    The same chains of comparisons on hardware floats, where the
    thresholds, the infinities and NaN are those of IEEE 754. *)

Module Binary64.

Definition get_trend_info (angle : float) : string * string :=
  if (15 <? angle)%float then ("FORTE ALTA", "#10B981")%string
  else if (5 <? angle)%float then ("ALTA MODERADA", "#34D399")%string
  else if (-5 <? angle)%float then ("LATERAL", "#FBBF24")%string
  else if (-15 <? angle)%float then ("BAIXA MODERADA", "#FB923C")%string
  else ("FORTE BAIXA", "#EF4444")%string.

Definition get_trend_info_old (slope angle : float) : string * string :=
  if (15 <? angle)%float then ("📈 FORTE ALTA", "#10B981")%string
  else if (5 <? angle)%float then ("↗️ ALTA MODERADA", "#34D399")%string
  else if (-5 <? angle)%float then ("➡️ LATERAL", "#FBBF24")%string
  else if (-15 <? angle)%float then ("↘️ BAIXA MODERADA", "#FB923C")%string
  else ("📉 FORTE BAIXA", "#EF4444")%string.

End Binary64.

(** * The vocabulary of the specification *)

(** ** Trend labels and bands *)

Inductive trend_label : Type :=
  | STRONG_UP
  | MODERATE_UP
  | SIDEWAYS
  | MODERATE_DOWN
  | STRONG_DOWN.

(** STRONG_DOWN < MODERATE_DOWN < SIDEWAYS < MODERATE_UP < STRONG_UP *)
Definition label_rank (l : trend_label) : nat :=
  match l with
  | STRONG_DOWN => 0
  | MODERATE_DOWN => 1
  | SIDEWAYS => 2
  | MODERATE_UP => 3
  | STRONG_UP => 4
  end.

Definition label_color (l : trend_label) : string :=
  match l with
  | STRONG_UP => "#10B981"
  | MODERATE_UP => "#34D399"
  | SIDEWAYS => "#FBBF24"
  | MODERATE_DOWN => "#FB923C"
  | STRONG_DOWN => "#EF4444"
  end.

(** How [EvolMerc.py] and [EvolMerc - old.py] spell the labels. *)
Definition label_text (l : trend_label) : string :=
  match l with
  | STRONG_UP => "FORTE ALTA"
  | MODERATE_UP => "ALTA MODERADA"
  | SIDEWAYS => "LATERAL"
  | MODERATE_DOWN => "BAIXA MODERADA"
  | STRONG_DOWN => "FORTE BAIXA"
  end.

Definition label_text_old (l : trend_label) : string :=
  match l with
  | STRONG_UP => "📈 FORTE ALTA"
  | MODERATE_UP => "↗️ ALTA MODERADA"
  | SIDEWAYS => "➡️ LATERAL"
  | MODERATE_DOWN => "↘️ BAIXA MODERADA"
  | STRONG_DOWN => "📉 FORTE BAIXA"
  end.

(** The label a displayed text stands for, in either spelling. *)
Definition label_of_text (s : string) : option trend_label :=
  List.find (fun l => String.eqb s (label_text l) || String.eqb s (label_text_old l))
            [STRONG_UP; MODERATE_UP; SIDEWAYS; MODERATE_DOWN; STRONG_DOWN].

(** The table of bands, as the specification writes it. *)
Inductive in_band (angle : R) : trend_label -> Prop :=
  | band_strong_up : 15 < angle -> in_band angle STRONG_UP
  | band_moderate_up : 5 < angle <= 15 -> in_band angle MODERATE_UP
  | band_sideways : -5 < angle <= 5 -> in_band angle SIDEWAYS
  | band_moderate_down : -15 < angle <= -5 -> in_band angle MODERATE_DOWN
  | band_strong_down : angle <= -15 -> in_band angle STRONG_DOWN.

(** The band of any float: an infinity lies in the outermost band of its
    sign; NaN, which compares above nothing, is classified by the last
    branch. *)
Definition float_band (a : pyfloat) (l : trend_label) : Prop :=
  match a with
  | Fin x => in_band x l
  | PInf => l = STRONG_UP
  | NInf | NaN => l = STRONG_DOWN
  end.

(** ** Least squares *)

(** Sum of the squared vertical residuals of the line [y = m x + b]. *)
Definition sse (xs ys : list R) (m b : R) : R :=
  Rsum (zip_with (fun x y => (y - (m * x + b)) * (y - (m * x + b))) xs ys).

(** The line [y = m x + b] is an ordinary-least-squares fit of the points. *)
Definition is_ols_line (xs ys : list R) (m b : R) : Prop :=
  forall m' b', sse xs ys m b <= sse xs ys m' b'.

(** The indices [0 .. n-1]. *)
Definition indices (n : nat) : list R := map INR (seq 0 n).

(** ** Trend estimation

    The two lines of [fetch_asset_data] that turn prices into slope, angle
    and label (the specification's [estimate_trend]). *)

Definition estimate_trend
    (polyfit_illposed : list pyfloat -> list pyfloat -> result (pyfloat * pyfloat))
    (prices : list pyfloat) : result (pyfloat * pyfloat * (string * string)) :=
  '(slope, angle) ← calculate_slope polyfit_illposed prices;
  Ok (slope, angle, EvolMerc.get_trend_info angle).

Definition estimate_trend_old
    (polyfit_illposed : list pyfloat -> list pyfloat -> result (pyfloat * pyfloat))
    (prices : list pyfloat) : result (pyfloat * pyfloat * (string * string)) :=
  '(slope, angle) ← calculate_slope polyfit_illposed prices;
  Ok (slope, angle, EvolMercOld.get_trend_info slope angle).

(** The same two lines over the line fit they are given. *)
Definition estimate_trend_with
    (polyfit : list pyfloat -> list pyfloat -> result (pyfloat * pyfloat))
    (prices : list pyfloat) : result (pyfloat * pyfloat * (string * string)) :=
  '(slope, angle) ← calculate_slope_with polyfit prices;
  Ok (slope, angle, EvolMerc.get_trend_info angle).

Definition estimate_trend_old_with
    (polyfit : list pyfloat -> list pyfloat -> result (pyfloat * pyfloat))
    (prices : list pyfloat) : result (pyfloat * pyfloat * (string * string)) :=
  '(slope, angle) ← calculate_slope_with polyfit prices;
  Ok (slope, angle, EvolMercOld.get_trend_info slope angle).

(** On the prices [ps] the fit returns a number for the slope, no further
    than [tol] from the slope of the least-squares line. *)
Definition fit_within (tol : R)
    (polyfit : list pyfloat -> list pyfloat -> result (pyfloat * pyfloat))
    (ps : list R) (slope : R) : Prop :=
  (exists intercept,
      polyfit (np_arange (length ps)) (map Fin ps) = Ok (Fin slope, intercept)) /\
  Rabs (slope - fst (lstsq_line (indices (length ps)) ps)) <= tol.

(** ** Chart normalisation *)

Definition constant (ps : list R) : Prop := forall p q, In p ps -> In q ps -> p = q.

Definition is_least (lo : R) (ps : list R) : Prop :=
  In lo ps /\ forall p, In p ps -> lo <= p.

Definition is_greatest (hi : R) (ps : list R) : Prop :=
  In hi ps /\ forall p, In p ps -> p <= hi.


(** A store whose entries hold one time for each price, as
    [fetch_asset_data] builds them. *)
Definition aligned (store : gmap string EvolMerc.snapshot) : Prop :=
  forall s d,
    store !! s = Some d -> length (EvolMerc.prices d) = length (EvolMerc.times d).

(** ** Frames of finite prices *)

(** The rows of a frame whose closing prices are the given numbers. *)
Definition finite_rows (quotes : list (Z * R)) : list (Z * pyfloat) :=
  map (fun q => (fst q, Fin (snd q))) quotes.

(** A provider that answers every request with the same frame. *)
Definition always (rows : list (Z * pyfloat)) : string -> string -> history_result :=
  fun _ _ => HistoryFrame rows.

Definition always_old (rows : list (Z * pyfloat)) : string -> history_result :=
  fun _ => HistoryFrame rows.

(** A provider of the old script that raises for every symbol. *)
Definition provider_down : string -> history_result :=
  fun _ => HistoryRaises (ProviderError "timeout").

(** A frame of two rows whose closing prices are both missing. *)
Definition missing_rows : list (Z * pyfloat) := [(0%Z, NaN); (60%Z, NaN)].

(** One behaviour that [numpy.polyfit] may have outside the well-posed
    case: it raises. *)
Definition polyfit_raises : list pyfloat -> list pyfloat -> result (pyfloat * pyfloat) :=
  fun _ _ => Raise LinAlgError.

(** Another one, that of a LAPACK which lets NaN through: the
    coefficients are NaN. *)
Definition polyfit_nan : list pyfloat -> list pyfloat -> result (pyfloat * pyfloat) :=
  fun _ _ => Ok (NaN, NaN).

(** A line fit with a rounding residue: the least-squares slope, off by
    [residue]. *)
Definition polyfit_residue (residue : R)
  : list pyfloat -> list pyfloat -> result (pyfloat * pyfloat) :=
  fun x y =>
    coeffs ← np_polyfit1 polyfit_raises x y;
    Ok (py_sub (fst coeffs) (Fin (- residue)), snd coeffs).

(** ** Fetch failures *)

Inductive fetch_failure : history_result -> Prop :=
  | failure_exception e : fetch_failure (HistoryRaises e)
  | failure_no_result : fetch_failure HistoryNone
  | failure_all_missing rows :
      Forall (fun row => snd row = NaN) rows -> fetch_failure (HistoryFrame rows).

(** * Python floats: comparisons *)

Lemma py_gt_Fin x y : py_gt (Fin x) (Fin y) = true <-> y < x.
Proof.
  unfold py_gt, py_lt. destruct (Rlt_dec y x); split; intros; try lra; congruence.
Qed.

Lemma py_gt_Fin_true x y : y < x -> py_gt (Fin x) (Fin y) = true.
Proof. apply py_gt_Fin. Qed.

Lemma py_gt_Fin_false x y : x <= y -> py_gt (Fin x) (Fin y) = false.
Proof.
  intros H. destruct (py_gt (Fin x) (Fin y)) eqn:E; [|reflexivity].
  apply py_gt_Fin in E. lra.
Qed.

Lemma py_eq_Fin x y : py_eq (Fin x) (Fin y) = true <-> x = y.
Proof. unfold py_eq. destruct (Req_dec_T x y); split; intros; congruence. Qed.

Lemma py_eq_refl_Fin x : py_eq (Fin x) (Fin x) = true.
Proof. by apply py_eq_Fin. Qed.

Lemma py_eq_Fin_false x y : x <> y -> py_eq (Fin x) (Fin y) = false.
Proof.
  intros H. destruct (py_eq (Fin x) (Fin y)) eqn:E; [|reflexivity].
  apply py_eq_Fin in E. contradiction.
Qed.

(** * Trend classification *)

Section Classification.

Local Ltac bands :=
  repeat first
    [ rewrite py_gt_Fin_true by lra
    | rewrite py_gt_Fin_false by lra ];
  try reflexivity.

Lemma get_trend_info_band x l :
  in_band x l ->
  EvolMerc.get_trend_info (Fin x) = (label_text l, label_color l).
Proof.
  unfold EvolMerc.get_trend_info. destruct 1; bands.
Qed.

Lemma get_trend_info_old_band slope x l :
  in_band x l ->
  EvolMercOld.get_trend_info slope (Fin x) = (label_text_old l, label_color l).
Proof.
  unfold EvolMercOld.get_trend_info. destruct 1; bands.
Qed.

Lemma in_band_total x : exists l, in_band x l.
Proof.
  destruct (Rlt_dec 15 x); [exists STRONG_UP; by constructor|].
  destruct (Rlt_dec 5 x); [exists MODERATE_UP; constructor; lra|].
  destruct (Rlt_dec (-5) x); [exists SIDEWAYS; constructor; lra|].
  destruct (Rlt_dec (-15) x); [exists MODERATE_DOWN; constructor; lra|].
  exists STRONG_DOWN; constructor; lra.
Qed.

Lemma in_band_unique x l l' : in_band x l -> in_band x l' -> l = l'.
Proof. destruct 1; destruct 1; try reflexivity; lra. Qed.

Lemma get_trend_info_float_band a l :
  float_band a l ->
  EvolMerc.get_trend_info a = (label_text l, label_color l).
Proof.
  destruct a; simpl; intros H; subst; try reflexivity.
  by apply get_trend_info_band.
Qed.

Lemma get_trend_info_old_float_band slope a l :
  float_band a l ->
  EvolMercOld.get_trend_info slope a = (label_text_old l, label_color l).
Proof.
  destruct a; simpl; intros H; subst; try reflexivity.
  by apply get_trend_info_old_band.
Qed.

Lemma float_band_total a : exists l, float_band a l.
Proof. destruct a; simpl; eauto using in_band_total. Qed.

Lemma in_band_monotone x y lx ly :
  x <= y -> in_band x lx -> in_band y ly -> (label_rank lx <= label_rank ly)%nat.
Proof. intros Hxy Hx Hy. destruct Hx; destruct Hy; simpl; try lia; lra. Qed.

Lemma py_le_Fin x y : py_le (Fin x) (Fin y) = true -> x <= y.
Proof.
  unfold py_le, py_lt, py_eq.
  destruct (Rlt_dec x y), (Req_dec_T x y); simpl; intros; try lra; congruence.
Qed.

Lemma float_band_monotone a b la lb :
  py_le a b = true -> float_band a la -> float_band b lb ->
  (label_rank la <= label_rank lb)%nat.
Proof.
  destruct a, b; cbn; intros Hab Ha Hb; subst; try discriminate;
    try (simpl; lia);
    try (destruct la; simpl; lia); try (destruct lb; simpl; lia).
  eapply in_band_monotone; eauto using py_le_Fin.
Qed.

Lemma label_of_text_new l : label_of_text (label_text l) = Some l.
Proof. by destruct l. Qed.

Lemma label_of_text_old l : label_of_text (label_text_old l) = Some l.
Proof. by destruct l. Qed.

Lemma label_text_inj l l' : label_text l = label_text l' -> l = l'.
Proof.
  intros H. apply (f_equal label_of_text) in H.
  rewrite !label_of_text_new in H. congruence.
Qed.

Lemma label_text_old_inj l l' : label_text_old l = label_text_old l' -> l = l'.
Proof.
  intros H. apply (f_equal label_of_text) in H.
  rewrite !label_of_text_old in H. congruence.
Qed.

(** C1. For every real angle the classification returns the one label of
    the band the angle lies in, where the bands are cut by strict
    comparisons against 15, 5, -5 and -15, together with the colour of
    that label; an angle equal to a threshold falls into the band below
    it: 15 is MODERATE_UP (#34D399), 5 is SIDEWAYS (#FBBF24), -5 is
    MODERATE_DOWN (#FB923C), -15 is STRONG_DOWN (#EF4444), and the colour
    of STRONG_UP is #10B981.  Both versions of the script; the threshold
    values also on binary64, where the float next above 15 is already
    STRONG_UP. *)
Theorem C1_trend_bands_strict (angle : R) :
  (exists l,
      in_band angle l /\
      (forall l', in_band angle l' -> l' = l) /\
      EvolMerc.get_trend_info (Fin angle) = (label_text l, label_color l) /\
      forall slope,
        EvolMercOld.get_trend_info slope (Fin angle)
        = (label_text_old l, label_color l)) /\
  (EvolMerc.get_trend_info (Fin 15) = (label_text MODERATE_UP, "#34D399"%string) /\
   EvolMerc.get_trend_info (Fin 5) = (label_text SIDEWAYS, "#FBBF24"%string) /\
   EvolMerc.get_trend_info (Fin (-5)) = (label_text MODERATE_DOWN, "#FB923C"%string) /\
   EvolMerc.get_trend_info (Fin (-15)) = (label_text STRONG_DOWN, "#EF4444"%string) /\
   EvolMerc.get_trend_info (Fin 16) = (label_text STRONG_UP, "#10B981"%string)) /\
  (forall slope,
      EvolMercOld.get_trend_info slope (Fin 15) = (label_text_old MODERATE_UP, "#34D399"%string) /\
      EvolMercOld.get_trend_info slope (Fin 5) = (label_text_old SIDEWAYS, "#FBBF24"%string) /\
      EvolMercOld.get_trend_info slope (Fin (-5)) = (label_text_old MODERATE_DOWN, "#FB923C"%string) /\
      EvolMercOld.get_trend_info slope (Fin (-15)) = (label_text_old STRONG_DOWN, "#EF4444"%string) /\
      EvolMercOld.get_trend_info slope (Fin 16) = (label_text_old STRONG_UP, "#10B981"%string)) /\
  (Binary64.get_trend_info 15 = (label_text MODERATE_UP, "#34D399"%string) /\
   Binary64.get_trend_info 5 = (label_text SIDEWAYS, "#FBBF24"%string) /\
   Binary64.get_trend_info (-5) = (label_text MODERATE_DOWN, "#FB923C"%string) /\
   Binary64.get_trend_info (-15) = (label_text STRONG_DOWN, "#EF4444"%string) /\
   Binary64.get_trend_info (next_up 15) = (label_text STRONG_UP, "#10B981"%string)).
Proof.
  split; [|split; [|split]]; [| | |by vm_compute].
  - destruct (in_band_total angle) as [l Hl]. exists l.
    split; [exact Hl|]. split; [intros l' Hl'; eapply in_band_unique; eauto|].
    split; [by apply get_trend_info_band|].
    intros slope. by apply get_trend_info_old_band.
  - repeat split.
    + apply (get_trend_info_band 15 MODERATE_UP). constructor; lra.
    + apply (get_trend_info_band 5 SIDEWAYS). constructor; lra.
    + apply (get_trend_info_band (-5) MODERATE_DOWN). constructor; lra.
    + apply (get_trend_info_band (-15) STRONG_DOWN). constructor; lra.
    + apply (get_trend_info_band 16 STRONG_UP). constructor; lra.
  - intros slope. repeat split.
    + apply (get_trend_info_old_band slope 15 MODERATE_UP). constructor; lra.
    + apply (get_trend_info_old_band slope 5 SIDEWAYS). constructor; lra.
    + apply (get_trend_info_old_band slope (-5) MODERATE_DOWN). constructor; lra.
    + apply (get_trend_info_old_band slope (-15) STRONG_DOWN). constructor; lra.
    + apply (get_trend_info_old_band slope 16 STRONG_UP). constructor; lra.
Qed.

(** C9. The classification is monotone in the angle: when [a <= b], the
    label of [a] is at most the label of [b] in the order STRONG_DOWN <
    MODERATE_DOWN < SIDEWAYS < MODERATE_UP < STRONG_UP; and the label
    determines the colour: every result is a label with the fixed colour
    of that label, so two results with the same label have the same
    colour.  Both versions of the script. *)
Theorem C9_trend_monotone (a b : pyfloat) :
  py_le a b = true ->
  (exists la lb,
      EvolMerc.get_trend_info a = (label_text la, label_color la) /\
      EvolMerc.get_trend_info b = (label_text lb, label_color lb) /\
      (forall slope slope',
          EvolMercOld.get_trend_info slope a = (label_text_old la, label_color la) /\
          EvolMercOld.get_trend_info slope' b = (label_text_old lb, label_color lb)) /\
      (label_rank la <= label_rank lb)%nat) /\
  (forall c d : pyfloat,
      (EvolMerc.get_trend_info c).1 = (EvolMerc.get_trend_info d).1 ->
      (EvolMerc.get_trend_info c).2 = (EvolMerc.get_trend_info d).2) /\
  (forall (c d s s' : pyfloat),
      (EvolMercOld.get_trend_info s c).1 = (EvolMercOld.get_trend_info s' d).1 ->
      (EvolMercOld.get_trend_info s c).2 = (EvolMercOld.get_trend_info s' d).2).
Proof.
  intros Hab. split; [|split].
  - destruct (float_band_total a) as [la Ha], (float_band_total b) as [lb Hb].
    exists la, lb. repeat split.
    + by apply get_trend_info_float_band.
    + by apply get_trend_info_float_band.
    + by apply get_trend_info_old_float_band.
    + by apply get_trend_info_old_float_band.
    + eapply float_band_monotone; eauto.
  - intros c d.
    destruct (float_band_total c) as [lc Hc], (float_band_total d) as [ld Hd].
    rewrite (get_trend_info_float_band _ _ Hc), (get_trend_info_float_band _ _ Hd).
    simpl. intros H. by rewrite (label_text_inj _ _ H).
  - intros c d s s'.
    destruct (float_band_total c) as [lc Hc], (float_band_total d) as [ld Hd].
    rewrite (get_trend_info_old_float_band s _ _ Hc),
      (get_trend_info_old_float_band s' _ _ Hd).
    simpl. intros H. by rewrite (label_text_old_inj _ _ H).
Qed.

Lemma C9_trend_monotone_witness :
  py_le (Fin 3) (Fin 20) = true /\
  exists la lb,
    EvolMerc.get_trend_info (Fin 3) = (label_text la, label_color la) /\
    EvolMerc.get_trend_info (Fin 20) = (label_text lb, label_color lb) /\
    (label_rank la <= label_rank lb)%nat.
Proof.
  assert (H : py_le (Fin 3) (Fin 20) = true).
  { unfold py_le, py_lt. destruct (Rlt_dec 3 20); [reflexivity|lra]. }
  split; [exact H|].
  destruct (C9_trend_monotone (Fin 3) (Fin 20) H) as [(la & lb & Ha & Hb & _ & Hr) _].
  exists la, lb. auto.
Defined.

(** C10. A NaN angle fails every comparison and is classified by the last
    branch: STRONG_DOWN with the red colour #EF4444.  It is not rejected
    (a result is returned) and it is not SIDEWAYS.  Both versions of the
    script, also on binary64 with the NaN of IEEE 754. *)
Theorem C10_nan_is_strong_down :
  (py_gt NaN (Fin 15) = false /\ py_gt NaN (Fin 5) = false /\
   py_gt NaN (Fin (-5)) = false /\ py_gt NaN (Fin (-15)) = false) /\
  EvolMerc.get_trend_info NaN = (label_text STRONG_DOWN, "#EF4444"%string) /\
  label_of_text (EvolMerc.get_trend_info NaN).1 = Some STRONG_DOWN /\
  EvolMerc.get_trend_info NaN <> (label_text SIDEWAYS, label_color SIDEWAYS) /\
  forall slope slope',
    EvolMercOld.get_trend_info slope NaN = (label_text_old STRONG_DOWN, "#EF4444"%string) /\
    label_of_text (EvolMercOld.get_trend_info slope NaN).1 = Some STRONG_DOWN /\
    EvolMercOld.get_trend_info slope NaN <> (label_text_old SIDEWAYS, label_color SIDEWAYS) /\
    Binary64.get_trend_info nan = (label_text STRONG_DOWN, "#EF4444"%string) /\
    Binary64.get_trend_info_old slope' nan
    = (label_text_old STRONG_DOWN, "#EF4444"%string).
Proof.
  repeat split; try reflexivity; discriminate.
Qed.

End Classification.

(** * Least squares over the indices [0 .. n-1] *)

Section LeastSquares.

Lemma Rsum_app l1 l2 : Rsum (l1 ++ l2) = Rsum l1 + Rsum l2.
Proof. induction l1 as [|a l1 IH]; simpl; [lra|]. rewrite IH. lra. Qed.

Lemma dot_app xs1 xs2 ys1 ys2 :
  length xs1 = length ys1 ->
  dot (xs1 ++ xs2) (ys1 ++ ys2) = dot xs1 ys1 + dot xs2 ys2.
Proof.
  intros H. unfold dot. rewrite zip_with_app by exact H. apply Rsum_app.
Qed.

Lemma length_indices n : length (indices n) = n.
Proof. unfold indices. by rewrite length_map, length_seq. Qed.

Lemma indices_S n : indices (S n) = indices n ++ [INR n].
Proof. unfold indices. by rewrite seq_S, map_app. Qed.

Lemma Rsum_indices n : 2 * Rsum (indices n) = INR n * (INR n - 1).
Proof.
  induction n as [|n IH]; [simpl; lra|].
  rewrite indices_S, Rsum_app, S_INR. simpl. lra.
Qed.

Lemma dot_indices n :
  6 * dot (indices n) (indices n) = (INR n - 1) * INR n * (2 * INR n - 1).
Proof.
  induction n as [|n IH]; [unfold dot; simpl; lra|].
  rewrite indices_S, dot_app, S_INR by reflexivity.
  unfold dot at 2. simpl. lra.
Qed.

Lemma lstsq_det_indices n :
  12 * lstsq_det (indices n) = INR n * INR n * (INR n * INR n - 1).
Proof.
  unfold lstsq_det. rewrite length_indices.
  pose proof (Rsum_indices n) as Hs. pose proof (dot_indices n) as Hd.
  nra.
Qed.

Lemma lstsq_det_indices_pos n : (2 <= n)%nat -> 0 < lstsq_det (indices n).
Proof.
  intros Hn. pose proof (lstsq_det_indices n) as HD.
  assert (2 <= INR n) by (apply (le_INR 2); exact Hn).
  assert (4 <= INR n * INR n) by nra.
  assert (0 < INR n * INR n * (INR n * INR n - 1)) by nra.
  lra.
Qed.

(** The sum of squared residuals, expanded into the moments of the data. *)
Lemma sse_expand xs ys m b :
  length xs = length ys ->
  sse xs ys m b =
  dot ys ys - 2 * m * dot xs ys - 2 * b * Rsum ys
  + m * m * dot xs xs + 2 * m * b * Rsum xs + INR (length xs) * b * b.
Proof.
  revert ys. induction xs as [|x xs IH]; intros [|y ys] Hlen;
    try discriminate; [unfold sse, dot; simpl; lra|].
  injection Hlen as Hlen. specialize (IH ys Hlen).
  change (sse (x :: xs) (y :: ys) m b)
    with ((y - (m * x + b)) * (y - (m * x + b)) + sse xs ys m b).
  change (dot (y :: ys) (y :: ys)) with (y * y + dot ys ys).
  change (dot (x :: xs) (y :: ys)) with (x * y + dot xs ys).
  change (dot (x :: xs) (x :: xs)) with (x * x + dot xs xs).
  change (Rsum (y :: ys)) with (y + Rsum ys).
  change (Rsum (x :: xs)) with (x + Rsum xs).
  change (length (x :: xs)) with (S (length xs)). rewrite S_INR, IH. ring.
Qed.

(** The fitted line solves the normal equations. *)
Lemma lstsq_line_normal xs ys :
  lstsq_det xs <> 0 -> INR (length xs) <> 0 ->
  let m := fst (lstsq_line xs ys) in
  let b := snd (lstsq_line xs ys) in
  m * dot xs xs + b * Rsum xs = dot xs ys /\
  m * Rsum xs + INR (length xs) * b = Rsum ys.
Proof.
  intros HD Hn. unfold lstsq_line. cbn [fst snd]. unfold lstsq_det in *.
  split; field; auto.
Qed.

(** Any line is worse than the fitted one by a quadratic form in the
    differences of the coefficients. *)
Lemma sse_lstsq_line xs ys m b :
  length xs = length ys ->
  lstsq_det xs <> 0 -> INR (length xs) <> 0 ->
  let m0 := fst (lstsq_line xs ys) in
  let b0 := snd (lstsq_line xs ys) in
  INR (length xs) * (sse xs ys m b - sse xs ys m0 b0) =
  (INR (length xs) * (b - b0) + (m - m0) * Rsum xs) *
  (INR (length xs) * (b - b0) + (m - m0) * Rsum xs)
  + (m - m0) * (m - m0) * lstsq_det xs.
Proof.
  intros Hlen HD Hn m0 b0.
  destruct (lstsq_line_normal xs ys HD Hn) as [H1 H2].
  fold m0 b0 in H1, H2.
  rewrite !sse_expand by exact Hlen. unfold lstsq_det.
  rewrite <- H1, <- H2. ring.
Qed.

Lemma excess_nonneg n d A t D :
  0 < n -> 0 < D -> n * d = A * A + t * t * D -> 0 <= d.
Proof.
  intros Hn HD H.
  assert (0 <= A * A) by nra.
  assert (0 <= t * t * D) by (apply Rmult_le_pos; nra).
  destruct (Rle_or_lt 0 d) as [|Hneg]; [assumption|].
  assert (n * d < 0) by nra. lra.
Qed.

Lemma excess_zero n d A t D :
  0 < n -> 0 < D -> n * d = A * A + t * t * D -> d <= 0 -> t = 0.
Proof.
  intros Hn HD H Hd.
  assert (0 <= A * A) by nra.
  assert (n * d <= 0) by nra.
  assert (t * t * D <= 0) by lra.
  assert (0 <= t * t) by nra.
  assert (t * t = 0) by nra.
  nra.
Qed.

Lemma lstsq_line_is_ols xs ys :
  length xs = length ys -> 0 < lstsq_det xs -> 0 < INR (length xs) ->
  is_ols_line xs ys (fst (lstsq_line xs ys)) (snd (lstsq_line xs ys)).
Proof.
  intros Hlen HD Hn m b.
  pose proof (sse_lstsq_line xs ys m b Hlen) as H. cbv zeta in H.
  specialize (H ltac:(lra) ltac:(lra)).
  apply excess_nonneg in H; lra.
Qed.

Lemma ols_slope_unique xs ys m b :
  length xs = length ys -> 0 < lstsq_det xs -> 0 < INR (length xs) ->
  is_ols_line xs ys m b -> m = fst (lstsq_line xs ys).
Proof.
  intros Hlen HD Hn Hmin.
  pose proof (sse_lstsq_line xs ys m b Hlen) as H. cbv zeta in H.
  specialize (H ltac:(lra) ltac:(lra)).
  specialize (Hmin (fst (lstsq_line xs ys)) (snd (lstsq_line xs ys))).
  apply excess_zero in H; lra.
Qed.

End LeastSquares.

(** * [calculate_slope] and the trend estimation *)

Section TrendEstimation.

Variable polyfit_illposed :
  list pyfloat -> list pyfloat -> result (pyfloat * pyfloat).

Lemma finite_values_map_Fin ps : finite_values (map Fin ps) = Some ps.
Proof. induction ps as [|p ps IH]; simpl; [reflexivity|]. by rewrite IH. Qed.

Lemma np_arange_indices n : np_arange n = map Fin (indices n).
Proof. unfold np_arange, indices. by rewrite map_map. Qed.

Lemma np_polyfit1_finite ps :
  (2 <= length ps)%nat ->
  np_polyfit1 polyfit_illposed (np_arange (length ps)) (map Fin ps)
  = Ok (Fin (fst (lstsq_line (indices (length ps)) ps)),
        Fin (snd (lstsq_line (indices (length ps)) ps))).
Proof.
  intros Hn. unfold np_polyfit1.
  rewrite np_arange_indices, !finite_values_map_Fin, length_indices, Nat.eqb_refl.
  pose proof (lstsq_det_indices_pos _ Hn).
  destruct (Req_dec_T _ 0); [lra|reflexivity].
Qed.

Lemma py_div_180_pi : py_div (Fin 180) np_pi = Ok (Fin (180 / PI)).
Proof.
  pose proof PI_neq0. unfold py_div, np_pi, ieee_div.
  rewrite py_eq_Fin_false by assumption.
  destruct (Req_dec_T PI 0); [contradiction|reflexivity].
Qed.

Lemma calculate_slope_short (prices : list pyfloat) :
  (length prices < 2)%nat ->
  calculate_slope polyfit_illposed prices = Ok (Fin 0, Fin 0).
Proof.
  intros H. unfold calculate_slope.
  by apply Nat.ltb_lt in H as ->.
Qed.

Lemma calculate_slope_finite ps :
  (2 <= length ps)%nat ->
  let slope := fst (lstsq_line (indices (length ps)) ps) in
  calculate_slope polyfit_illposed (map Fin ps)
  = Ok (Fin slope, Fin (atan slope * (180 / PI))).
Proof.
  intros Hn slope. unfold calculate_slope.
  rewrite length_map.
  assert ((length ps <? 2)%nat = false) as -> by (apply Nat.ltb_ge; lia).
  rewrite np_polyfit1_finite by exact Hn. cbn [mbind result_bind fst].
  rewrite py_div_180_pi. reflexivity.
Qed.

(** On finite prices [calculate_slope] returns finite numbers. *)
Lemma calculate_slope_returns ps :
  exists slope angle,
    calculate_slope polyfit_illposed (map Fin ps) = Ok (Fin slope, Fin angle).
Proof.
  destruct (le_lt_dec 2 (length ps)) as [Hn|Hn].
  - eexists _, _. by apply calculate_slope_finite.
  - exists 0, 0. apply calculate_slope_short. by rewrite length_map.
Qed.

(** Moments of constant data. *)
Lemma moments_constant xs ys c :
  (forall y, In y ys -> y = c) -> length xs = length ys ->
  dot xs ys = c * Rsum xs /\ Rsum ys = INR (length xs) * c.
Proof.
  revert ys. induction xs as [|x xs IH]; intros [|y ys] Hc Hlen; try discriminate.
  - unfold dot. simpl. lra.
  - injection Hlen as Hlen.
    destruct (IH ys) as [Hd Hs]; [intros; apply Hc; by right|assumption|].
    change (dot (x :: xs) (y :: ys)) with (x * y + dot xs ys).
    change (Rsum (y :: ys)) with (y + Rsum ys).
    change (Rsum (x :: xs)) with (x + Rsum xs).
    change (length (x :: xs)) with (S (length xs)).
    rewrite S_INR, Hd, Hs, (Hc y) by (by left). lra.
Qed.

Lemma lstsq_line_constant xs ys :
  constant ys -> length xs = length ys -> fst (lstsq_line xs ys) = 0.
Proof.
  intros Hc Hlen. unfold lstsq_line. cbn [fst].
  destruct ys as [|c ys'] eqn:E.
  - destruct xs; [|discriminate]. unfold dot. simpl. unfold Rdiv. ring.
  - rewrite <- E in *.
    destruct (moments_constant xs ys c) as [Hd Hs]; [|assumption|].
    { intros y Hy. apply Hc; [assumption|]. rewrite E. by left. }
    rewrite Hd, Hs. unfold Rdiv. ring.
Qed.

Lemma sideways_zero :
  EvolMerc.get_trend_info (Fin 0) = (label_text SIDEWAYS, label_color SIDEWAYS).
Proof. apply get_trend_info_band. constructor. lra. Qed.

Lemma sideways_zero_old slope :
  EvolMercOld.get_trend_info slope (Fin 0)
  = (label_text_old SIDEWAYS, label_color SIDEWAYS).
Proof. apply get_trend_info_old_band. constructor. lra. Qed.

(** C2. Fewer than two prices (none included), whatever they are: the
    slope is 0.0, the angle is 0.0 and the label is SIDEWAYS; a result, not
    an error.  Both versions of the script. *)
Theorem C2_short_series_is_sideways (prices : list pyfloat) :
  (length prices < 2)%nat ->
  calculate_slope polyfit_illposed prices = Ok (Fin 0, Fin 0) /\
  estimate_trend polyfit_illposed prices
  = Ok (Fin 0, Fin 0, (label_text SIDEWAYS, label_color SIDEWAYS)) /\
  estimate_trend_old polyfit_illposed prices
  = Ok (Fin 0, Fin 0, (label_text_old SIDEWAYS, label_color SIDEWAYS)).
Proof.
  intros H. unfold estimate_trend, estimate_trend_old.
  rewrite (calculate_slope_short _ H). cbn [mbind result_bind].
  by rewrite sideways_zero, sideways_zero_old.
Qed.

(** C4. For at least two prices the slope is the slope of the
    ordinary-least-squares line through the points (0, prices[0]) ..
    (n-1, prices[n-1]): some intercept makes it a line of least squared
    residuals, and every such line has this slope; and the angle is
    atan(slope) * 180 / pi. *)
Theorem C4_slope_is_least_squares (prices : list R) :
  (2 <= length prices)%nat ->
  exists slope,
    calculate_slope polyfit_illposed (map Fin prices)
    = Ok (Fin slope, Fin (atan slope * 180 / PI)) /\
    (exists intercept,
        is_ols_line (indices (length prices)) prices slope intercept) /\
    (forall m b, is_ols_line (indices (length prices)) prices m b -> m = slope).
Proof.
  intros Hn. set (xs := indices (length prices)).
  assert (Hlen : length xs = length prices) by apply length_indices.
  assert (HD : 0 < lstsq_det xs) by (by apply lstsq_det_indices_pos).
  assert (HN : 0 < INR (length xs)).
  { rewrite Hlen. apply (lt_INR 0). lia. }
  exists (fst (lstsq_line xs prices)). split; [|split].
  - rewrite calculate_slope_finite by exact Hn. fold xs.
    do 3 f_equal. pose proof PI_neq0. by field.
  - exists (snd (lstsq_line xs prices)). by apply lstsq_line_is_ols.
  - intros m b Hmb. by eapply ols_slope_unique.
Qed.

End TrendEstimation.

(** * The trend estimation over the line fit of the machine

    [numpy.polyfit] solves the least-squares problem in binary64, so what
    it returns is the least-squares line up to a rounding residue.  The
    results of this part hold for whatever the fit returns, or for a fit
    that is within a stated distance of the exact line. *)

Section MachineFit.

Variable polyfit : list pyfloat -> list pyfloat -> result (pyfloat * pyfloat).

Lemma calculate_slope_exact_fit polyfit_illposed prices :
  calculate_slope polyfit_illposed prices
  = calculate_slope_with (np_polyfit1 polyfit_illposed) prices.
Proof. reflexivity. Qed.

Lemma calculate_slope_with_short prices :
  (length prices < 2)%nat ->
  calculate_slope_with polyfit prices = Ok (Fin 0, Fin 0).
Proof.
  intros H. unfold calculate_slope_with. by apply Nat.ltb_lt in H as ->.
Qed.

Lemma calculate_slope_with_fit prices coeffs :
  (2 <= length prices)%nat ->
  polyfit (np_arange (length prices)) prices = Ok coeffs ->
  calculate_slope_with polyfit prices
  = Ok (fst coeffs, py_mul (np_arctan (fst coeffs)) (Fin (180 / PI))).
Proof.
  intros Hn Hfit. unfold calculate_slope_with.
  assert ((length prices <? 2)%nat = false) as -> by (apply Nat.ltb_ge; lia).
  rewrite Hfit. cbn [mbind result_bind]. by rewrite py_div_180_pi.
Qed.

(** [calculate_slope] raises what the fit raises, and nothing else. *)
Lemma calculate_slope_with_raise prices e :
  calculate_slope_with polyfit prices = Raise e <->
  (2 <= length prices)%nat /\
  polyfit (np_arange (length prices)) prices = Raise e.
Proof.
  destruct (le_lt_dec 2 (length prices)) as [Hn|Hn].
  - destruct (polyfit (np_arange (length prices)) prices) as [coeffs|e'] eqn:Hfit.
    + rewrite (calculate_slope_with_fit _ _ Hn Hfit).
      split; [discriminate|]. intros [_ H]. discriminate.
    + unfold calculate_slope_with.
      assert ((length prices <? 2)%nat = false) as -> by (apply Nat.ltb_ge; lia).
      rewrite Hfit. cbn [mbind result_bind].
      split; [intros [= ->]; by split|]. by intros [_ [= ->]].
  - rewrite calculate_slope_with_short by exact Hn.
    split; [discriminate|]. intros [H _]. lia.
Qed.




(** ** Five degrees *)

Lemma PI_gt_3 : 3 < PI.
Proof. pose proof PI2_3_2. lra. Qed.

Lemma sin_cubic_lower a : 0 <= a -> a <= PI -> a - a * a * a / 6 <= sin a.
Proof.
  intros H0 H1. destruct (sin_bound a 0 H0 H1) as [H _].
  unfold sin_approx, sin_term in H. simpl in H. lra.
Qed.

(** The tangent of five degrees is above 0.08 (it is 0.0875). *)
Lemma tan_5_degrees : 8 / 100 < tan (PI / 36).
Proof.
  pose proof PI_gt_3 as H3. pose proof PI_4 as H4.
  set (y := PI / 36) in *.
  assert (Hy : 1 / 12 < y <= 1 / 9) by (unfold y; lra).
  assert (Hsin : 8 / 100 < sin y).
  { pose proof (sin_cubic_lower y ltac:(lra) ltac:(unfold y; lra)) as H.
    assert (y * y * y <= 1 / 81 * y) by nra.
    lra. }
  assert (Hcos : 0 < cos y) by (apply cos_gt_0; unfold y; lra).
  pose proof (COS_bound y) as [_ Hc1].
  unfold tan. apply Rlt_le_trans with (sin y); [exact Hsin|].
  apply (Rmult_le_reg_r (cos y)); [exact Hcos|].
  unfold Rdiv. rewrite Rmult_assoc, Rinv_l by lra. nra.
Qed.

Lemma angle_below_5 s : s <= 8 / 100 -> atan s * (180 / PI) < 5.
Proof.
  intros Hs. pose proof PI_RGT_0 as Hpi. pose proof tan_5_degrees as Ht.
  assert (Hup : atan s < PI / 36).
  { rewrite <- (atan_tan (PI / 36)) by lra. apply atan_increasing. lra. }
  assert (Hk : 0 < 180 / PI) by (apply Rdiv_lt_0_compat; lra).
  assert (Heq : PI / 36 * (180 / PI) = 5) by (field; lra).
  rewrite <- Heq. apply Rmult_lt_compat_r; assumption.
Qed.

Lemma angle_above_minus_5 s : - (8 / 100) <= s -> -5 < atan s * (180 / PI).
Proof.
  intros Hs. pose proof PI_RGT_0 as Hpi. pose proof tan_5_degrees as Ht.
  assert (Hlo : - (PI / 36) < atan s).
  { rewrite <- (atan_tan (PI / 36)) by lra. rewrite <- atan_opp.
    apply atan_increasing. lra. }
  assert (Hk : 0 < 180 / PI) by (apply Rdiv_lt_0_compat; lra).
  assert (Heq : PI / 36 * (180 / PI) = 5) by (field; lra).
  replace (-5) with (- (PI / 36) * (180 / PI)) by lra.
  apply Rmult_lt_compat_r; assumption.
Qed.


(** ** A fit close to the least-squares line *)


Lemma calculate_slope_with_within tol ps slope :
  (2 <= length ps)%nat -> fit_within tol polyfit ps slope ->
  calculate_slope_with polyfit (map Fin ps)
  = Ok (Fin slope, Fin (atan slope * (180 / PI))).
Proof.
  intros Hn [[intercept Hfit] _].
  rewrite (calculate_slope_with_fit (map Fin ps) (Fin slope, intercept));
    rewrite ?length_map; done.
Qed.


End MachineFit.

(** * Snapshot assembly *)

Section SnapshotAssembly.

Variable polyfit_illposed :
  list pyfloat -> list pyfloat -> result (pyfloat * pyfloat).

Lemma last_default {A} (l : list A) a d d' :
  List.last (a :: l) d = List.last (a :: l) d'.
Proof.
  revert a. induction l as [|b l IH]; intros a; [reflexivity|].
  change (List.last (a :: b :: l) d) with (List.last (b :: l) d).
  change (List.last (a :: b :: l) d') with (List.last (b :: l) d').
  apply IH.
Qed.

Lemma py_last_cons {A} (x : A) l : py_last (x :: l) = Ok (List.last l x).
Proof.
  unfold py_last. revert x. induction l as [|y l IH]; intros x; [reflexivity|].
  change (last (x :: y :: l)) with (last (y :: l)). rewrite IH.
  f_equal. destruct l as [|z l]; [reflexivity|].
  change (List.last (y :: z :: l) x) with (List.last (z :: l) x).
  apply last_default.
Qed.

Lemma dropna_finite_rows quotes : dropna (finite_rows quotes) = finite_rows quotes.
Proof.
  unfold dropna, finite_rows.
  induction quotes as [|q quotes IH]; simpl; [reflexivity|]. by rewrite IH.
Qed.

Lemma prices_finite_rows quotes :
  map snd (finite_rows quotes) = map Fin (map snd quotes).
Proof. unfold finite_rows. by rewrite !map_map. Qed.

Lemma times_finite_rows quotes : map fst (finite_rows quotes) = map fst quotes.
Proof. unfold finite_rows. by rewrite !map_map. Qed.

Lemma last_map_Fin ps p : List.last (map Fin ps) (Fin p) = Fin (List.last ps p).
Proof.
  revert p. induction ps as [|a ps IH]; intros p; [reflexivity|].
  destruct ps as [|b ps]; [reflexivity|]. apply (IH p).
Qed.

Lemma py_truthy_Fin x : py_truthy (Fin x) = if Req_dec_T x 0 then false else true.
Proof. unfold py_truthy, py_eq. by destruct (Req_dec_T x 0). Qed.

Lemma py_div_Fin x y : y <> 0 -> py_div (Fin x) (Fin y) = Ok (Fin (x / y)).
Proof.
  intros Hy. unfold py_div, ieee_div. rewrite py_eq_Fin_false by assumption.
  destruct (Req_dec_T y 0); [contradiction|reflexivity].
Qed.

Lemma py_div_zero a : py_div a (Fin 0) = Raise ZeroDivisionError.
Proof. unfold py_div. by rewrite py_eq_refl_Fin. Qed.

(** The percentage change of [EvolMerc.py] on finite prices. *)
Definition guarded_change_pct (previous current : R) : R :=
  if Req_dec_T previous 0 then 0 else (current - previous) / previous * 100.

(** [EvolMerc.py]: the snapshot of a frame whose prices, once the missing
    ones are dropped, are the numbers [q :: quotes]. *)
Lemma fetch_asset_data_present history symbol info rows q quotes :
  history symbol (EvolMerc.asset_interval info) = HistoryFrame rows ->
  dropna rows = finite_rows (q :: quotes) ->
  let ps := map snd (q :: quotes) in
  let previous := snd q in
  let current := List.last (map snd quotes) (snd q) in
  exists slope angle l,
    calculate_slope polyfit_illposed (map Fin ps) = Ok (Fin slope, Fin angle) /\
    in_band angle l /\
    EvolMerc.fetch_asset_data polyfit_illposed history symbol info
    = Ok (Some {| EvolMerc.current_price := Fin current;
                  EvolMerc.last_time := List.last (map fst quotes) (fst q);
                  EvolMerc.change := Fin (current - previous);
                  EvolMerc.change_pct := Fin (guarded_change_pct previous current);
                  EvolMerc.trend := label_text l;
                  EvolMerc.trend_color := label_color l;
                  EvolMerc.angle := Fin angle;
                  EvolMerc.prices := map Fin ps;
                  EvolMerc.times := map fst (q :: quotes) |}).
Proof.
  intros Hh Hrows ps previous current.
  destruct (calculate_slope_returns polyfit_illposed ps) as (slope & angle & Hs).
  destruct (in_band_total angle) as [l Hl].
  exists slope, angle, l. split; [exact Hs|]. split; [exact Hl|].
  unfold EvolMerc.fetch_asset_data. rewrite Hh.
  assert (is_empty rows = false) as ->.
  { destruct rows; [discriminate Hrows|reflexivity]. }
  rewrite Hrows, prices_finite_rows, times_finite_rows.
  subst ps previous current. cbn [finite_rows map is_empty] in *.
  rewrite !py_last_cons. cbn [py_first mbind result_bind].
  rewrite last_map_Fin, py_truthy_Fin. unfold guarded_change_pct.
  destruct (Req_dec_T (snd q) 0) as [Hz|Hz]; cbn [mbind result_bind py_sub].
  - rewrite Hs. cbn [mbind result_bind].
    by rewrite (get_trend_info_band _ _ Hl).
  - rewrite py_div_Fin by exact Hz. cbn [mbind result_bind py_mul].
    rewrite Hs. cbn [mbind result_bind].
    by rewrite (get_trend_info_band _ _ Hl).
Qed.

(** [EvolMerc.py]: the snapshot of a frame of finite prices. *)
Lemma fetch_asset_data_finite history symbol info q quotes :
  history symbol (EvolMerc.asset_interval info)
  = HistoryFrame (finite_rows (q :: quotes)) ->
  let ps := map snd (q :: quotes) in
  let previous := snd q in
  let current := List.last (map snd quotes) (snd q) in
  exists slope angle l,
    calculate_slope polyfit_illposed (map Fin ps) = Ok (Fin slope, Fin angle) /\
    in_band angle l /\
    EvolMerc.fetch_asset_data polyfit_illposed history symbol info
    = Ok (Some {| EvolMerc.current_price := Fin current;
                  EvolMerc.last_time := List.last (map fst quotes) (fst q);
                  EvolMerc.change := Fin (current - previous);
                  EvolMerc.change_pct := Fin (guarded_change_pct previous current);
                  EvolMerc.trend := label_text l;
                  EvolMerc.trend_color := label_color l;
                  EvolMerc.angle := Fin angle;
                  EvolMerc.prices := map Fin ps;
                  EvolMerc.times := map fst (q :: quotes) |}).
Proof.
  intros Hh. by apply (fetch_asset_data_present _ _ _ _ _ _ Hh), dropna_finite_rows.
Qed.

(** [EvolMerc - old.py]: the body of the [try] block on a frame of at
    least two finite prices. *)
Lemma fetch_asset_data_try_finite history symbol q q' quotes :
  history symbol = HistoryFrame (finite_rows (q :: q' :: quotes)) ->
  let ps := map snd (q :: q' :: quotes) in
  let previous := snd q in
  let current := List.last (map snd (q' :: quotes)) (snd q) in
  exists slope angle l,
    calculate_slope polyfit_illposed (map Fin ps) = Ok (Fin slope, Fin angle) /\
    in_band angle l /\
    EvolMercOld.fetch_asset_data_try polyfit_illposed history symbol
    = if Req_dec_T previous 0 then Raise ZeroDivisionError
      else Ok (Some {| EvolMercOld.symbol := symbol;
                       EvolMercOld.prices := map Fin ps;
                       EvolMercOld.times := map fst (q :: q' :: quotes);
                       EvolMercOld.current_price := Fin current;
                       EvolMercOld.change := Fin (current - previous);
                       EvolMercOld.change_pct :=
                         Fin ((current - previous) / previous * 100);
                       EvolMercOld.slope := Fin slope;
                       EvolMercOld.angle := Fin angle;
                       EvolMercOld.trend := label_text_old l;
                       EvolMercOld.trend_color := label_color l |}).
Proof.
  intros Hh ps previous current.
  destruct (calculate_slope_returns polyfit_illposed ps) as (slope & angle & Hs).
  destruct (in_band_total angle) as [l Hl].
  exists slope, angle, l. split; [exact Hs|]. split; [exact Hl|].
  unfold EvolMercOld.fetch_asset_data_try. rewrite Hh.
  rewrite prices_finite_rows, times_finite_rows.
  subst ps previous current.
  cbn [finite_rows map is_empty length Nat.ltb Nat.leb] in *.
  rewrite !py_last_cons. cbn [py_first mbind result_bind].
  change (Fin (snd q') :: map Fin (map snd quotes))
    with (map Fin (snd q' :: map snd quotes)).
  rewrite last_map_Fin. cbn [py_sub map].
  destruct (Req_dec_T (snd q) 0) as [Hz|Hz].
  - rewrite Hz, py_div_zero. reflexivity.
  - rewrite py_div_Fin by exact Hz. cbn [mbind result_bind py_mul].
    rewrite Hs. cbn [mbind result_bind].
    by rewrite (get_trend_info_old_band _ _ _ Hl).
Qed.

End SnapshotAssembly.

(** * The scenario [1900.0, 1905.0, 1910.0, 1920.0] *)

Section Scenario.

Variable polyfit_illposed :
  list pyfloat -> list pyfloat -> result (pyfloat * pyfloat).

Lemma scenario_slope : fst (lstsq_line (indices 4) [1900; 1905; 1910; 1920]) = 13 / 2.
Proof.
  unfold lstsq_line, lstsq_det, dot, Rsum, indices. cbn. field.
Qed.

Lemma angle_above_45 slope : 1 < slope -> 45 < atan slope * (180 / PI).
Proof.
  intros Hs. pose proof (atan_increasing 1 slope Hs) as H. rewrite atan_1 in H.
  pose proof PI_RGT_0 as Hpi.
  assert (Hk : 0 < 180 / PI) by (apply Rdiv_lt_0_compat; lra).
  assert (H45 : PI / 4 * (180 / PI) = 45) by (field; lra).
  rewrite <- H45. by apply Rmult_lt_compat_r.
Qed.

Lemma scenario_calculate_slope :
  calculate_slope polyfit_illposed [Fin 1900; Fin 1905; Fin 1910; Fin 1920]
  = Ok (Fin (13 / 2), Fin (atan (13 / 2) * (180 / PI))).
Proof.
  change [Fin 1900; Fin 1905; Fin 1910; Fin 1920]
    with (map Fin [1900; 1905; 1910; 1920]).
  rewrite calculate_slope_finite by (simpl; lia).
  change (length [1900; 1905; 1910; 1920]) with 4%nat.
  by rewrite scenario_slope.
Qed.

(** C8. For the prices [1900.0, 1905.0, 1910.0, 1920.0] the slope is
    positive (it is 6.5), the angle is positive (above 45 degrees), the label
    is an "up" label (STRONG_UP), and the snapshot has change = 20.0 and a
    percentage change within 0.005 of 1.05.  Both versions of the script. *)
Theorem C8_scenario (t0 t1 t2 t3 : Z) (symbol : string) (info : EvolMerc.asset_info) :
  let quotes := [(t0, 1900); (t1, 1905); (t2, 1910); (t3, 1920)] in
  exists slope angle,
    0 < slope /\ 0 < angle /\
    estimate_trend polyfit_illposed (map Fin (map snd quotes))
    = Ok (Fin slope, Fin angle, (label_text STRONG_UP, label_color STRONG_UP)) /\
    estimate_trend_old polyfit_illposed (map Fin (map snd quotes))
    = Ok (Fin slope, Fin angle, (label_text_old STRONG_UP, label_color STRONG_UP)) /\
    (exists d pct,
        EvolMerc.fetch_asset_data polyfit_illposed (always (finite_rows quotes))
          symbol info = Ok (Some d) /\
        EvolMerc.change d = Fin 20 /\
        EvolMerc.change_pct d = Fin pct /\ Rabs (pct - 105 / 100) < 5 / 1000 /\
        EvolMerc.angle d = Fin angle /\
        EvolMerc.trend d = label_text STRONG_UP) /\
    (exists d pct,
        EvolMercOld.fetch_asset_data polyfit_illposed
          (always_old (finite_rows quotes)) symbol = Some d /\
        EvolMercOld.change d = Fin 20 /\
        EvolMercOld.change_pct d = Fin pct /\ Rabs (pct - 105 / 100) < 5 / 1000 /\
        EvolMercOld.slope d = Fin slope /\
        EvolMercOld.angle d = Fin angle /\
        EvolMercOld.trend d = label_text_old STRONG_UP).
Proof.
  intros quotes.
  pose proof (angle_above_45 (13 / 2) ltac:(lra)) as Hangle.
  assert (Hband : in_band (atan (13 / 2) * (180 / PI)) STRONG_UP)
    by (constructor; lra).
  assert (Hpct : Rabs ((1920 - 1900) / 1900 * 100 - 105 / 100) < 5 / 1000).
  { apply Rabs_def1; lra. }
  exists (13 / 2), (atan (13 / 2) * (180 / PI)).
  split; [lra|]. split; [lra|].
  unfold estimate_trend, estimate_trend_old. subst quotes. cbn [map snd].
  rewrite scenario_calculate_slope. cbn [mbind result_bind].
  rewrite (get_trend_info_band _ _ Hband), (get_trend_info_old_band _ _ _ Hband).
  split; [reflexivity|]. split; [reflexivity|]. split.
  - destruct (fetch_asset_data_finite polyfit_illposed
                (always (finite_rows [(t0, 1900); (t1, 1905); (t2, 1910); (t3, 1920)]))
                symbol info (t0, 1900) [(t1, 1905); (t2, 1910); (t3, 1920)] eq_refl)
      as (slope & angle & l & Hs & Hl & ->).
    cbn [map snd fst List.last] in *.
    rewrite scenario_calculate_slope in Hs. injection Hs as <- <-.
    rewrite (in_band_unique _ _ _ Hl Hband).
    eexists _, _. split; [reflexivity|]. cbn.
    split; [f_equal; lra|]. unfold guarded_change_pct.
    destruct (Req_dec_T 1900 0); [lra|]. by repeat split.
  - destruct (fetch_asset_data_try_finite polyfit_illposed
                (always_old (finite_rows [(t0, 1900); (t1, 1905); (t2, 1910); (t3, 1920)]))
                symbol (t0, 1900) (t1, 1905) [(t2, 1910); (t3, 1920)] eq_refl)
      as (slope & angle & l & Hs & Hl & Hf).
    cbn [map snd fst List.last] in *.
    rewrite scenario_calculate_slope in Hs. injection Hs as <- <-.
    rewrite (in_band_unique _ _ _ Hl Hband) in Hf.
    destruct (Req_dec_T 1900 0); [lra|].
    unfold EvolMercOld.fetch_asset_data. rewrite Hf.
    eexists _, _. split; [reflexivity|]. cbn.
    split; [f_equal; lra|]. by repeat split.
Qed.

End Scenario.

(** * Percentage change with a zero first price *)

Section ZeroPreviousPrice.

Variable polyfit_illposed :
  list pyfloat -> list pyfloat -> result (pyfloat * pyfloat).

(** [EvolMerc.py] guards the division: when the prices that are not
    missing are numbers, the snapshot is built, its percentage change is
    [(current - previous) / previous * 100], and 0.0 when the first price
    is zero. *)
Lemma change_pct_guarded history symbol info rows q quotes :
  history symbol (EvolMerc.asset_interval info) = HistoryFrame rows ->
  dropna rows = finite_rows (q :: quotes) ->
  let previous := snd q in
  let current := List.last (map snd quotes) (snd q) in
  exists d,
    EvolMerc.fetch_asset_data polyfit_illposed history symbol info = Ok (Some d) /\
    EvolMerc.change d = Fin (current - previous) /\
    (previous <> 0 ->
     EvolMerc.change_pct d = Fin ((current - previous) / previous * 100)) /\
    (previous = 0 -> EvolMerc.change_pct d = Fin 0).
Proof.
  intros Hh Hrows previous current.
  destruct (fetch_asset_data_present polyfit_illposed history symbol info rows
              q quotes Hh Hrows)
    as (slope & angle & l & _ & _ & ->).
  subst previous current.
  eexists. split; [reflexivity|]. cbn. unfold guarded_change_pct.
  split; [reflexivity|].
  destruct (Req_dec_T (snd q) 0); split; intros;
    first [reflexivity | contradiction].
Qed.

(** C3. With the prices [0.0, 1.0] the first price is zero.  [EvolMerc.py]
    gives the snapshot with change 1.0 and percentage change 0.0.
    [EvolMerc - old.py] divides without a guard: the division raises
    [ZeroDivisionError] inside the [try] block and the fetch gives [None],
    so no percentage change is computed. *)
Theorem C3_zero_previous_price (t0 t1 : Z) (symbol : string)
    (info : EvolMerc.asset_info) :
  let rows := finite_rows [(t0, 0); (t1, 1)] in
  (exists d,
      EvolMerc.fetch_asset_data polyfit_illposed (always rows) symbol info
      = Ok (Some d) /\
      EvolMerc.change d = Fin 1 /\ EvolMerc.change_pct d = Fin 0) /\
  EvolMercOld.fetch_asset_data_try polyfit_illposed (always_old rows) symbol
  = Raise ZeroDivisionError /\
  EvolMercOld.fetch_asset_data polyfit_illposed (always_old rows) symbol = None.
Proof.
  intros rows. split; [|split].
  - destruct (change_pct_guarded (always rows) symbol info rows (t0, 0) [(t1, 1)]
                eq_refl (dropna_finite_rows _))
      as (d & Hd & Hc & _ & Hz).
    exists d. split; [exact Hd|]. split; [|by apply Hz].
    rewrite Hc. cbn. f_equal. lra.
  - destruct (fetch_asset_data_try_finite polyfit_illposed (always_old rows)
                symbol (t0, 0) (t1, 1) [] eq_refl) as (? & ? & ? & _ & _ & H).
    cbn [snd] in H. destruct (Req_dec_T 0 0); [exact H|contradiction].
  - unfold EvolMercOld.fetch_asset_data.
    destruct (fetch_asset_data_try_finite polyfit_illposed (always_old rows)
                symbol (t0, 0) (t1, 1) [] eq_refl) as (? & ? & ? & _ & _ & H).
    cbn [snd] in H. destruct (Req_dec_T 0 0); [by rewrite H|contradiction].
Qed.

End ZeroPreviousPrice.

(** * The data store *)

Section StoreFold.

Context {B V : Type}.
Variable get : string -> B -> option V.
Variable step : gmap string V -> string * B -> gmap string V.
Hypothesis step_spec : forall st e,
  step st e = match get (fst e) (snd e) with
              | Some d => <[fst e := d]> st
              | None => st
              end.

Lemma fold_step_other l st s :
  ~ In s (map fst l) -> fold_left step l st !! s = st !! s.
Proof.
  revert st. induction l as [|e l IH]; intros st Hs; [reflexivity|].
  cbn [fold_left]. rewrite IH by (intros H; apply Hs; by right).
  rewrite step_spec. destruct (get _ _); [|reflexivity].
  apply lookup_insert_ne. intros Heq. apply Hs. by left.
Qed.

Lemma fold_step_lookup l st s b :
  NoDup (map fst l) -> In (s, b) l ->
  fold_left step l st !! s
  = match get s b with Some d => Some d | None => st !! s end.
Proof.
  revert st. induction l as [|e l IH]; intros st Hnd Hin; [destruct Hin|].
  cbn [map] in Hnd. apply NoDup_cons in Hnd as [Hfresh Hnd].
  cbn [fold_left]. destruct Hin as [->|Hin].
  - rewrite fold_step_other by (by rewrite <- list_elem_of_In).
    rewrite step_spec. cbn [fst snd].
    destruct (get s b); [apply lookup_insert_eq|reflexivity].
  - rewrite (IH _ Hnd Hin).
    destruct (get s b); [reflexivity|].
    rewrite step_spec. destruct (get _ _); [|reflexivity].
    apply lookup_insert_ne. intros Heq. apply Hfresh.
    rewrite list_elem_of_In, Heq. by apply (in_map fst _ (s, b)).
Qed.

End StoreFold.

Section DataStore.

Variable polyfit_illposed :
  list pyfloat -> list pyfloat -> result (pyfloat * pyfloat).

Lemma ASSETS_keys_NoDup : NoDup (map fst EvolMerc.ASSETS).
Proof. apply (bool_decide_unpack _). by vm_compute. Qed.

Lemma ASSETS_old_keys_NoDup : NoDup (map fst EvolMercOld.ASSETS).
Proof. apply (bool_decide_unpack _). by vm_compute. Qed.

Lemma dropna_all_missing rows :
  Forall (fun row => snd row = NaN) rows -> dropna rows = [].
Proof.
  unfold dropna. induction 1 as [|row rows Hrow _ IH]; [reflexivity|].
  cbn [List.filter]. by rewrite Hrow, IH.
Qed.

(** ** [EvolMerc.py] *)

(** A failed fetch gives no data: an exception of the provider is caught
    by the loading loop, no result and a frame without prices make
    [fetch_asset_data] return [None]. *)
Lemma fetch_failure_no_data history symbol info :
  fetch_failure (history symbol (EvolMerc.asset_interval info)) ->
  try_except (EvolMerc.fetch_asset_data polyfit_illposed history symbol info)
             (fun _ => None) = None.
Proof.
  unfold EvolMerc.fetch_asset_data. intros H.
  destruct H as [e| |rows Hrows]; [reflexivity..|].
  rewrite (dropna_all_missing _ Hrows). by destruct rows.
Qed.

(** The entry of a configured symbol is what its own fetch gave. *)
Lemma data_store_lookup history symbol info :
  In (symbol, info) EvolMerc.ASSETS ->
  EvolMerc.data_store polyfit_illposed history !! symbol
  = try_except (EvolMerc.fetch_asset_data polyfit_illposed history symbol info)
               (fun _ => None).
Proof.
  intros Hin. unfold EvolMerc.data_store.
  rewrite (fold_step_lookup
             (fun s i => try_except
                           (EvolMerc.fetch_asset_data polyfit_illposed history s i)
                           (fun _ => None))
             (EvolMerc.load_step polyfit_illposed history)
             ltac:(by intros st [s i]) _ _ _ _ ASSETS_keys_NoDup Hin).
  by destruct (try_except _ _).
Qed.

Lemma data_store_lookup_unknown history symbol :
  ~ In symbol (map fst EvolMerc.ASSETS) ->
  EvolMerc.data_store polyfit_illposed history !! symbol = None.
Proof.
  intros Hin. unfold EvolMerc.data_store.
  by rewrite (fold_step_other
                (fun s i => try_except
                              (EvolMerc.fetch_asset_data polyfit_illposed history s i)
                              (fun _ => None))
                (EvolMerc.load_step polyfit_illposed history)
                ltac:(by intros st [s i]) _ _ _ Hin).
Qed.

Lemma fetch_asset_data_ext history history' symbol info :
  history symbol (EvolMerc.asset_interval info)
  = history' symbol (EvolMerc.asset_interval info) ->
  EvolMerc.fetch_asset_data polyfit_illposed history symbol info
  = EvolMerc.fetch_asset_data polyfit_illposed history' symbol info.
Proof. unfold EvolMerc.fetch_asset_data. by intros ->. Qed.

Lemma in_keys {B} (l : list (string * B)) s :
  In s (map fst l) -> exists b, In (s, b) l.
Proof.
  intros H. apply in_map_iff in H as ([s' b] & Hs & Hin).
  simpl in Hs. subst. by exists b.
Qed.



(** The entry of a symbol depends on the provider's answers for that
    symbol only. *)
Lemma data_store_isolated history history' symbol :
  (forall interval, history symbol interval = history' symbol interval) ->
  EvolMerc.data_store polyfit_illposed history !! symbol
  = EvolMerc.data_store polyfit_illposed history' !! symbol.
Proof.
  intros Hsame.
  destruct (in_dec string_dec symbol (map fst EvolMerc.ASSETS)) as [Hin|Hin].
  - apply in_keys in Hin as [info Hin].
    rewrite !(data_store_lookup _ _ _ Hin).
    by rewrite (fetch_asset_data_ext history history').
  - by rewrite !data_store_lookup_unknown.
Qed.

(** ** [EvolMerc - old.py] *)

Lemma update_all_data_pass_lookup history store symbol :
  In symbol (map fst EvolMercOld.ASSETS) ->
  EvolMercOld.update_all_data_pass polyfit_illposed history store !! symbol
  = match EvolMercOld.fetch_asset_data polyfit_illposed history symbol with
    | Some d => Some d
    | None => store !! symbol
    end.
Proof.
  intros Hin. apply in_keys in Hin as [info Hin].
  unfold EvolMercOld.update_all_data_pass.
  by rewrite (fold_step_lookup
                (fun s _ => EvolMercOld.fetch_asset_data polyfit_illposed history s)
                (EvolMercOld.update_step polyfit_illposed history)
                ltac:(done) _ _ _ _ ASSETS_old_keys_NoDup Hin).
Qed.

Lemma update_all_data_pass_unknown history store symbol :
  ~ In symbol (map fst EvolMercOld.ASSETS) ->
  EvolMercOld.update_all_data_pass polyfit_illposed history store !! symbol
  = store !! symbol.
Proof.
  intros Hin. unfold EvolMercOld.update_all_data_pass.
  by rewrite (fold_step_other
                (fun s (_ : EvolMercOld.asset_info) =>
                   EvolMercOld.fetch_asset_data polyfit_illposed history s)
                (EvolMercOld.update_step polyfit_illposed history)
                ltac:(done) _ _ _ Hin).
Qed.

Lemma fetch_asset_data_old_ext history history' symbol :
  history symbol = history' symbol ->
  EvolMercOld.fetch_asset_data polyfit_illposed history symbol
  = EvolMercOld.fetch_asset_data polyfit_illposed history' symbol.
Proof.
  unfold EvolMercOld.fetch_asset_data, EvolMercOld.fetch_asset_data_try.
  by intros ->.
Qed.

Lemma update_all_data_pass_isolated history history' store symbol :
  history symbol = history' symbol ->
  EvolMercOld.update_all_data_pass polyfit_illposed history store !! symbol
  = EvolMercOld.update_all_data_pass polyfit_illposed history' store !! symbol.
Proof.
  intros Hsame.
  destruct (in_dec string_dec symbol (map fst EvolMercOld.ASSETS)) as [Hin|Hin].
  - rewrite !(update_all_data_pass_lookup _ _ _ Hin).
    by rewrite (fetch_asset_data_old_ext history history').
  - by rewrite !update_all_data_pass_unknown.
Qed.

(** The fetch of the old script on a failure: the [except] clause turns an
    exception of the provider into [None], and a frame with fewer than two
    rows gives [None].  A frame of two or more rows whose prices are all
    missing is not filtered; the fetch gives [None] when the line fit
    raises on it. *)
Lemma fetch_failure_no_data_old history symbol :
  fetch_failure (history symbol) ->
  (forall rows,
      history symbol = HistoryFrame rows -> (2 <= length rows)%nat ->
      raises (calculate_slope polyfit_illposed (map snd rows))) ->
  EvolMercOld.fetch_asset_data polyfit_illposed history symbol = None.
Proof.
  unfold EvolMercOld.fetch_asset_data, EvolMercOld.fetch_asset_data_try.
  intros H Hfit. destruct H as [e| |rows Hrows]; [reflexivity..|].
  destruct rows as [|r1 rows]; [reflexivity|]. cbn [is_empty].
  rewrite length_map.
  destruct (length (r1 :: rows) <? 2)%nat eqn:Hlen; [reflexivity|].
  apply Nat.ltb_ge in Hlen.
  destruct (Hfit _ eq_refl Hlen) as [e He].
  destruct (py_last _); [|reflexivity]. cbn [mbind result_bind].
  destruct (py_first _); [|reflexivity]. cbn [mbind result_bind].
  destruct (py_div _ _); [|reflexivity]. cbn [mbind result_bind].
  by rewrite He.
Qed.

End DataStore.

(** * Chart normalisation *)

Section Normalisation.

(** ** Traversals *)


Lemma traverse_returns {A B} (f : A -> result B) l :
  (forall a, In a l -> returns (f a)) -> returns (traverse f l).
Proof.
  induction l as [|a l IH]; intros H; [by eexists|].
  destruct (H a) as [b Hb]; [by left|].
  destruct IH as [bs Hbs]; [intros; apply H; by right|].
  exists (b :: bs). cbn [traverse]. by rewrite Hb, Hbs.
Qed.

Lemma traverse_In {A B} (f : A -> result B) l r b :
  traverse f l = Ok r -> In b r -> exists a, In a l /\ f a = Ok b.
Proof.
  revert r. induction l as [|a l IH]; intros r Hr Hb.
  - injection Hr as <-. destruct Hb.
  - cbn [traverse] in Hr. destruct (f a) as [b0|] eqn:Ha; [|discriminate].
    cbn [mbind result_bind] in Hr.
    destruct (traverse f l) as [bs|] eqn:Hl; [|discriminate].
    injection Hr as <-. destruct Hb as [<-|Hb].
    + exists a. split; [by left|assumption].
    + destruct (IH bs eq_refl Hb) as (a' & Hin & Hf).
      exists a'. split; [by right|assumption].
Qed.

Lemma traverse_complete {A B} (f : A -> result B) l r a b :
  traverse f l = Ok r -> In a l -> f a = Ok b -> In b r.
Proof.
  revert r. induction l as [|a0 l IH]; intros r Hr Ha Hf; [destruct Ha|].
  cbn [traverse] in Hr. destruct (f a0) as [b0|] eqn:Ha0; [|discriminate].
  cbn [mbind result_bind] in Hr.
  destruct (traverse f l) as [bs|] eqn:Hl; [|discriminate].
  injection Hr as <-. destruct Ha as [->|Ha].
  - left. congruence.
  - right. by apply IH.
Qed.

Lemma filter_result_returns {A} (f : A -> result bool) l :
  (forall a, In a l -> returns (f a)) -> returns (filter_result f l).
Proof.
  induction l as [|a l IH]; intros H; [by eexists|].
  destruct (H a) as [b Hb]; [by left|].
  destruct IH as [bs Hbs]; [intros; apply H; by right|].
  eexists. cbn [filter_result]. by rewrite Hb, Hbs.
Qed.

Lemma filter_result_In {A} (f : A -> result bool) l r a :
  filter_result f l = Ok r -> (In a r <-> In a l /\ f a = Ok true).
Proof.
  revert r. induction l as [|a0 l IH]; intros r Hr.
  - injection Hr as <-. simpl. tauto.
  - cbn [filter_result] in Hr. destruct (f a0) as [keep|] eqn:Ha0; [|discriminate].
    cbn [mbind result_bind] in Hr.
    destruct (filter_result f l) as [rest|] eqn:Hl; [|discriminate].
    injection Hr as <-. specialize (IH rest eq_refl).
    destruct keep; simpl; rewrite ?IH; split.
    + intros [->|[? ?]]; auto.
    + intros [[->|?] ?]; auto.
    + intros [? ?]; auto.
    + intros [[->|?] ?]; [congruence|auto].
Qed.


(** ** Least and greatest price *)

Lemma fold_min_Fin ps x :
  exists lo,
    fold_left (fun m y => if py_lt y m then y else m) (map Fin ps) (Fin x) = Fin lo /\
    is_least lo (x :: ps).
Proof.
  revert x. induction ps as [|p ps IH]; intros x.
  - exists x. split; [reflexivity|]. split; [by left|]. intros q [<-|[]]. lra.
  - cbn [map fold_left]. unfold py_lt at 2.
    destruct (Rlt_dec p x) as [Hlt|Hge].
    + destruct (IH p) as (lo & -> & Hin & Hle). exists lo. split; [reflexivity|].
      split; [by right|].
      intros q [<-|Hq]; [|by apply Hle]. specialize (Hle p ltac:(by left)). lra.
    + destruct (IH x) as (lo & -> & Hin & Hle). exists lo. split; [reflexivity|].
      split; [destruct Hin as [->|Hin]; [by left|by right; right]|].
      intros q [<-|[<-|Hq]].
      * apply Hle. by left.
      * specialize (Hle x ltac:(by left)). lra.
      * apply Hle. by right.
Qed.

Lemma fold_max_Fin ps x :
  exists hi,
    fold_left (fun m y => if py_gt y m then y else m) (map Fin ps) (Fin x) = Fin hi /\
    is_greatest hi (x :: ps).
Proof.
  revert x. induction ps as [|p ps IH]; intros x.
  - exists x. split; [reflexivity|]. split; [by left|]. intros q [<-|[]]. lra.
  - cbn [map fold_left]. unfold py_gt at 2, py_lt.
    destruct (Rlt_dec x p) as [Hlt|Hge].
    + destruct (IH p) as (hi & -> & Hin & Hle). exists hi. split; [reflexivity|].
      split; [by right|].
      intros q [<-|Hq]; [|by apply Hle]. specialize (Hle p ltac:(by left)). lra.
    + destruct (IH x) as (hi & -> & Hin & Hle). exists hi. split; [reflexivity|].
      split; [destruct Hin as [->|Hin]; [by left|by right; right]|].
      intros q [<-|[<-|Hq]].
      * apply Hle. by left.
      * specialize (Hle x ltac:(by left)). lra.
      * apply Hle. by right.
Qed.

Lemma is_least_unique lo lo' ps : is_least lo ps -> is_least lo' ps -> lo = lo'.
Proof.
  intros [Hin Hle] [Hin' Hle']. specialize (Hle _ Hin'). specialize (Hle' _ Hin). lra.
Qed.

Lemma is_greatest_unique hi hi' ps :
  is_greatest hi ps -> is_greatest hi' ps -> hi = hi'.
Proof.
  intros [Hin Hle] [Hin' Hle']. specialize (Hle _ Hin'). specialize (Hle' _ Hin). lra.
Qed.

Lemma constant_iff lo hi ps :
  is_least lo ps -> is_greatest hi ps -> (constant ps <-> lo = hi).
Proof.
  intros [Hlo Hle] [Hhi Hge]. split.
  - intros Hc. by apply Hc.
  - intros <- p q Hp Hq.
    pose proof (Hle p Hp). pose proof (Hge p Hp).
    pose proof (Hle q Hq). pose proof (Hge q Hq). lra.
Qed.

Lemma constant_nil : constant [].
Proof. intros p q []. Qed.


(** ** The normalised values *)






(** ** [EvolMerc - old.py] *)


(** The comprehension never divides by zero, whatever the prices. *)
Lemma py_sub_ne_zero a b : py_ne a b = true -> py_eq (py_sub a b) (Fin 0) = false.
Proof.
  unfold py_ne. destruct a, b; cbn; try reflexivity; try discriminate.
  destruct (Req_dec_T x x0); [discriminate|]. intros _.
  destruct (Req_dec_T (x - x0) 0); [lra|reflexivity].
Qed.

Lemma normalized_old_returns prices : returns (EvolMercOld.normalized prices).
Proof.
  unfold EvolMercOld.normalized. apply traverse_returns. intros p Hp.
  destruct prices as [|p0 prices']; [destruct Hp|].
  cbn [py_max py_min mbind result_bind].
  destruct (py_ne _ _) eqn:Hne; [|by eexists].
  unfold py_div. rewrite (py_sub_ne_zero _ _ Hne). by eexists.
Qed.

(** ** [EvolMerc.py] *)


End Normalisation.

(** * The traces of the figure *)

Section ChartTraces.

(** ** [EvolMerc.py] *)

Lemma chartable_returns store s : returns (EvolMerc.chartable store s).
Proof.
  unfold EvolMerc.chartable. destruct (store !! s) as [d|]; [|by eexists].
  destruct (EvolMerc.prices d) as [|p ps]; [by eexists|].
  destruct (1 <? _)%nat; by eexists.
Qed.

Lemma chartable_true store s :
  EvolMerc.chartable store s = Ok true ->
  exists d mn mx,
    store !! s = Some d /\ (1 < length (EvolMerc.prices d))%nat /\
    py_min (EvolMerc.prices d) = Ok mn /\ py_max (EvolMerc.prices d) = Ok mx /\
    py_ne mn mx = true.
Proof.
  unfold EvolMerc.chartable. destruct (store !! s) as [d|]; [|discriminate].
  destruct (1 <? _)%nat eqn:Hlen; [|discriminate].
  apply Nat.ltb_lt in Hlen.
  destruct (py_min _) as [mn|] eqn:Hmin; [|discriminate].
  destruct (py_max _) as [mx|] eqn:Hmax; [|discriminate].
  cbn [mbind result_bind]. intros [= Hne]. by exists d, mn, mx.
Qed.

Lemma chartable_not_constant store s d ps :
  store !! s = Some d -> EvolMerc.prices d = map Fin ps ->
  EvolMerc.chartable store s = Ok true -> ~ constant ps.
Proof.
  intros Hd Hps Hc.
  apply chartable_true in Hc as (d' & mn & mx & Hd' & Hlen & Hmin & Hmax & Hne).
  rewrite Hd in Hd'. injection Hd' as <-. rewrite Hps in *.
  destruct ps as [|p0 ps']; [simpl in Hlen; lia|].
  destruct (fold_min_Fin ps' p0) as (lo & Hfmin & Hlo).
  destruct (fold_max_Fin ps' p0) as (hi & Hfmax & Hhi).
  cbn in Hmin, Hmax. rewrite Hfmin in Hmin. rewrite Hfmax in Hmax.
  injection Hmin as <-. injection Hmax as <-.
  intros Hconst. apply (constant_iff lo hi) in Hconst; [|assumption..].
  unfold py_ne in Hne. by rewrite (proj2 (py_eq_Fin lo hi) Hconst) in Hne.
Qed.

Lemma constant_short ps : (length ps <= 1)%nat -> constant ps.
Proof.
  destruct ps as [|p [|q ps]]; simpl; intros H; try lia.
  - apply constant_nil.
  - intros a b [<-|[]] [<-|[]]. reflexivity.
Qed.

Lemma chartable_finite_iff store s d ps :
  store !! s = Some d -> EvolMerc.prices d = map Fin ps ->
  (EvolMerc.chartable store s = Ok true <-> ~ constant ps).
Proof.
  intros Hd Hps. split; [by apply (chartable_not_constant store s d)|].
  intros Hnc. unfold EvolMerc.chartable. rewrite Hd, Hps, length_map.
  destruct (le_lt_dec (length ps) 1) as [Hshort|Hlong];
    [destruct Hnc; by apply constant_short|].
  apply Nat.ltb_lt in Hlong as ->.
  destruct ps as [|p0 ps']; [destruct Hnc; apply constant_nil|].
  destruct (fold_min_Fin ps' p0) as (lo & Hmin & Hlo).
  destruct (fold_max_Fin ps' p0) as (hi & Hmax & Hhi).
  cbn [map py_min py_max]. rewrite Hmin, Hmax. cbn [mbind result_bind].
  unfold py_ne. rewrite py_eq_Fin_false; [reflexivity|].
  intros Heq. apply Hnc. by apply (constant_iff lo hi).
Qed.

Lemma filter_result_sublist {A} (f : A -> result bool) l r :
  filter_result f l = Ok r -> sublist r l.
Proof.
  revert r. induction l as [|a l IH]; intros r Hr.
  - injection Hr as <-. constructor.
  - cbn [filter_result] in Hr. destruct (f a) as [keep|]; [|discriminate].
    cbn [mbind result_bind] in Hr.
    destruct (filter_result f l) as [rest|]; [|discriminate].
    injection Hr as <-. destruct keep; constructor; by apply IH.
Qed.

Lemma scripts_returns store : returns (EvolMerc.scripts store).
Proof.
  apply filter_result_returns. intros; apply chartable_returns.
Qed.

(** The chartable symbols are symbols of the table: seven at most. *)
Lemma scripts_length store ss :
  EvolMerc.scripts store = Ok ss -> (length ss <= 7)%nat.
Proof.
  intros Hss. apply filter_result_sublist in Hss.
  by apply sublist_length in Hss.
Qed.

(** [make_subplots] with the spacing of the page, 0.06, takes up to
    seventeen rows. *)
Lemma make_subplots_rows n :
  (1 <= n <= 17)%nat -> make_subplots n (6 / 100) = Ok n.
Proof.
  intros Hn. unfold make_subplots.
  assert ((n =? 0)%nat = false) as -> by (apply Nat.eqb_neq; lia).
  destruct (Rlt_dec (6 / 100) 0); [lra|].
  destruct (Rlt_dec 1 (6 / 100)); [lra|].
  destruct (n <=? 1)%nat eqn:Hone; [reflexivity|].
  apply Nat.leb_gt in Hone.
  destruct (Rlt_dec (1 / INR (n - 1)) (6 / 100)) as [Hspace|]; [|reflexivity].
  assert (H1 : 1 <= INR (n - 1)) by (apply (le_INR 1); lia).
  assert (H16 : INR (n - 1) <= 16).
  { replace 16 with (INR 16) by (simpl; lra). apply le_INR. lia. }
  assert (Hinv : 1 / INR (n - 1) * INR (n - 1) = 1) by (field; lra).
  nra.
Qed.

(** With no symbol to draw, [make_subplots] is asked for zero rows. *)
Lemma draw_traces_nil store : EvolMerc.draw_traces store [] = Raise ValueError.
Proof. reflexivity. Qed.

Lemma draw_traces_cons store s ss :
  (length (s :: ss) <= 17)%nat ->
  EvolMerc.draw_traces store (s :: ss)
  = traverse (EvolMerc.draw_trace store) (s :: ss).
Proof.
  intros Hlen. unfold EvolMerc.draw_traces.
  rewrite make_subplots_rows by (cbn [length] in *; lia). reflexivity.
Qed.

Lemma draw_traces_Ok store ss traces :
  EvolMerc.draw_traces store ss = Ok traces ->
  ss <> [] /\ traverse (EvolMerc.draw_trace store) ss = Ok traces.
Proof.
  destruct ss as [|s ss]; [discriminate|].
  unfold EvolMerc.draw_traces. destruct (make_subplots _ _); [|discriminate].
  intros Ht. split; [discriminate|exact Ht].
Qed.

(** A trace that is drawn is that of an entry with one time per price. *)
Lemma draw_trace_Ok store s trace :
  EvolMerc.draw_trace store s = Ok trace ->
  exists d,
    store !! s = Some d /\
    length (EvolMerc.prices d) = length (EvolMerc.times d) /\
    trace = (s, EvolMerc.normalized (EvolMerc.prices d)).
Proof.
  unfold EvolMerc.draw_trace, pd_Series.
  destruct (store !! s) as [d|]; [|discriminate].
  destruct (_ =? _)%nat eqn:Hlen; [|discriminate].
  apply Nat.eqb_eq in Hlen. cbn [mbind result_bind]. intros [= <-]. by exists d.
Qed.

Lemma draw_trace_aligned store s d :
  store !! s = Some d ->
  length (EvolMerc.prices d) = length (EvolMerc.times d) ->
  EvolMerc.draw_trace store s = Ok (s, EvolMerc.normalized (EvolMerc.prices d)).
Proof.
  intros Hd Hlen. unfold EvolMerc.draw_trace, pd_Series. rewrite Hd, Hlen.
  by rewrite Nat.eqb_refl.
Qed.

Lemma traverse_each {A B} (f : A -> result B) l r a :
  traverse f l = Ok r -> In a l -> exists b, f a = Ok b.
Proof.
  revert r. induction l as [|x l IH]; intros r Hr Hin; [destruct Hin|].
  cbn [traverse] in Hr. destruct (f x) as [b|] eqn:Hx; [|discriminate].
  cbn [mbind result_bind] in Hr.
  destruct (traverse f l) as [bs|]; [|discriminate].
  destruct Hin as [<-|Hin]; [by exists b|]. by apply (IH bs).
Qed.

Lemma chart_traces_Ok store traces :
  EvolMerc.chart_traces store = Ok traces ->
  exists ss,
    EvolMerc.scripts store = Ok ss /\ ss <> [] /\
    traverse (EvolMerc.draw_trace store) ss = Ok traces.
Proof.
  unfold EvolMerc.chart_traces. intros Ht.
  destruct (EvolMerc.scripts store) as [ss|]; [|discriminate].
  cbn [mbind result_bind] in Ht. exists ss. split; [reflexivity|].
  by apply draw_traces_Ok.
Qed.

Lemma chart_traces_In store traces s ys :
  EvolMerc.chart_traces store = Ok traces -> In (s, ys) traces ->
  EvolMerc.chartable store s = Ok true /\
  exists d, store !! s = Some d /\ ys = EvolMerc.normalized (EvolMerc.prices d).
Proof.
  intros Ht Hin. apply chart_traces_Ok in Ht as (ss & Hss & _ & Ht).
  destruct (traverse_In _ _ _ _ Ht Hin) as (sym & Hsym & Hf).
  apply (filter_result_In _ _ _ sym Hss) in Hsym as [_ Hc].
  apply draw_trace_Ok in Hf as (d & Hd & _ & [= <- ->]).
  split; [exact Hc|]. by exists d.
Qed.

(** No chartable symbol: the figure is not built, [make_subplots] raises. *)
Lemma chart_traces_none store :
  EvolMerc.scripts store = Ok [] -> EvolMerc.chart_traces store = Raise ValueError.
Proof. unfold EvolMerc.chart_traces. by intros ->. Qed.

(** Some chartable symbol: the figure is built, with a trace at least. *)
Lemma chart_traces_some store ss :
  aligned store ->
  EvolMerc.scripts store = Ok ss -> ss <> [] ->
  exists traces, EvolMerc.chart_traces store = Ok traces /\ traces <> [].
Proof.
  intros Hal Hss Hne. unfold EvolMerc.chart_traces. rewrite Hss.
  cbn [mbind result_bind]. pose proof (scripts_length _ _ Hss) as Hlen.
  destruct ss as [|s ss]; [done|].
  rewrite draw_traces_cons by lia.
  destruct (traverse_returns (EvolMerc.draw_trace store) (s :: ss)) as [traces Ht].
  - intros sym Hsym. apply (filter_result_In _ _ _ sym Hss) in Hsym as [_ Hc].
    apply chartable_true in Hc as (d & _ & _ & Hd & _).
    eexists. apply (draw_trace_aligned store sym d Hd). by apply (Hal sym).
  - exists traces. split; [exact Ht|]. intros ->.
    cbn [traverse] in Ht. destruct (EvolMerc.draw_trace store s); [|discriminate].
    cbn [mbind result_bind] in Ht. destruct (traverse _ ss); discriminate.
Qed.



(** ** [EvolMerc - old.py] *)


Lemma chart_traces_old_returns store : returns (EvolMercOld.chart_traces store).
Proof.
  unfold EvolMercOld.chart_traces.
  destruct (traverse_returns (EvolMercOld.chart_trace store) EvolMercOld.ASSETS)
    as [opts ->]; [|by eexists].
  intros entry _. unfold EvolMercOld.chart_trace.
  destruct (store !! fst entry) as [d|]; [|by eexists].
  destruct (normalized_old_returns (EvolMercOld.prices d)) as [ys ->]. by eexists.
Qed.


(** Every chartable asset has its trace. *)
Lemma chart_traces_complete store traces s d :
  EvolMerc.chart_traces store = Ok traces ->
  In s (map fst EvolMerc.ASSETS) -> store !! s = Some d ->
  EvolMerc.chartable store s = Ok true ->
  In (s, EvolMerc.normalized (EvolMerc.prices d)) traces.
Proof.
  intros Ht Hin Hd Hc. apply chart_traces_Ok in Ht as (ss & Hss & _ & Ht).
  assert (Hs : In s ss) by (by apply (filter_result_In _ _ _ s Hss)).
  destruct (traverse_each _ _ _ s Ht Hs) as [trace Htrace].
  apply (traverse_complete _ _ _ s _ Ht Hs).
  destruct (draw_trace_Ok _ _ _ Htrace) as (d' & Hd' & _ & ->). congruence.
Qed.

(** A chartable asset makes [scripts] non-empty, so the figure is built
    and holds its trace. *)
Lemma chart_traces_chartable store s d :
  aligned store ->
  In s (map fst EvolMerc.ASSETS) -> store !! s = Some d ->
  EvolMerc.chartable store s = Ok true ->
  exists traces,
    EvolMerc.chart_traces store = Ok traces /\
    In (s, EvolMerc.normalized (EvolMerc.prices d)) traces.
Proof.
  intros Hal Hin Hd Hc. destruct (scripts_returns store) as [ss Hss].
  assert (Hs : In s ss) by (by apply (filter_result_In _ _ _ s Hss)).
  destruct (chart_traces_some store ss Hal Hss) as (traces & Ht & _).
  { intros ->. destruct Hs. }
  exists traces. split; [exact Ht|].
  by apply (chart_traces_complete store traces s d).
Qed.


End ChartTraces.

(** * Fetch failures *)

Section FetchFailures.

Variable polyfit_illposed :
  list pyfloat -> list pyfloat -> result (pyfloat * pyfloat).

(** [EvolMerc - old.py] on a frame of two or more rows whose prices are all
    missing: the fetch gives [None] exactly when the line fit raises. *)
Lemma all_missing_old history symbol rows :
  history symbol = HistoryFrame rows -> (2 <= length rows)%nat ->
  Forall (fun row => snd row = NaN) rows ->
  (EvolMercOld.fetch_asset_data polyfit_illposed history symbol = None <->
   raises (calculate_slope polyfit_illposed (map snd rows))).
Proof.
  intros Hh Hlen Hnan.
  unfold EvolMercOld.fetch_asset_data, EvolMercOld.fetch_asset_data_try.
  rewrite Hh. destruct rows as [|r1 rows]; [simpl in Hlen; lia|].
  cbn [is_empty]. rewrite length_map.
  assert ((length (r1 :: rows) <? 2)%nat = false) as -> by (apply Nat.ltb_ge; lia).
  cbn [map]. rewrite py_last_cons. cbn [py_first mbind result_bind].
  apply Forall_cons in Hnan as [-> _].
  assert (Hdiv : forall a, py_div a NaN = Ok (ieee_div a NaN)) by reflexivity.
  rewrite Hdiv. cbn [mbind result_bind].
  destruct (calculate_slope _ _) as [[slope angle]|e]; cbn [mbind result_bind].
  - destruct (EvolMercOld.get_trend_info slope angle). cbn [try_except].
    split; [discriminate|]. intros [e He]. discriminate.
  - split; [by eexists|reflexivity].
Qed.

(** On missing prices the fit is what [numpy.polyfit] does with NaN. *)
Lemma np_polyfit1_all_missing x (rows : list (Z * pyfloat)) :
  rows <> [] -> Forall (fun row => snd row = NaN) rows ->
  np_polyfit1 polyfit_illposed x (map snd rows) = polyfit_illposed x (map snd rows).
Proof.
  intros Hne Hnan. destruct rows as [|r1 rows]; [done|].
  apply Forall_cons in Hnan as [Hr1 _]. unfold np_polyfit1. cbn [map finite_values].
  rewrite Hr1. by destruct (finite_values x).
Qed.

Lemma calculate_slope_all_missing (rows : list (Z * pyfloat)) :
  (2 <= length rows)%nat -> Forall (fun row => snd row = NaN) rows ->
  (raises (calculate_slope polyfit_illposed (map snd rows)) <->
   raises (polyfit_illposed (np_arange (length rows)) (map snd rows))).
Proof.
  intros Hlen Hnan. rewrite calculate_slope_exact_fit.
  assert (Hne : rows <> []) by (intros ->; simpl in Hlen; lia).
  pose proof (np_polyfit1_all_missing (np_arange (length rows)) rows Hne Hnan) as Hfit.
  split; intros [e He]; exists e.
  - apply calculate_slope_with_raise in He as [_ He].
    rewrite length_map in He. by rewrite <- Hfit.
  - apply calculate_slope_with_raise. rewrite !length_map. by rewrite Hfit.
Qed.

(** The old script when [numpy.polyfit] lets NaN through: a frame of two
    missing prices gives a snapshot of NaN, with the last label. *)
Lemma fetch_missing_rows_old symbol :
  EvolMercOld.fetch_asset_data polyfit_nan (always_old missing_rows) symbol
  = Some {| EvolMercOld.symbol := symbol;
            EvolMercOld.prices := [NaN; NaN];
            EvolMercOld.times := [0; 60]%Z;
            EvolMercOld.current_price := NaN;
            EvolMercOld.change := NaN;
            EvolMercOld.change_pct := NaN;
            EvolMercOld.slope := NaN;
            EvolMercOld.angle := NaN;
            EvolMercOld.trend := "📉 FORTE BAIXA";
            EvolMercOld.trend_color := "#EF4444" |}.
Proof.
  unfold EvolMercOld.fetch_asset_data, EvolMercOld.fetch_asset_data_try,
    always_old, missing_rows.
  cbn [is_empty map snd fst length Nat.ltb Nat.leb].
  assert (Hlast : py_last [NaN; NaN] = Ok NaN) by reflexivity.
  rewrite Hlast. cbn [py_first mbind result_bind py_sub].
  assert (Hdiv : py_div NaN NaN = Ok NaN) by reflexivity.
  rewrite Hdiv. cbn [mbind result_bind py_mul].
  unfold calculate_slope. cbn [length Nat.ltb Nat.leb].
  assert (Hfit : np_polyfit1 polyfit_nan (np_arange 2) [NaN; NaN] = Ok (NaN, NaN)).
  { unfold np_polyfit1. cbn [finite_values]. by destruct (finite_values _). }
  rewrite Hfit. cbn [mbind result_bind fst]. rewrite py_div_180_pi.
  reflexivity.
Qed.

(** C7. A fetch failure of a configured symbol (the provider raises,
    returns nothing, or returns only missing prices) is not raised to the
    caller, and the entry of any other symbol is what the provider's
    answers for that other symbol alone determine, so a failure elsewhere
    changes neither its fetch nor its card.  In [EvolMerc.py] the failed
    symbol has no snapshot: [None] from the fetch, no entry in the data
    store, the "no data" card.  In [EvolMerc - old.py] this holds when the
    provider raises, returns nothing or returns fewer than two rows, and
    the store keeps the entry it had; but the missing prices are not
    dropped there, so on a frame of two or more missing prices the fetch
    gives [None] exactly when [numpy.polyfit] raises on NaN: with a
    [numpy.polyfit] that returns NaN coefficients the old script stores a
    snapshot whose numbers are all NaN, under the label of the last band,
    where [EvolMerc.py] stores nothing. *)
Theorem C7_fetch_failures_are_isolated :
  (forall history symbol info,
      In (symbol, info) EvolMerc.ASSETS ->
      fetch_failure (history symbol (EvolMerc.asset_interval info)) ->
      try_except (EvolMerc.fetch_asset_data polyfit_illposed history symbol info)
                 (fun _ => None) = None /\
      EvolMerc.data_store polyfit_illposed history !! symbol = None /\
      EvolMerc.render_card (EvolMerc.data_store polyfit_illposed history)
        (symbol, info) = EvolMerc.NoDataCard info) /\
  (forall history history' other,
      (forall interval, history other interval = history' other interval) ->
      EvolMerc.data_store polyfit_illposed history !! other
      = EvolMerc.data_store polyfit_illposed history' !! other /\
      forall info,
        EvolMerc.render_card (EvolMerc.data_store polyfit_illposed history)
          (other, info)
        = EvolMerc.render_card (EvolMerc.data_store polyfit_illposed history')
            (other, info)) /\
  (forall history symbol store,
      fetch_failure (history symbol) ->
      (forall rows, history symbol = HistoryFrame rows -> (length rows < 2)%nat) ->
      EvolMercOld.fetch_asset_data polyfit_illposed history symbol = None /\
      EvolMercOld.update_all_data_pass polyfit_illposed history store !! symbol
      = store !! symbol) /\
  (forall history history' store other,
      history other = history' other ->
      EvolMercOld.update_all_data_pass polyfit_illposed history store !! other
      = EvolMercOld.update_all_data_pass polyfit_illposed history' store !! other) /\
  (forall history symbol rows,
      history symbol = HistoryFrame rows -> (2 <= length rows)%nat ->
      Forall (fun row => snd row = NaN) rows ->
      (EvolMercOld.fetch_asset_data polyfit_illposed history symbol = None <->
       raises (polyfit_illposed (np_arange (length rows)) (map snd rows)))) /\
  (fetch_failure (HistoryFrame missing_rows) /\
   exists d,
     EvolMercOld.fetch_asset_data polyfit_nan (always_old missing_rows) "GC=F"
     = Some d /\
     EvolMercOld.update_all_data_pass polyfit_nan (always_old missing_rows) ∅
       !! "GC=F"%string = Some d /\
     EvolMercOld.current_price d = NaN /\ EvolMercOld.change d = NaN /\
     EvolMercOld.change_pct d = NaN /\ EvolMercOld.slope d = NaN /\
     EvolMercOld.angle d = NaN /\
     EvolMercOld.trend d = "📉 FORTE BAIXA"%string) /\
  EvolMerc.data_store polyfit_nan (always missing_rows) !! "GC=F"%string = None.
Proof.
  assert (Hmissing : fetch_failure (HistoryFrame missing_rows)).
  { constructor. unfold missing_rows. by repeat constructor. }
  split; [|split; [|split; [|split; [|split; [|split]]]]].
  - intros history symbol info Hin Hfail.
    pose proof (fetch_failure_no_data polyfit_illposed _ _ _ Hfail) as Hnone.
    assert (Hstore : EvolMerc.data_store polyfit_illposed history !! symbol = None)
      by (by rewrite (data_store_lookup _ _ _ _ Hin)).
    split; [exact Hnone|]. split; [exact Hstore|].
    unfold EvolMerc.render_card. by rewrite Hstore.
  - intros history history' other Hsame.
    pose proof (data_store_isolated polyfit_illposed _ _ _ Hsame) as Heq.
    split; [exact Heq|]. intros info. unfold EvolMerc.render_card. by rewrite Heq.
  - intros history symbol store Hfail Hshort.
    assert (Hnone : EvolMercOld.fetch_asset_data polyfit_illposed history symbol = None).
    { apply (fetch_failure_no_data_old polyfit_illposed _ _ Hfail).
      intros rows Hrows Hlen. specialize (Hshort rows Hrows). lia. }
    split; [exact Hnone|].
    destruct (in_dec string_dec symbol (map fst EvolMercOld.ASSETS)) as [Hin|Hin].
    + by rewrite (update_all_data_pass_lookup _ _ _ _ Hin), Hnone.
    + by apply update_all_data_pass_unknown.
  - intros history history' store other Hsame.
    by apply update_all_data_pass_isolated.
  - intros history symbol rows Hrows Hlen Hnan.
    rewrite (all_missing_old history symbol rows Hrows Hlen Hnan).
    by apply calculate_slope_all_missing.
  - split; [exact Hmissing|]. eexists. split; [apply fetch_missing_rows_old|].
    split; [|by repeat split].
    rewrite (update_all_data_pass_lookup polyfit_nan (always_old missing_rows) ∅
               "GC=F"%string) by (by left).
    by rewrite fetch_missing_rows_old.
  - rewrite (data_store_lookup polyfit_nan (always missing_rows) "GC=F"%string
               {| EvolMerc.asset_name := "Ouro (Gold)"; EvolMerc.asset_color := "#FFD700";
                  EvolMerc.asset_unit := "$"; EvolMerc.asset_interval := "30m" |})
      by (by left).
    by rewrite (fetch_failure_no_data polyfit_nan (always missing_rows) "GC=F"%string
                  _ Hmissing).
Qed.

End FetchFailures.

(** * Worked instances *)

Lemma C2_short_series_is_sideways_witness :
  (length [Fin 7] < 2)%nat /\
  calculate_slope polyfit_raises [Fin 7] = Ok (Fin 0, Fin 0) /\
  estimate_trend polyfit_raises [Fin 7]
  = Ok (Fin 0, Fin 0, (label_text SIDEWAYS, label_color SIDEWAYS)) /\
  estimate_trend_old polyfit_raises [Fin 7]
  = Ok (Fin 0, Fin 0, (label_text_old SIDEWAYS, label_color SIDEWAYS)).
Proof.
  assert (H : (length [Fin 7] < 2)%nat) by (simpl; lia).
  split; [exact H|]. exact (C2_short_series_is_sideways polyfit_raises [Fin 7] H).
Defined.

Lemma C4_slope_is_least_squares_witness :
  (2 <= length [1900; 1905; 1910; 1920])%nat /\
  exists slope,
    calculate_slope polyfit_raises (map Fin [1900; 1905; 1910; 1920])
    = Ok (Fin slope, Fin (atan slope * 180 / PI)) /\
    (exists intercept, is_ols_line (indices 4) [1900; 1905; 1910; 1920] slope intercept) /\
    (forall m b, is_ols_line (indices 4) [1900; 1905; 1910; 1920] m b -> m = slope).
Proof.
  assert (H : (2 <= length [1900; 1905; 1910; 1920])%nat) by (simpl; lia).
  split; [exact H|].
  exact (C4_slope_is_least_squares polyfit_raises [1900; 1905; 1910; 1920] H).
Defined.

Lemma constant_100 : constant [100; 100; 100; 100].
Proof.
  intros p q Hp Hq. simpl in Hp, Hq.
  assert (p = 100) by (intuition congruence).
  assert (q = 100) by (intuition congruence). congruence.
Qed.

(** ** A line fit with a rounding residue *)

Lemma polyfit_residue_finite residue ps :
  (2 <= length ps)%nat ->
  polyfit_residue residue (np_arange (length ps)) (map Fin ps)
  = Ok (Fin (fst (lstsq_line (indices (length ps)) ps) + residue),
        Fin (snd (lstsq_line (indices (length ps)) ps))).
Proof.
  intros Hn. unfold polyfit_residue.
  rewrite (np_polyfit1_finite polyfit_raises ps Hn).
  cbn [mbind result_bind fst snd py_sub]. do 3 f_equal. ring.
Qed.

Lemma fit_within_residue tol residue ps :
  (2 <= length ps)%nat -> Rabs residue <= tol ->
  fit_within tol (polyfit_residue residue) ps
    (fst (lstsq_line (indices (length ps)) ps) + residue).
Proof.
  intros Hn Htol. split.
  - eexists. by apply polyfit_residue_finite.
  - match goal with |- Rabs ?d <= _ => replace d with residue by ring end.
    exact Htol.
Qed.

Lemma slope_100 : fst (lstsq_line (indices 4) [100; 100; 100; 100]) = 0.
Proof. apply lstsq_line_constant; [exact constant_100|reflexivity]. Qed.

Lemma residue_small : Rabs (1 / 10 ^ 14) <= 8 / 100.
Proof.
  assert (H : 0 < 1 / 10 ^ 14 <= 8 / 100).
  { assert (H1 : 100 <= 10 ^ 14) by (simpl; lra).
    assert (H2 : 0 < 10 ^ 14) by lra.
    split; [apply Rdiv_lt_0_compat; lra|].
    apply (Rmult_le_reg_r (10 ^ 14)); [exact H2|].
    unfold Rdiv. rewrite Rmult_assoc, Rinv_l by lra. lra. }
  rewrite Rabs_pos_eq; lra.
Qed.

Lemma fit_within_residue_100 :
  fit_within (8 / 100) (polyfit_residue (1 / 10 ^ 14)) [100; 100; 100; 100]
    (1 / 10 ^ 14).
Proof.
  pose proof (fit_within_residue (8 / 100) (1 / 10 ^ 14) [100; 100; 100; 100]
                ltac:(simpl; lia) residue_small) as H.
  cbn [length] in H. rewrite slope_100, Rplus_0_l in H. exact H.
Qed.



(** A store of the old script with one asset, whose prices are 1, 3, 2. *)
Definition snapshot_1_3_2 : EvolMercOld.snapshot :=
  {| EvolMercOld.symbol := "GC=F";
     EvolMercOld.prices := map Fin [1; 3; 2];
     EvolMercOld.times := [0; 60; 120]%Z;
     EvolMercOld.current_price := Fin 2;
     EvolMercOld.change := Fin 1;
     EvolMercOld.change_pct := Fin 100;
     EvolMercOld.slope := Fin (1 / 2);
     EvolMercOld.angle := Fin (atan (1 / 2) * (180 / PI));
     EvolMercOld.trend := "📈 FORTE ALTA";
     EvolMercOld.trend_color := "#10B981" |}.

Definition store_1_3_2 : gmap string EvolMercOld.snapshot :=
  {[ "GC=F"%string := snapshot_1_3_2 ]}.

(** A store of the page with gold only, whose prices are 1, 3, 2. *)
Definition page_snapshot_1_3_2 : EvolMerc.snapshot :=
  {| EvolMerc.current_price := Fin 2;
     EvolMerc.last_time := 120%Z;
     EvolMerc.change := Fin 1;
     EvolMerc.change_pct := Fin 100;
     EvolMerc.trend := "FORTE ALTA";
     EvolMerc.trend_color := "#10B981";
     EvolMerc.angle := Fin (atan (1 / 2) * (180 / PI));
     EvolMerc.prices := map Fin [1; 3; 2];
     EvolMerc.times := [0; 60; 120]%Z |}.

Definition page_store_1_3_2 : gmap string EvolMerc.snapshot :=
  {[ "GC=F"%string := page_snapshot_1_3_2 ]}.

Lemma not_constant_1_3_2 : ~ constant [1; 3; 2].
Proof.
  intros H. specialize (H 1 3 ltac:(by left) ltac:(right; by left)). lra.
Qed.

Lemma aligned_1_3_2 : aligned page_store_1_3_2.
Proof.
  intros s d Hd. unfold page_store_1_3_2 in Hd.
  apply lookup_singleton_Some in Hd as [_ <-]. reflexivity.
Qed.


(** A provider that fails for gold and answers for every other symbol. *)
Definition gold_fails : string -> string -> history_result :=
  fun symbol _ =>
    if String.eqb symbol "GC=F" then HistoryRaises (ProviderError "timeout")
    else HistoryFrame (finite_rows [(0%Z, 10); (60%Z, 12)]).

Lemma C7_fetch_failures_are_isolated_witness :
  (EvolMerc.data_store polyfit_raises gold_fails !! "GC=F"%string = None /\
   exists d, EvolMerc.data_store polyfit_raises gold_fails !! "SI=F"%string = Some d) /\
  EvolMercOld.fetch_asset_data polyfit_raises provider_down "GC=F" = None /\
  EvolMercOld.fetch_asset_data polyfit_raises (always_old missing_rows) "GC=F" = None.
Proof.
  destruct (C7_fetch_failures_are_isolated polyfit_raises)
    as (Hfail & _ & Hold & _ & Hmissing & _).
  split; [split|split].
  - apply (Hfail gold_fails "GC=F"%string
             {| EvolMerc.asset_name := "Ouro (Gold)"; EvolMerc.asset_color := "#FFD700";
                EvolMerc.asset_unit := "$"; EvolMerc.asset_interval := "30m" |}).
    + by left.
    + constructor.
  - rewrite (data_store_lookup polyfit_raises gold_fails "SI=F"%string
               {| EvolMerc.asset_name := "Prata (Silver)"; EvolMerc.asset_color := "#C0C0C0";
                  EvolMerc.asset_unit := "$"; EvolMerc.asset_interval := "30m" |})
      by (right; by left).
    destruct (fetch_asset_data_finite polyfit_raises gold_fails "SI=F"%string
                {| EvolMerc.asset_name := "Prata (Silver)"; EvolMerc.asset_color := "#C0C0C0";
                   EvolMerc.asset_unit := "$"; EvolMerc.asset_interval := "30m" |}
                (0%Z, 10) [(60%Z, 12)] eq_refl) as (? & ? & ? & _ & _ & ->).
    by eexists.
  - apply (Hold provider_down "GC=F"%string ∅).
    + constructor.
    + intros rows Hrows. discriminate.
  - apply (Hmissing (always_old missing_rows) "GC=F"%string missing_rows eq_refl).
    + simpl. lia.
    + unfold missing_rows. by repeat constructor.
    + by eexists.
Defined.

(** ** The normalisation on small series *)

Lemma py_lt_Fin_true x y : x < y -> py_lt (Fin x) (Fin y) = true.
Proof. apply (py_gt_Fin_true y x). Qed.

Lemma py_lt_Fin_false x y : y <= x -> py_lt (Fin x) (Fin y) = false.
Proof. apply (py_gt_Fin_false y x). Qed.

Lemma ieee_div_Fin x y : y <> 0 -> ieee_div (Fin x) (Fin y) = Fin (x / y).
Proof. intros Hy. cbn. destruct (Req_dec_T y 0); [contradiction|reflexivity]. Qed.

Ltac float_eval :=
  repeat first
    [ rewrite py_gt_Fin_true by lra
    | rewrite py_gt_Fin_false by lra
    | rewrite py_lt_Fin_true by lra
    | rewrite py_lt_Fin_false by lra
    | rewrite py_eq_Fin_false by lra
    | rewrite py_eq_refl_Fin
    | rewrite py_div_Fin by lra
    | rewrite ieee_div_Fin by lra
    | progress unfold py_ne
    | progress cbn [mbind result_bind negb py_sub py_mul fold_left map traverse
                    py_min py_max py_ne List.filter is_nan rev app
                    ffill bfill ffill_from pd_min pd_max] ].

Example normalized_old_1_3_2 :
  EvolMercOld.normalized [Fin 1; Fin 3; Fin 2] = Ok [Fin 0; Fin 100; Fin 50].
Proof.
  unfold EvolMercOld.normalized. float_eval.
  replace ((1 - 1) / (3 - 1) * 100) with 0 by lra.
  replace ((3 - 1) / (3 - 1) * 100) with 100 by lra.
  replace ((2 - 1) / (3 - 1) * 100) with 50 by lra.
  reflexivity.
Qed.

Example normalized_old_7_7 :
  EvolMercOld.normalized [Fin 7; Fin 7] = Ok [Fin 50; Fin 50].
Proof. unfold EvolMercOld.normalized. by float_eval. Qed.

Example normalized_old_nil : EvolMercOld.normalized [] = Ok [].
Proof. reflexivity. Qed.

Example normalized_1_3_2 :
  EvolMerc.normalized [Fin 1; Fin 3; Fin 2] = [Fin 0; Fin 100; Fin 50].
Proof.
  unfold EvolMerc.normalized. float_eval.
  replace ((1 - 1) / (3 - 1) * 100) with 0 by lra.
  replace ((3 - 1) / (3 - 1) * 100) with 100 by lra.
  replace ((2 - 1) / (3 - 1) * 100) with 50 by lra.
  reflexivity.
Qed.

(** * Further properties of the trend estimation *)

Section TrendProperties.

Variable polyfit : list pyfloat -> list pyfloat -> result (pyfloat * pyfloat).

Lemma degrees_pos : 0 < 180 / PI.
Proof. pose proof PI_RGT_0. apply Rdiv_lt_0_compat; lra. Qed.

Lemma atan_pos x : 0 < x -> 0 < atan x.
Proof. intros H. rewrite <- atan_0. by apply atan_increasing. Qed.

Lemma atan_neg x : x < 0 -> atan x < 0.
Proof. intros H. rewrite <- atan_0. by apply atan_increasing. Qed.

Lemma angle_sign slope :
  let angle := atan slope * (180 / PI) in
  -90 < angle < 90 /\
  (0 < slope <-> 0 < angle) /\ (slope < 0 <-> angle < 0) /\
  (slope = 0 <-> angle = 0).
Proof.
  intros angle. pose proof degrees_pos as Hk. pose proof PI_RGT_0 as Hpi.
  pose proof (atan_bound slope) as [Hlo Hhi].
  assert (H90 : PI / 2 * (180 / PI) = 90) by (field; lra).
  assert (Hpos : 0 < slope -> 0 < angle).
  { intros H. apply Rmult_lt_0_compat; [by apply atan_pos|exact Hk]. }
  assert (Hneg : slope < 0 -> angle < 0).
  { intros H. pose proof (atan_neg _ H). unfold angle. nra. }
  assert (Hzero : slope = 0 -> angle = 0).
  { intros ->. unfold angle. rewrite atan_0. ring. }
  split; [unfold angle; split; nra|].
  destruct (Rtotal_order slope 0) as [H|[H|H]].
  - specialize (Hneg H). repeat split; intros; lra.
  - specialize (Hzero H). repeat split; intros; lra.
  - specialize (Hpos H). repeat split; intros; lra.
Qed.

Lemma right_angle : PI / 2 * (180 / PI) = 90.
Proof. pose proof PI_RGT_0. field. lra. Qed.

(** The angle that [calculate_slope] gives for a slope that is not NaN. *)
Lemma angle_of_slope slope :
  is_nan slope = false ->
  exists a,
    py_mul (np_arctan slope) (Fin (180 / PI)) = Fin a /\
    -90 <= a <= 90 /\
    (py_gt slope (Fin 0) = true <-> 0 < a) /\
    (py_lt slope (Fin 0) = true <-> a < 0) /\
    (py_eq slope (Fin 0) = true <-> a = 0).
Proof.
  pose proof right_angle as H90.
  destruct slope as [x| | |]; [| | |discriminate]; intros _.
  - exists (atan x * (180 / PI)). split; [reflexivity|].
    destruct (angle_sign x) as (Hrange & Hpos & Hneg & Hzero).
    split; [lra|]. split; [|split].
    + rewrite py_gt_Fin. exact Hpos.
    + change (py_lt (Fin x) (Fin 0)) with (py_gt (Fin 0) (Fin x)).
      rewrite py_gt_Fin. exact Hneg.
    + rewrite py_eq_Fin. exact Hzero.
  - exists (PI / 2 * (180 / PI)). split; [reflexivity|]. rewrite H90.
    split; [lra|]. cbn. repeat split; intros; try lra; discriminate.
  - exists (- (PI / 2) * (180 / PI)). split; [reflexivity|].
    replace (- (PI / 2) * (180 / PI)) with (-90) by lra.
    split; [lra|]. cbn. repeat split; intros; try lra; discriminate.
Qed.

(** X1. Whatever the line fit returns, [calculate_slope] gives NaN for the
    angle when the slope is NaN, and otherwise an angle that is a number
    between -90 and 90 degrees, the bounds being those of an infinite
    slope, with the sign of the slope: positive, negative or zero
    together with it. *)
Theorem X1_angle_range_and_sign (prices : list pyfloat) (slope angle : pyfloat) :
  calculate_slope_with polyfit prices = Ok (slope, angle) ->
  (is_nan slope = true -> is_nan angle = true) /\
  (is_nan slope = false ->
   exists a,
     angle = Fin a /\ -90 <= a <= 90 /\
     (py_gt slope (Fin 0) = true <-> 0 < a) /\
     (py_lt slope (Fin 0) = true <-> a < 0) /\
     (py_eq slope (Fin 0) = true <-> a = 0)).
Proof.
  intros Hs.
  assert (Hangle : angle = py_mul (np_arctan slope) (Fin (180 / PI))).
  { destruct (le_lt_dec 2 (length prices)) as [Hn|Hn].
    - destruct (polyfit (np_arange (length prices)) prices) as [coeffs|e] eqn:Hfit.
      + rewrite (calculate_slope_with_fit polyfit _ _ Hn Hfit) in Hs.
        by injection Hs as <- <-.
      + assert (Hr : calculate_slope_with polyfit prices = Raise e)
          by (by apply calculate_slope_with_raise).
        congruence.
    - rewrite (calculate_slope_with_short polyfit _ Hn) in Hs.
      injection Hs as <- <-. cbn. f_equal. rewrite atan_0. ring. }
  split.
  - intros Hnan. destruct slope; try discriminate. by rewrite Hangle.
  - intros Hnum. rewrite Hangle. by apply angle_of_slope.
Qed.

End TrendProperties.

Lemma X1_angle_range_and_sign_witness :
  calculate_slope_with (polyfit_residue (1 / 10 ^ 14)) (map Fin [100; 100; 100; 100])
  = Ok (Fin (1 / 10 ^ 14), Fin (atan (1 / 10 ^ 14) * (180 / PI))) /\
  (is_nan (Fin (1 / 10 ^ 14)) = true ->
   is_nan (Fin (atan (1 / 10 ^ 14) * (180 / PI))) = true) /\
  (is_nan (Fin (1 / 10 ^ 14)) = false ->
   exists a,
     Fin (atan (1 / 10 ^ 14) * (180 / PI)) = Fin a /\ -90 <= a <= 90 /\
     (py_gt (Fin (1 / 10 ^ 14)) (Fin 0) = true <-> 0 < a) /\
     (py_lt (Fin (1 / 10 ^ 14)) (Fin 0) = true <-> a < 0) /\
     (py_eq (Fin (1 / 10 ^ 14)) (Fin 0) = true <-> a = 0)).
Proof.
  assert (Hn : (2 <= length [100; 100; 100; 100]%R)%nat) by (simpl; lia).
  pose proof (calculate_slope_with_within _ _ _ _ Hn fit_within_residue_100) as Hs.
  split; [exact Hs|].
  exact (X1_angle_range_and_sign (polyfit_residue (1 / 10 ^ 14))
           (map Fin [100; 100; 100; 100]) _ _ Hs).
Defined.

Section TrendInvariance.

Variable polyfit : list pyfloat -> list pyfloat -> result (pyfloat * pyfloat).

Lemma Rsum_shift ys c :
  Rsum (map (fun p => p + c) ys) = Rsum ys + INR (length ys) * c.
Proof.
  induction ys as [|y ys IH]; [simpl; lra|].
  change (Rsum (map (fun p => p + c) (y :: ys)))
    with (y + c + Rsum (map (fun p => p + c) ys)).
  change (Rsum (y :: ys)) with (y + Rsum ys).
  change (length (y :: ys)) with (S (length ys)). rewrite S_INR, IH. ring.
Qed.

Lemma Rsum_scale ys k : Rsum (map (fun p => k * p) ys) = k * Rsum ys.
Proof.
  induction ys as [|y ys IH]; [simpl; lra|].
  change (Rsum (map (fun p => k * p) (y :: ys)))
    with (k * y + Rsum (map (fun p => k * p) ys)).
  change (Rsum (y :: ys)) with (y + Rsum ys). rewrite IH. ring.
Qed.

Lemma dot_scale xs ys k : dot xs (map (fun p => k * p) ys) = k * dot xs ys.
Proof.
  revert ys. induction xs as [|x xs IH]; intros [|y ys];
    try (unfold dot; simpl; lra).
  change (dot (x :: xs) (map (fun p => k * p) (y :: ys)))
    with (x * (k * y) + dot xs (map (fun p => k * p) ys)).
  change (dot (x :: xs) (y :: ys)) with (x * y + dot xs ys).
  rewrite IH. ring.
Qed.

Lemma lstsq_slope_scale xs ys k :
  fst (lstsq_line xs (map (fun p => k * p) ys)) = k * fst (lstsq_line xs ys).
Proof.
  unfold lstsq_line. cbn [fst]. rewrite dot_scale, Rsum_scale.
  unfold Rdiv. ring.
Qed.

(** ** Rising and falling prices *)

Lemma indices_cons n : indices (S n) = 0 :: map (fun x => x + 1) (indices n).
Proof.
  unfold indices. cbn [seq map INR]. f_equal.
  rewrite <- seq_shift, !map_map. apply map_ext. intros i. apply S_INR.
Qed.

Lemma weighted_lower ws ys x :
  (forall w, In w ws -> 0 <= w) -> Forall (Rle x) ys -> length ws = length ys ->
  x * Rsum ws <= dot ws ys.
Proof.
  revert ys. induction ws as [|w ws IH]; intros [|y ys] Hw Hy Hlen; try discriminate.
  - unfold dot. simpl. lra.
  - injection Hlen as Hlen. apply Forall_cons in Hy as [Hxy Hy].
    change (Rsum (w :: ws)) with (w + Rsum ws).
    change (dot (w :: ws) (y :: ys)) with (w * y + dot ws ys).
    pose proof (Hw w ltac:(by left)).
    pose proof (IH ys ltac:(intros; apply Hw; by right) Hy Hlen).
    nra.
Qed.

Lemma dot_succ xs ys :
  length xs = length ys ->
  dot (map (fun v => v + 1) xs) ys = dot xs ys + Rsum ys.
Proof.
  revert ys. induction xs as [|v xs IH]; intros [|y ys] Hlen; try discriminate.
  - unfold dot. simpl. lra.
  - injection Hlen as Hlen.
    change (dot (map (fun v => v + 1) (v :: xs)) (y :: ys))
      with ((v + 1) * y + dot (map (fun v => v + 1) xs) ys).
    change (dot (v :: xs) (y :: ys)) with (v * y + dot xs ys).
    change (Rsum (y :: ys)) with (y + Rsum ys).
    rewrite IH by exact Hlen. ring.
Qed.

(** The numerator of the slope is not negative on prices that never fall. *)
Lemma slope_numerator_sorted ys :
  StronglySorted Rle ys ->
  0 <= INR (length ys) * dot (indices (length ys)) ys
       - Rsum (indices (length ys)) * Rsum ys.
Proof.
  induction 1 as [|x ys Hsorted IH Hx]; [unfold dot; simpl; lra|].
  change (length (x :: ys)) with (S (length ys)).
  rewrite indices_cons, S_INR.
  set (xs := indices (length ys)) in *.
  assert (Hlen : length xs = length ys) by apply length_indices.
  change (dot (0 :: map (fun v => v + 1) xs) (x :: ys))
    with (0 * x + dot (map (fun v => v + 1) xs) ys).
  change (Rsum (0 :: map (fun v => v + 1) xs))
    with (0 + Rsum (map (fun v => v + 1) xs)).
  change (Rsum (x :: ys)) with (x + Rsum ys).
  assert (Hw : x * Rsum (map (fun v => v + 1) xs) <= dot (map (fun v => v + 1) xs) ys).
  { apply weighted_lower; [|exact Hx|by rewrite length_map].
    intros w Hin. apply in_map_iff in Hin as (v & <- & Hv).
    unfold xs, indices in Hv. apply in_map_iff in Hv as (i & <- & _).
    pose proof (pos_INR i). lra. }
  pose proof (dot_succ xs ys Hlen) as Hdot.
  rewrite Rsum_shift, Hlen in *. rewrite Hdot in *. nra.
Qed.

Lemma lstsq_slope_sorted ys :
  StronglySorted Rle ys -> (2 <= length ys)%nat ->
  0 <= fst (lstsq_line (indices (length ys)) ys).
Proof.
  intros Hsorted Hn. unfold lstsq_line. cbn [fst]. rewrite length_indices.
  pose proof (slope_numerator_sorted ys Hsorted).
  pose proof (lstsq_det_indices_pos _ Hn).
  apply Rmult_le_pos; [assumption|]. left. by apply Rinv_0_lt_compat.
Qed.

Lemma sorted_opp ys :
  StronglySorted Rge ys -> StronglySorted Rle (map (fun p => -1 * p) ys).
Proof.
  induction 1 as [|x ys Hsorted IH Hx]; [constructor|].
  cbn [map]. constructor; [exact IH|].
  clear -Hx. induction Hx as [|y ys Hy _ IH]; cbn [map]; constructor;
    [lra|exact IH].
Qed.

Lemma lstsq_slope_sorted_down ys :
  StronglySorted Rge ys -> (2 <= length ys)%nat ->
  fst (lstsq_line (indices (length ys)) ys) <= 0.
Proof.
  intros Hsorted Hn.
  pose proof (lstsq_slope_sorted _ (sorted_opp _ Hsorted)) as H.
  rewrite length_map, lstsq_slope_scale in H. specialize (H Hn). lra.
Qed.

Lemma not_down_label angle l :
  -5 < angle -> in_band angle l -> (label_rank SIDEWAYS <= label_rank l)%nat.
Proof. intros Ha Hl. destruct Hl; simpl; try lia; lra. Qed.

Lemma not_up_label angle l :
  angle <= 5 -> in_band angle l -> (label_rank l <= label_rank SIDEWAYS)%nat.
Proof. intros Ha Hl. destruct Hl; simpl; try lia; lra. Qed.

(** X4. Prices that never fall, two or more, whose fitted slope is a
    number within 0.08 of the least-squares slope: the slope is above
    -0.08 and the angle above -5 degrees, so the label is SIDEWAYS or an
    "up" label, never a "down" one.  Both versions of the script. *)
Theorem X4_rising_prices_not_down (prices : list R) (slope : R) :
  StronglySorted Rle prices -> (2 <= length prices)%nat ->
  fit_within (8 / 100) polyfit prices slope ->
  exists angle l,
    estimate_trend_with polyfit (map Fin prices)
    = Ok (Fin slope, Fin angle, (label_text l, label_color l)) /\
    estimate_trend_old_with polyfit (map Fin prices)
    = Ok (Fin slope, Fin angle, (label_text_old l, label_color l)) /\
    - (8 / 100) <= slope /\ -5 < angle /\
    (label_rank SIDEWAYS <= label_rank l)%nat.
Proof.
  intros Hsorted Hn Hfit.
  pose proof (lstsq_slope_sorted _ Hsorted Hn) as Hexact.
  assert (Hs : - (8 / 100) <= slope).
  { destruct Hfit as [_ Hclose]. unfold Rabs in Hclose.
    destruct (Rcase_abs _); lra. }
  pose proof (angle_above_minus_5 _ Hs) as Ha.
  destruct (in_band_total (atan slope * (180 / PI))) as [l Hl].
  exists (atan slope * (180 / PI)), l.
  unfold estimate_trend_with, estimate_trend_old_with.
  rewrite (calculate_slope_with_within polyfit _ _ _ Hn Hfit).
  cbn [mbind result_bind].
  rewrite (get_trend_info_band _ _ Hl), (get_trend_info_old_band _ _ _ Hl).
  repeat split; try assumption. by eapply not_down_label.
Qed.

(** X5. Prices that never rise, two or more, whose fitted slope is a
    number within 0.08 of the least-squares slope: the slope is below
    0.08 and the angle below 5 degrees, so the label is SIDEWAYS or a
    "down" label, never an "up" one.  Both versions of the script. *)
Theorem X5_falling_prices_not_up (prices : list R) (slope : R) :
  StronglySorted Rge prices -> (2 <= length prices)%nat ->
  fit_within (8 / 100) polyfit prices slope ->
  exists angle l,
    estimate_trend_with polyfit (map Fin prices)
    = Ok (Fin slope, Fin angle, (label_text l, label_color l)) /\
    estimate_trend_old_with polyfit (map Fin prices)
    = Ok (Fin slope, Fin angle, (label_text_old l, label_color l)) /\
    slope <= 8 / 100 /\ angle < 5 /\
    (label_rank l <= label_rank SIDEWAYS)%nat.
Proof.
  intros Hsorted Hn Hfit.
  pose proof (lstsq_slope_sorted_down _ Hsorted Hn) as Hexact.
  assert (Hs : slope <= 8 / 100).
  { destruct Hfit as [_ Hclose]. unfold Rabs in Hclose.
    destruct (Rcase_abs _); lra. }
  pose proof (angle_below_5 _ Hs) as Ha.
  destruct (in_band_total (atan slope * (180 / PI))) as [l Hl].
  exists (atan slope * (180 / PI)), l.
  unfold estimate_trend_with, estimate_trend_old_with.
  rewrite (calculate_slope_with_within polyfit _ _ _ Hn Hfit).
  cbn [mbind result_bind].
  rewrite (get_trend_info_band _ _ Hl), (get_trend_info_old_band _ _ _ Hl).
  repeat split; try assumption. eapply not_up_label; [|exact Hl]. lra.
Qed.

End TrendInvariance.

Lemma X4_rising_prices_not_down_witness :
  StronglySorted Rle [1; 2; 2; 5] /\
  (2 <= length [1; 2; 2; 5]%R)%nat /\
  fit_within (8 / 100) (polyfit_residue (- (1 / 10 ^ 14))) [1; 2; 2; 5]
    (fst (lstsq_line (indices 4) [1; 2; 2; 5]) + - (1 / 10 ^ 14)) /\
  exists angle l,
    estimate_trend_with (polyfit_residue (- (1 / 10 ^ 14))) (map Fin [1; 2; 2; 5])
    = Ok (Fin (fst (lstsq_line (indices 4) [1; 2; 2; 5]) + - (1 / 10 ^ 14)),
          Fin angle, (label_text l, label_color l)) /\
    -5 < angle /\ (label_rank SIDEWAYS <= label_rank l)%nat.
Proof.
  assert (H : StronglySorted Rle [1; 2; 2; 5]).
  { repeat constructor; lra. }
  assert (Hn : (2 <= length [1; 2; 2; 5]%R)%nat) by (simpl; lia).
  assert (Hfit : fit_within (8 / 100) (polyfit_residue (- (1 / 10 ^ 14))) [1; 2; 2; 5]
                   (fst (lstsq_line (indices 4) [1; 2; 2; 5]) + - (1 / 10 ^ 14))).
  { apply (fit_within_residue (8 / 100) (- (1 / 10 ^ 14)) [1; 2; 2; 5] Hn).
    rewrite Rabs_Ropp. exact residue_small. }
  split; [exact H|]. split; [exact Hn|]. split; [exact Hfit|].
  destruct (X4_rising_prices_not_down (polyfit_residue (- (1 / 10 ^ 14)))
              [1; 2; 2; 5] _ H Hn Hfit)
    as (angle & l & He & _ & _ & Ha & Hl).
  by exists angle, l.
Defined.

Lemma X5_falling_prices_not_up_witness :
  StronglySorted Rge [5; 2; 2; 1] /\
  (2 <= length [5; 2; 2; 1]%R)%nat /\
  fit_within (8 / 100) (polyfit_residue (1 / 10 ^ 14)) [5; 2; 2; 1]
    (fst (lstsq_line (indices 4) [5; 2; 2; 1]) + 1 / 10 ^ 14) /\
  exists angle l,
    estimate_trend_with (polyfit_residue (1 / 10 ^ 14)) (map Fin [5; 2; 2; 1])
    = Ok (Fin (fst (lstsq_line (indices 4) [5; 2; 2; 1]) + 1 / 10 ^ 14),
          Fin angle, (label_text l, label_color l)) /\
    angle < 5 /\ (label_rank l <= label_rank SIDEWAYS)%nat.
Proof.
  assert (H : StronglySorted Rge [5; 2; 2; 1]).
  { repeat constructor; lra. }
  assert (Hn : (2 <= length [5; 2; 2; 1]%R)%nat) by (simpl; lia).
  assert (Hfit : fit_within (8 / 100) (polyfit_residue (1 / 10 ^ 14)) [5; 2; 2; 1]
                   (fst (lstsq_line (indices 4) [5; 2; 2; 1]) + 1 / 10 ^ 14)).
  { apply (fit_within_residue (8 / 100) (1 / 10 ^ 14) [5; 2; 2; 1] Hn).
    exact residue_small. }
  split; [exact H|]. split; [exact Hn|]. split; [exact Hfit|].
  destruct (X5_falling_prices_not_up (polyfit_residue (1 / 10 ^ 14))
              [5; 2; 2; 1] _ H Hn Hfit)
    as (angle & l & He & _ & _ & Ha & Hl).
  by exists angle, l.
Defined.

(** * Further properties of [EvolMerc.py] *)

Section PageProperties.

Variable polyfit_illposed :
  list pyfloat -> list pyfloat -> result (pyfloat * pyfloat).

Lemma dropna_nil rows : dropna rows = [] -> Forall (fun row => snd row = NaN) rows.
Proof.
  unfold dropna. induction rows as [|[t p] rows IH]; [constructor|].
  cbn [List.filter snd]. destruct p; cbn; try discriminate.
  intros H. constructor; [reflexivity|by apply IH].
Qed.

Lemma dropna_not_nan rows :
  Forall (fun p => is_nan p = false) (map snd (dropna rows)).
Proof.
  unfold dropna. induction rows as [|[t p] rows IH]; [constructor|].
  cbn [List.filter snd]. destruct p; cbn; try exact IH; by constructor.
Qed.

(** What a fetch that reaches the snapshot assembly returns. *)
Lemma fetch_asset_data_rows history symbol info rows r :
  history symbol (EvolMerc.asset_interval info) = HistoryFrame rows ->
  dropna rows <> [] ->
  EvolMerc.fetch_asset_data polyfit_illposed history symbol info = r ->
  raises r \/
  exists d,
    r = Ok (Some d) /\
    EvolMerc.prices d = map snd (dropna rows) /\
    EvolMerc.times d = map fst (dropna rows) /\
    py_last (EvolMerc.prices d) = Ok (EvolMerc.current_price d) /\
    py_last (EvolMerc.times d) = Ok (EvolMerc.last_time d) /\
    (exists previous,
        py_first (EvolMerc.prices d) = Ok previous /\
        EvolMerc.change d = py_sub (EvolMerc.current_price d) previous /\
        (py_truthy previous = false -> EvolMerc.change_pct d = Fin 0)) /\
    EvolMerc.get_trend_info (EvolMerc.angle d)
    = (EvolMerc.trend d, EvolMerc.trend_color d).
Proof.
  intros Hh Hrows <-. unfold EvolMerc.fetch_asset_data. rewrite Hh.
  assert (is_empty rows = false) as ->.
  { destruct rows; [by destruct Hrows|reflexivity]. }
  assert (is_empty (dropna rows) = false) as ->.
  { destruct (dropna rows); [by destruct Hrows|reflexivity]. }
  destruct (py_last (map snd (dropna rows))) as [current|e] eqn:Hcur;
    [|left; by eexists].
  destruct (py_first (map snd (dropna rows))) as [previous|e] eqn:Hprev;
    [|left; by eexists].
  cbn [mbind result_bind].
  destruct (py_truthy previous) eqn:Htruthy.
  - destruct (py_div _ previous) as [q|e]; [|left; by eexists].
    cbn [mbind result_bind].
    destruct (calculate_slope _ _) as [[slope angle]|e]; [|left; by eexists].
    cbn [mbind result_bind].
    destruct (EvolMerc.get_trend_info angle) as [trend color] eqn:Htrend.
    destruct (py_last (map fst (dropna rows))) as [t|e] eqn:Ht; [|left; by eexists].
    right. eexists. split; [reflexivity|]. cbn.
    repeat split; try assumption. exists previous. repeat split; try assumption.
    intros Hfalse. congruence.
  - cbn [mbind result_bind].
    destruct (calculate_slope _ _) as [[slope angle]|e]; [|left; by eexists].
    cbn [mbind result_bind].
    destruct (EvolMerc.get_trend_info angle) as [trend color] eqn:Htrend.
    destruct (py_last (map fst (dropna rows))) as [t|e] eqn:Ht; [|left; by eexists].
    right. eexists. split; [reflexivity|]. cbn.
    repeat split; try assumption. exists previous. by repeat split.
Qed.

(** X6. [fetch_asset_data] returns [None] exactly when the provider gave no
    frame or a frame in which every closing price is missing (an empty
    frame included); it never returns [None] for a frame that has a
    price. *)
Theorem X6_fetch_none_iff history symbol info :
  EvolMerc.fetch_asset_data polyfit_illposed history symbol info = Ok None <->
  history symbol (EvolMerc.asset_interval info) = HistoryNone \/
  exists rows,
    history symbol (EvolMerc.asset_interval info) = HistoryFrame rows /\
    Forall (fun row => snd row = NaN) rows.
Proof.
  split.
  - intros Hf.
    destruct (history symbol (EvolMerc.asset_interval info)) as [e| |rows] eqn:Hh.
    + unfold EvolMerc.fetch_asset_data in Hf. by rewrite Hh in Hf.
    + by left.
    + right. exists rows. split; [reflexivity|].
      destruct (dropna rows) as [|r rs] eqn:Hdrop; [by apply dropna_nil|].
      destruct (fetch_asset_data_rows history symbol info rows _ Hh
                  ltac:(by rewrite Hdrop) Hf) as [[e He]|(d & Hd & _)];
        discriminate.
  - intros [Hh|(rows & Hh & Hnan)]; unfold EvolMerc.fetch_asset_data; rewrite Hh;
      [reflexivity|].
    rewrite (dropna_all_missing _ Hnan). by destruct rows.
Qed.

(** X7. Every snapshot that [fetch_asset_data] returns is built from the
    frame's rows with the missing prices dropped: its prices are those
    closing prices in order, none is NaN and there is at least one, its
    times are the times of the same rows (as many as prices), the current
    price and the last time are the last ones, the change is the last price
    minus the first, and the label and colour are those of its angle. *)
Theorem X7_snapshot_consistent history symbol info d :
  EvolMerc.fetch_asset_data polyfit_illposed history symbol info = Ok (Some d) ->
  exists rows,
    history symbol (EvolMerc.asset_interval info) = HistoryFrame rows /\
    EvolMerc.prices d = map snd (dropna rows) /\
    EvolMerc.times d = map fst (dropna rows) /\
    EvolMerc.prices d <> [] /\
    Forall (fun p => is_nan p = false) (EvolMerc.prices d) /\
    length (EvolMerc.prices d) = length (EvolMerc.times d) /\
    py_last (EvolMerc.prices d) = Ok (EvolMerc.current_price d) /\
    py_last (EvolMerc.times d) = Ok (EvolMerc.last_time d) /\
    (exists previous,
        py_first (EvolMerc.prices d) = Ok previous /\
        EvolMerc.change d = py_sub (EvolMerc.current_price d) previous) /\
    EvolMerc.get_trend_info (EvolMerc.angle d)
    = (EvolMerc.trend d, EvolMerc.trend_color d).
Proof.
  intros Hf.
  destruct (history symbol (EvolMerc.asset_interval info)) as [e| |rows] eqn:Hh;
    try (unfold EvolMerc.fetch_asset_data in Hf; rewrite Hh in Hf; discriminate).
  exists rows. split; [reflexivity|].
  destruct (dropna rows) as [|r rs] eqn:Hdrop.
  { unfold EvolMerc.fetch_asset_data in Hf. rewrite Hh, Hdrop in Hf.
    by destruct rows. }
  destruct (fetch_asset_data_rows history symbol info rows _ Hh
              ltac:(by rewrite Hdrop) Hf)
    as [[e He]|(d' & Hd & Hp & Ht & Hcur & Hlast & (prev & Hprev & Hchange & _) & Htrend)];
    [discriminate|].
  injection Hd as <-. rewrite Hdrop in Hp, Ht.
  repeat split; try assumption.
  - rewrite Hp. discriminate.
  - rewrite Hp, <- Hdrop. apply dropna_not_nan.
  - by rewrite Hp, Ht, !length_map.
  - by exists prev.
Qed.

(** X8. The data store holds an entry for a symbol exactly when the symbol
    is in the asset table and its own fetch returned a snapshot, and the
    entry is that snapshot; a symbol whose fetch raised or returned [None]
    and a symbol outside the table have none. *)
Theorem X8_data_store_entry_iff history symbol d :
  EvolMerc.data_store polyfit_illposed history !! symbol = Some d <->
  exists info,
    In (symbol, info) EvolMerc.ASSETS /\
    EvolMerc.fetch_asset_data polyfit_illposed history symbol info = Ok (Some d).
Proof.
  split.
  - intros Hd.
    destruct (in_dec string_dec symbol (map fst EvolMerc.ASSETS)) as [Hin|Hin].
    + apply in_keys in Hin as [info Hin]. exists info. split; [exact Hin|].
      rewrite (data_store_lookup _ _ _ _ Hin) in Hd.
      destruct (EvolMerc.fetch_asset_data _ _ _ _) as [[d'|]|e];
        cbn in Hd; congruence.
    + by rewrite data_store_lookup_unknown in Hd.
  - intros (info & Hin & Hf). by rewrite (data_store_lookup _ _ _ _ Hin), Hf.
Qed.

(** X9. The page shows one card per configured asset, in the order of the
    table, whatever the provider did: the "no data" card when the fetch of
    that asset raised or returned [None], and otherwise the card of the
    snapshot just fetched, with the up arrow in green when the change is at
    least zero and the down arrow in red otherwise. *)
Theorem X9_cards_follow_fetches history :
  EvolMerc.cards (EvolMerc.data_store polyfit_illposed history)
  = map (fun entry : string * EvolMerc.asset_info =>
           match try_except
                   (EvolMerc.fetch_asset_data polyfit_illposed history
                      (fst entry) (snd entry))
                   (fun _ => None) with
           | None => EvolMerc.NoDataCard (snd entry)
           | Some d =>
               if py_ge (EvolMerc.change d) (Fin 0)
               then EvolMerc.DataCard (snd entry) d "↑" "#10B981"
               else EvolMerc.DataCard (snd entry) d "↓" "#EF4444"
           end) EvolMerc.ASSETS /\
  length (EvolMerc.cards (EvolMerc.data_store polyfit_illposed history)) = 7%nat.
Proof.
  split; [|reflexivity]. unfold EvolMerc.cards. apply map_ext_in.
  intros [symbol info] Hin. unfold EvolMerc.render_card. cbn [fst snd].
  by rewrite (data_store_lookup _ _ _ _ Hin).
Qed.

End PageProperties.

Lemma X7_snapshot_consistent_witness :
  exists d,
    EvolMerc.fetch_asset_data polyfit_raises
      (always (finite_rows [(0%Z, 10); (60%Z, 12)])) "SI=F"
      {| EvolMerc.asset_name := "Prata (Silver)"; EvolMerc.asset_color := "#C0C0C0";
         EvolMerc.asset_unit := "$"; EvolMerc.asset_interval := "30m" |}
    = Ok (Some d) /\
    EvolMerc.prices d <> [] /\
    length (EvolMerc.prices d) = length (EvolMerc.times d) /\
    py_last (EvolMerc.prices d) = Ok (EvolMerc.current_price d).
Proof.
  destruct (fetch_asset_data_finite polyfit_raises
              (always (finite_rows [(0%Z, 10); (60%Z, 12)])) "SI=F"%string
              {| EvolMerc.asset_name := "Prata (Silver)"; EvolMerc.asset_color := "#C0C0C0";
                 EvolMerc.asset_unit := "$"; EvolMerc.asset_interval := "30m" |}
              (0%Z, 10) [(60%Z, 12)] eq_refl) as (slope & angle & l & _ & _ & Hf).
  eexists. split; [exact Hf|].
  destruct (X7_snapshot_consistent polyfit_raises _ _ _ _ Hf)
    as (rows & _ & _ & _ & Hne & _ & Hlen & Hcur & _).
  by repeat split.
Defined.

(** * Further properties of the figure of [EvolMerc.py] *)

Section FigureProperties.

Lemma traverse_keys {A B} (f : A -> result (A * B)) l r :
  (forall a b, f a = Ok b -> fst b = a) ->
  traverse f l = Ok r -> map fst r = l.
Proof.
  intros Hf. revert r. induction l as [|a l IH]; intros r Hr.
  - by injection Hr as <-.
  - cbn [traverse] in Hr. destruct (f a) as [b|] eqn:Ha; [|discriminate].
    cbn [mbind result_bind] in Hr.
    destruct (traverse f l) as [bs|]; [|discriminate].
    injection Hr as <-. cbn [map]. by rewrite (Hf a b Ha), (IH bs).
Qed.

Lemma length_ffill_from prev l : length (ffill_from prev l) = length l.
Proof.
  revert prev. induction l as [|v l IH]; intros prev; [reflexivity|].
  cbn. by rewrite IH.
Qed.

Lemma length_normalized prices :
  length (EvolMerc.normalized prices) = length prices.
Proof.
  unfold EvolMerc.normalized, bfill, ffill.
  by rewrite length_map, length_rev, length_ffill_from, length_rev, length_ffill_from.
Qed.

Lemma show_chart_cases store ss :
  aligned store ->
  EvolMerc.scripts store = Ok ss ->
  match ss with
  | [] => EvolMerc.show_chart store = Raise ValueError
  | _ :: _ =>
      exists traces,
        EvolMerc.chart_traces store = Ok traces /\
        EvolMerc.show_chart store = Ok (EvolMerc.plotly_chart traces)
  end.
Proof.
  intros Hal Hss. destruct ss as [|s ss].
  - unfold EvolMerc.show_chart. by rewrite Hss.
  - destruct (chart_traces_some store (s :: ss) Hal Hss) as (traces & Ht & _); [done|].
    exists traces. split; [exact Ht|].
    unfold EvolMerc.chart_traces in Ht. unfold EvolMerc.show_chart.
    rewrite Hss in *. cbn [mbind result_bind] in *. by rewrite Ht.
Qed.

(** The notice is out of reach, whatever the store. *)
Lemma show_chart_not_info store message :
  EvolMerc.show_chart store <> Ok (EvolMerc.info message).
Proof.
  unfold EvolMerc.show_chart.
  destruct (EvolMerc.scripts store) as [[|s ss]|e]; cbn [mbind result_bind];
    [discriminate| |discriminate].
  destruct (EvolMerc.draw_traces store (s :: ss)); cbn [mbind result_bind is_empty];
    discriminate.
Qed.

(** X10. The symbols of the figure are those of the asset table, in its
    order, that have data with more than one price and a least price
    different from the greatest.  The notice that the page holds for the
    case of no such symbol is never shown: with none, [make_subplots] is
    asked for zero rows and raises [ValueError], and no figure is built.
    With one at least, on a store with one time per price, the figure is
    shown with one trace for each of these symbols, in the same order,
    each trace with as many points as the asset has prices, at least
    two. *)
Theorem X10_traces_of_charted_symbols (store : gmap string EvolMerc.snapshot) :
  aligned store ->
  (forall message, EvolMerc.show_chart store <> Ok (EvolMerc.info message)) /\
  exists ss,
    EvolMerc.scripts store = Ok ss /\
    sublist ss (map fst EvolMerc.ASSETS) /\
    (forall s, In s ss <->
               In s (map fst EvolMerc.ASSETS) /\
               EvolMerc.chartable store s = Ok true) /\
    (ss = [] ->
     EvolMerc.chart_traces store = Raise ValueError /\
     EvolMerc.show_chart store = Raise ValueError) /\
    (ss <> [] ->
     exists traces,
       EvolMerc.chart_traces store = Ok traces /\
       EvolMerc.show_chart store = Ok (EvolMerc.plotly_chart traces) /\
       map fst traces = ss /\
       (forall s ys,
           In (s, ys) traces ->
           exists d, store !! s = Some d /\
                     length ys = length (EvolMerc.prices d) /\
                     (1 < length ys)%nat)).
Proof.
  intros Hal. destruct (scripts_returns store) as [ss Hss].
  pose proof (show_chart_cases store ss Hal Hss) as Hshow.
  split; [apply show_chart_not_info|].
  exists ss. split; [exact Hss|]. split; [|split; [|split]].
  - by apply (filter_result_sublist _ _ _ Hss).
  - intros s. apply (filter_result_In _ _ _ s Hss).
  - intros ->. split; [by apply chart_traces_none|exact Hshow].
  - intros Hne. destruct ss as [|s0 ss0]; [done|].
    destruct Hshow as (traces & Ht & Hshown).
    exists traces. split; [exact Ht|]. split; [exact Hshown|]. split.
    + destruct (chart_traces_Ok _ _ Ht) as (ss' & Hss' & _ & Htr).
      rewrite Hss in Hss'. injection Hss' as <-.
      eapply traverse_keys; [|exact Htr].
      intros a b Hb. by apply draw_trace_Ok in Hb as (d & _ & _ & ->).
    + intros s ys Hin.
      destruct (chart_traces_In _ _ _ _ Ht Hin) as (Hc & d & Hd & ->).
      exists d. split; [exact Hd|]. rewrite length_normalized.
      split; [reflexivity|].
      apply chartable_true in Hc as (d' & _ & _ & Hd' & Hlen & _). congruence.
Qed.

(** X11. An asset of the table whose stored prices are numbers has a trace
    in the figure exactly when its prices are not all equal; a series of a
    single price or of equal prices is left out. *)
Theorem X11_trace_iff_prices_vary store traces s d ps :
  EvolMerc.chart_traces store = Ok traces ->
  In s (map fst EvolMerc.ASSETS) ->
  store !! s = Some d -> EvolMerc.prices d = map Fin ps ->
  ((exists ys, In (s, ys) traces) <-> ~ constant ps).
Proof.
  intros Ht Hs Hd Hps. rewrite <- (chartable_finite_iff store s d ps Hd Hps). split.
  - intros [ys Hin]. by destruct (chart_traces_In _ _ _ _ Ht Hin).
  - intros Hc. eexists. by apply (chart_traces_complete store traces s d).
Qed.

End FigureProperties.

Lemma chartable_1_3_2 :
  EvolMerc.chartable page_store_1_3_2 "GC=F" = Ok true.
Proof.
  apply (chartable_finite_iff page_store_1_3_2 "GC=F"%string page_snapshot_1_3_2
           [1; 3; 2] (lookup_singleton_eq _ _) eq_refl).
  exact not_constant_1_3_2.
Qed.

Lemma X10_traces_of_charted_symbols_witness :
  aligned page_store_1_3_2 /\
  exists traces,
    EvolMerc.scripts page_store_1_3_2 = Ok ["GC=F"%string] /\
    EvolMerc.show_chart page_store_1_3_2 = Ok (EvolMerc.plotly_chart traces) /\
    map fst traces = ["GC=F"%string].
Proof.
  split; [exact aligned_1_3_2|].
  destruct (X10_traces_of_charted_symbols page_store_1_3_2 aligned_1_3_2)
    as (_ & ss & Hss & _ & Hiff & _ & Hsome).
  assert (Hscripts : EvolMerc.scripts page_store_1_3_2 = Ok ["GC=F"%string]).
  { unfold EvolMerc.scripts. cbn [map fst EvolMerc.ASSETS filter_result].
    rewrite chartable_1_3_2. cbn [mbind result_bind].
    assert (Hother : forall s, s <> "GC=F"%string ->
                       EvolMerc.chartable page_store_1_3_2 s = Ok false).
    { intros s Hs. unfold EvolMerc.chartable, page_store_1_3_2.
      by rewrite lookup_singleton_ne. }
    by rewrite !Hother. }
  rewrite Hss in Hscripts. injection Hscripts as ->.
  destruct (Hsome ltac:(discriminate)) as (traces & _ & Hshow & Hkeys & _).
  by exists traces.
Defined.

Lemma X11_trace_iff_prices_vary_witness :
  exists traces ys,
    EvolMerc.chart_traces page_store_1_3_2 = Ok traces /\
    In ("GC=F"%string, ys) traces.
Proof.
  destruct (chart_traces_chartable page_store_1_3_2 "GC=F"%string page_snapshot_1_3_2
              aligned_1_3_2 ltac:(by left) (lookup_singleton_eq _ _) chartable_1_3_2)
    as (traces & Ht & _).
  exists traces.
  destruct (proj2 (X11_trace_iff_prices_vary page_store_1_3_2 traces "GC=F"%string
                     page_snapshot_1_3_2 [1; 3; 2] Ht ltac:(by left)
                     (lookup_singleton_eq _ _) eq_refl) not_constant_1_3_2)
    as [ys Hin].
  by exists ys.
Defined.

(** * The stored prices and the normalisation of [EvolMerc.py] *)

Section StoredPrices.

Variable polyfit_illposed :
  list pyfloat -> list pyfloat -> result (pyfloat * pyfloat).

Lemma data_store_entry_prices history symbol d :
  EvolMerc.data_store polyfit_illposed history !! symbol = Some d ->
  EvolMerc.prices d <> [] /\ Forall (fun p => is_nan p = false) (EvolMerc.prices d).
Proof.
  intros Hd.
  destruct (in_dec string_dec symbol (map fst EvolMerc.ASSETS)) as [Hin|Hin];
    [|by rewrite data_store_lookup_unknown in Hd].
  apply in_keys in Hin as [info Hin].
  rewrite (data_store_lookup _ _ _ _ Hin) in Hd.
  destruct (EvolMerc.fetch_asset_data _ _ _ _) as [[d'|]|e] eqn:Hf;
    cbn in Hd; try discriminate.
  injection Hd as ->.
  destruct (history symbol (EvolMerc.asset_interval info)) as [e| |rows] eqn:Hh;
    try (unfold EvolMerc.fetch_asset_data in Hf; rewrite Hh in Hf; discriminate).
  destruct (dropna rows) as [|r rs] eqn:Hdrop.
  { unfold EvolMerc.fetch_asset_data in Hf. rewrite Hh, Hdrop in Hf.
    by destruct rows. }
  destruct (fetch_asset_data_rows polyfit_illposed history symbol info rows _ Hh
              ltac:(by rewrite Hdrop) Hf) as [[e He]|(d' & Hd' & Hp & _)];
    [discriminate|].
  injection Hd' as <-. rewrite Hp. split.
  - by rewrite Hdrop.
  - apply dropna_not_nan.
Qed.

Lemma ffill_from_no_nan prev l :
  Forall (fun p => is_nan p = false) l -> ffill_from prev l = l.
Proof.
  intros H. revert prev. induction H as [|v l Hv _ IH]; intros prev; [reflexivity|].
  cbn [ffill_from]. rewrite Hv. cbn zeta. by rewrite IH.
Qed.

Lemma no_nan_rev l :
  Forall (fun p => is_nan p = false) l -> Forall (fun p => is_nan p = false) (rev l).
Proof.
  induction 1 as [|v l Hv _ IH]; [constructor|].
  cbn [rev]. apply Forall_app. split; [exact IH|by constructor].
Qed.

Lemma fills_no_nan l :
  Forall (fun p => is_nan p = false) l -> bfill (ffill l) = l.
Proof.
  intros H. unfold bfill, ffill.
  rewrite (ffill_from_no_nan NaN l H), (ffill_from_no_nan NaN (rev l) (no_nan_rev l H)).
  apply rev_involutive.
Qed.

Lemma filter_no_nan l :
  Forall (fun p => is_nan p = false) l ->
  List.filter (fun v => negb (is_nan v)) l = l.
Proof.
  induction 1 as [|v l Hv _ IH]; [reflexivity|].
  cbn [List.filter]. by rewrite Hv, IH.
Qed.

Lemma pd_min_max_no_nan l :
  Forall (fun p => is_nan p = false) l -> l <> [] ->
  py_min l = Ok (pd_min l) /\ py_max l = Ok (pd_max l).
Proof.
  intros H Hne. unfold pd_min, pd_max. rewrite (filter_no_nan l H).
  destruct l; [by destruct Hne|]. by split.
Qed.

Lemma py_eq_sym a b : py_eq a b = py_eq b a.
Proof.
  destruct a, b; cbn; try reflexivity.
  destruct (Req_dec_T x x0), (Req_dec_T x0 x); congruence.
Qed.

(** X12. For every entry of the data store the forward and backward fill
    before the normalisation changes nothing (the stored prices hold no
    missing value), and the least and greatest price that pandas computes
    are the ones the chart filter compared; so for every charted symbol the
    divisor [max - min] of the normalisation is not zero. *)
Theorem X12_stored_prices_need_no_fill history symbol d :
  EvolMerc.data_store polyfit_illposed history !! symbol = Some d ->
  bfill (ffill (EvolMerc.prices d)) = EvolMerc.prices d /\
  py_min (EvolMerc.prices d) = Ok (pd_min (EvolMerc.prices d)) /\
  py_max (EvolMerc.prices d) = Ok (pd_max (EvolMerc.prices d)) /\
  (EvolMerc.chartable (EvolMerc.data_store polyfit_illposed history) symbol = Ok true ->
   py_eq (py_sub (pd_max (bfill (ffill (EvolMerc.prices d))))
                 (pd_min (bfill (ffill (EvolMerc.prices d))))) (Fin 0) = false).
Proof.
  intros Hd. destruct (data_store_entry_prices _ _ _ Hd) as [Hne Hnan].
  destruct (pd_min_max_no_nan _ Hnan Hne) as [Hmin Hmax].
  rewrite (fills_no_nan _ Hnan). repeat split; try assumption.
  intros Hc. apply chartable_true in Hc as (d' & mn & mx & Hd' & _ & Hmn & Hmx & Hneq).
  rewrite Hd in Hd'. injection Hd' as <-.
  rewrite Hmin in Hmn. rewrite Hmax in Hmx. injection Hmn as <-. injection Hmx as <-.
  apply py_sub_ne_zero. unfold py_ne in *. by rewrite py_eq_sym.
Qed.

End StoredPrices.

Lemma silver_is_loaded :
  exists d, EvolMerc.data_store polyfit_raises gold_fails !! "SI=F"%string = Some d.
Proof.
  rewrite (data_store_lookup polyfit_raises gold_fails "SI=F"%string
             {| EvolMerc.asset_name := "Prata (Silver)"; EvolMerc.asset_color := "#C0C0C0";
                EvolMerc.asset_unit := "$"; EvolMerc.asset_interval := "30m" |})
    by (right; by left).
  destruct (fetch_asset_data_finite polyfit_raises gold_fails "SI=F"%string
              {| EvolMerc.asset_name := "Prata (Silver)"; EvolMerc.asset_color := "#C0C0C0";
                 EvolMerc.asset_unit := "$"; EvolMerc.asset_interval := "30m" |}
              (0%Z, 10) [(60%Z, 12)] eq_refl) as (? & ? & ? & _ & _ & ->).
  by eexists.
Qed.

Lemma X12_stored_prices_need_no_fill_witness :
  exists d,
    EvolMerc.data_store polyfit_raises gold_fails !! "SI=F"%string = Some d /\
    bfill (ffill (EvolMerc.prices d)) = EvolMerc.prices d /\
    py_min (EvolMerc.prices d) = Ok (pd_min (EvolMerc.prices d)).
Proof.
  destruct silver_is_loaded as [d Hd].
  exists d. split; [exact Hd|].
  destruct (X12_stored_prices_need_no_fill polyfit_raises gold_fails _ d Hd)
    as (Hfill & Hmin & _).
  by split.
Defined.

(** * Further properties of [EvolMerc - old.py] *)

Section OldFetchProperties.

Variable polyfit_illposed :
  list pyfloat -> list pyfloat -> result (pyfloat * pyfloat).

(** What a fetch of the old script that gives a snapshot went through. *)
Lemma fetch_old_snapshot history symbol d :
  EvolMercOld.fetch_asset_data polyfit_illposed history symbol = Some d ->
  exists rows previous q,
    history symbol = HistoryFrame rows /\
    (2 <= length rows)%nat /\
    EvolMercOld.symbol d = symbol /\
    EvolMercOld.prices d = map snd rows /\
    EvolMercOld.times d = map fst rows /\
    py_last (EvolMercOld.prices d) = Ok (EvolMercOld.current_price d) /\
    py_first (EvolMercOld.prices d) = Ok previous /\
    py_eq previous (Fin 0) = false /\
    EvolMercOld.change d = py_sub (EvolMercOld.current_price d) previous /\
    ieee_div (EvolMercOld.change d) previous = q /\
    EvolMercOld.change_pct d = py_mul q (Fin 100) /\
    calculate_slope polyfit_illposed (EvolMercOld.prices d)
    = Ok (EvolMercOld.slope d, EvolMercOld.angle d) /\
    EvolMercOld.get_trend_info (EvolMercOld.slope d) (EvolMercOld.angle d)
    = (EvolMercOld.trend d, EvolMercOld.trend_color d).
Proof.
  unfold EvolMercOld.fetch_asset_data, EvolMercOld.fetch_asset_data_try.
  destruct (history symbol) as [e| |rows]; try discriminate.
  destruct rows as [|r1 rows]; [discriminate|]. cbn [is_empty].
  rewrite length_map.
  destruct (length (r1 :: rows) <? 2)%nat eqn:Hlen; [discriminate|].
  apply Nat.ltb_ge in Hlen.
  destruct (py_last (map snd (r1 :: rows))) as [current|e] eqn:Hcur; [|discriminate].
  destruct (py_first (map snd (r1 :: rows))) as [previous|e] eqn:Hprev; [|discriminate].
  cbn [mbind result_bind]. unfold py_div.
  destruct (py_eq previous (Fin 0)) eqn:Hzero; [discriminate|].
  cbn [mbind result_bind].
  destruct (calculate_slope _ _) as [[slope angle]|e] eqn:Hs; [|discriminate].
  cbn [mbind result_bind].
  destruct (EvolMercOld.get_trend_info slope angle) as [trend color] eqn:Htrend.
  cbn [try_except]. intros [= <-]. cbn.
  exists (r1 :: rows), previous, (ieee_div (py_sub current previous) previous).
  by repeat split.
Qed.

(** X13. Every snapshot that the old [fetch_asset_data] returns comes from
    a frame of at least two rows and holds all its closing prices and times
    unfiltered (a missing price stays in the list), carries the symbol it
    was fetched for, has the last price as current price, a first price
    that is not zero, the change [current - first], the percentage change
    [change / first * 100], and the slope, angle, label and colour computed
    from its own prices. *)
Theorem X13_old_snapshot_consistent history symbol d :
  EvolMercOld.fetch_asset_data polyfit_illposed history symbol = Some d ->
  exists rows previous,
    history symbol = HistoryFrame rows /\
    (2 <= length rows)%nat /\
    EvolMercOld.symbol d = symbol /\
    EvolMercOld.prices d = map snd rows /\
    EvolMercOld.times d = map fst rows /\
    length (EvolMercOld.prices d) = length (EvolMercOld.times d) /\
    py_last (EvolMercOld.prices d) = Ok (EvolMercOld.current_price d) /\
    py_first (EvolMercOld.prices d) = Ok previous /\
    py_truthy previous = true /\
    EvolMercOld.change d = py_sub (EvolMercOld.current_price d) previous /\
    EvolMercOld.change_pct d
    = py_mul (ieee_div (EvolMercOld.change d) previous) (Fin 100) /\
    calculate_slope polyfit_illposed (EvolMercOld.prices d)
    = Ok (EvolMercOld.slope d, EvolMercOld.angle d) /\
    EvolMercOld.get_trend_info (EvolMercOld.slope d) (EvolMercOld.angle d)
    = (EvolMercOld.trend d, EvolMercOld.trend_color d).
Proof.
  intros Hf.
  destruct (fetch_old_snapshot _ _ _ Hf)
    as (rows & previous & q & Hh & Hlen & Hsym & Hp & Ht & Hcur & Hprev & Hz
        & Hchange & Hq & Hpct & Hs & Htrend).
  exists rows, previous. repeat split; try assumption.
  - by rewrite Hp, Ht, !length_map.
  - unfold py_truthy. by rewrite Hz.
  - by rewrite Hpct, Hq.
Qed.

(** ** The store over the passes of [update_all_data] *)

Lemma update_all_data_pass_cases history store s d :
  EvolMercOld.update_all_data_pass polyfit_illposed history store !! s = Some d ->
  (In s (map fst EvolMercOld.ASSETS) /\
   EvolMercOld.fetch_asset_data polyfit_illposed history s = Some d) \/
  store !! s = Some d.
Proof.
  intros Hd.
  destruct (in_dec string_dec s (map fst EvolMercOld.ASSETS)) as [Hin|Hin].
  - rewrite (update_all_data_pass_lookup _ _ _ _ Hin) in Hd.
    destruct (EvolMercOld.fetch_asset_data _ _ _) as [d'|]; [left|by right].
    split; [exact Hin|congruence].
  - right. by rewrite update_all_data_pass_unknown in Hd.
Qed.

Lemma update_all_data_passes_cases histories store s d :
  EvolMercOld.update_all_data_passes polyfit_illposed histories store !! s = Some d ->
  (In s (map fst EvolMercOld.ASSETS) /\
   exists history, In history histories /\
     EvolMercOld.fetch_asset_data polyfit_illposed history s = Some d) \/
  store !! s = Some d.
Proof.
  unfold EvolMercOld.update_all_data_passes.
  revert store. induction histories as [|h hs IH]; intros store Hd; [by right|].
  cbn [fold_left] in Hd. destruct (IH _ Hd) as [(Hin & h' & Hh' & Hf)|Hprev].
  - left. split; [exact Hin|]. exists h'. split; [by right|exact Hf].
  - destruct (update_all_data_pass_cases _ _ _ _ Hprev) as [[Hin Hf]|Hs]; [|by right].
    left. split; [exact Hin|]. exists h. split; [by left|exact Hf].
Qed.

(** X14. Starting from the empty store, after any number of passes of
    [update_all_data] every entry belongs to a symbol of the asset table,
    is a snapshot that one of the passes fetched for that very symbol, and
    so carries that symbol, at least two prices and as many times as
    prices. *)
Theorem X14_old_store_invariant histories s d :
  EvolMercOld.update_all_data_passes polyfit_illposed histories ∅ !! s = Some d ->
  In s (map fst EvolMercOld.ASSETS) /\
  (exists history,
      In history histories /\
      EvolMercOld.fetch_asset_data polyfit_illposed history s = Some d) /\
  EvolMercOld.symbol d = s /\
  (2 <= length (EvolMercOld.prices d))%nat /\
  length (EvolMercOld.prices d) = length (EvolMercOld.times d).
Proof.
  intros Hd.
  destruct (update_all_data_passes_cases _ _ _ _ Hd) as [(Hin & h & Hh & Hf)|Hempty];
    [|by rewrite lookup_empty in Hempty].
  split; [exact Hin|]. split; [by exists h|].
  destruct (fetch_old_snapshot _ _ _ Hf)
    as (rows & previous & q & _ & Hlen & Hsym & Hp & Ht & _).
  split; [exact Hsym|]. rewrite Hp, Ht, !length_map. by split.
Qed.

Lemma update_all_data_pass_keeps history store s :
  is_Some (store !! s) ->
  is_Some (EvolMercOld.update_all_data_pass polyfit_illposed history store !! s).
Proof.
  intros Hs.
  destruct (in_dec string_dec s (map fst EvolMercOld.ASSETS)) as [Hin|Hin].
  - rewrite (update_all_data_pass_lookup _ _ _ _ Hin).
    by destruct (EvolMercOld.fetch_asset_data _ _ _).
  - by rewrite update_all_data_pass_unknown.
Qed.

Lemma update_all_data_pass_failed history store s :
  EvolMercOld.fetch_asset_data polyfit_illposed history s = None ->
  EvolMercOld.update_all_data_pass polyfit_illposed history store !! s = store !! s.
Proof.
  intros Hf.
  destruct (in_dec string_dec s (map fst EvolMercOld.ASSETS)) as [Hin|Hin].
  - by rewrite (update_all_data_pass_lookup _ _ _ _ Hin), Hf.
  - by apply update_all_data_pass_unknown.
Qed.

(** X15. The passes of [update_all_data] never remove an entry: a symbol
    that has a snapshot keeps having one; and while every fetch of a symbol
    fails, its entry stays exactly the one it had, however old. *)
Theorem X15_old_store_keeps_entries histories store s :
  (is_Some (store !! s) ->
   is_Some (EvolMercOld.update_all_data_passes polyfit_illposed histories store !! s)) /\
  (Forall (fun history =>
             EvolMercOld.fetch_asset_data polyfit_illposed history s = None)
          histories ->
   EvolMercOld.update_all_data_passes polyfit_illposed histories store !! s
   = store !! s).
Proof.
  unfold EvolMercOld.update_all_data_passes. split.
  - revert store. induction histories as [|h hs IH]; intros store Hs; [exact Hs|].
    cbn [fold_left]. apply IH. by apply update_all_data_pass_keeps.
  - intros Hfail. revert store.
    induction Hfail as [|h hs Hh _ IH]; intros store; [reflexivity|].
    cbn [fold_left]. rewrite IH. by apply update_all_data_pass_failed.
Qed.

(** X16. A pass of [update_all_data] is idempotent: repeating it while the
    provider answers the same leaves the store as the first pass left
    it. *)
Theorem X16_old_pass_idempotent history store :
  EvolMercOld.update_all_data_pass polyfit_illposed history
    (EvolMercOld.update_all_data_pass polyfit_illposed history store)
  = EvolMercOld.update_all_data_pass polyfit_illposed history store.
Proof.
  apply map_eq. intros s.
  destruct (in_dec string_dec s (map fst EvolMercOld.ASSETS)) as [Hin|Hin].
  - rewrite !(update_all_data_pass_lookup _ _ _ _ Hin).
    by destruct (EvolMercOld.fetch_asset_data _ _ _).
  - by rewrite !update_all_data_pass_unknown.
Qed.

End OldFetchProperties.

Lemma gold_is_fetched_old :
  exists d,
    EvolMercOld.fetch_asset_data polyfit_raises
      (always_old (finite_rows [(0%Z, 10); (60%Z, 12)])) "GC=F" = Some d.
Proof.
  destruct (fetch_asset_data_try_finite polyfit_raises
              (always_old (finite_rows [(0%Z, 10); (60%Z, 12)])) "GC=F"%string
              (0%Z, 10) (60%Z, 12) [] eq_refl) as (? & ? & ? & _ & _ & Hf).
  cbn [snd] in Hf. destruct (Req_dec_T 10 0); [lra|].
  unfold EvolMercOld.fetch_asset_data. rewrite Hf. by eexists.
Qed.

Lemma X13_old_snapshot_consistent_witness :
  exists d,
    EvolMercOld.fetch_asset_data polyfit_raises
      (always_old (finite_rows [(0%Z, 10); (60%Z, 12)])) "GC=F" = Some d /\
    EvolMercOld.symbol d = "GC=F"%string /\
    length (EvolMercOld.prices d) = length (EvolMercOld.times d).
Proof.
  destruct gold_is_fetched_old as [d Hd]. exists d. split; [exact Hd|].
  destruct (X13_old_snapshot_consistent polyfit_raises _ _ d Hd)
    as (rows & previous & _ & _ & Hsym & _ & _ & Hlen & _).
  by split.
Defined.

Lemma X14_old_store_invariant_witness :
  exists d,
    EvolMercOld.update_all_data_passes polyfit_raises
      [always_old (finite_rows [(0%Z, 10); (60%Z, 12)])] ∅ !! "GC=F"%string = Some d /\
    EvolMercOld.symbol d = "GC=F"%string /\
    (2 <= length (EvolMercOld.prices d))%nat.
Proof.
  destruct gold_is_fetched_old as [d Hd]. exists d.
  assert (Hstore :
    EvolMercOld.update_all_data_passes polyfit_raises
      [always_old (finite_rows [(0%Z, 10); (60%Z, 12)])] ∅ !! "GC=F"%string = Some d).
  { unfold EvolMercOld.update_all_data_passes. cbn [fold_left].
    rewrite update_all_data_pass_lookup by (by left). by rewrite Hd. }
  split; [exact Hstore|].
  destruct (X14_old_store_invariant polyfit_raises _ _ d Hstore)
    as (_ & _ & Hsym & Hlen & _).
  by split.
Defined.

Lemma X15_old_store_keeps_entries_witness :
  EvolMercOld.update_all_data_passes polyfit_raises
    [(fun _ => HistoryRaises (ProviderError "down")); (fun _ => HistoryFrame [])]
    store_1_3_2 !! "GC=F"%string
  = Some snapshot_1_3_2.
Proof.
  rewrite (proj2 (X15_old_store_keeps_entries polyfit_raises
                    [(fun _ => HistoryRaises (ProviderError "down"));
                     (fun _ => HistoryFrame [])]
                    store_1_3_2 "GC=F"%string)).
  - apply lookup_singleton_eq.
  - repeat constructor.
Defined.

(** * The dashboard of [EvolMerc - old.py] *)

Section OldDashboard.

(** Whether a symbol has an entry. *)
Definition has_data (store : gmap string EvolMercOld.snapshot) (s : string) : bool :=
  match store !! s with Some _ => true | None => false end.

Lemma traverse_chart_trace_keys store l opts :
  traverse (EvolMercOld.chart_trace store) l = Ok opts ->
  map fst (present opts) = List.filter (has_data store) (map fst l).
Proof.
  revert opts. induction l as [|e l IH]; intros opts Ho.
  - by injection Ho as <-.
  - cbn [traverse] in Ho.
    destruct (EvolMercOld.chart_trace store e) as [o|] eqn:He; [|discriminate].
    cbn [mbind result_bind] in Ho.
    destruct (traverse _ l) as [os|]; [|discriminate].
    injection Ho as <-. specialize (IH os eq_refl).
    unfold EvolMercOld.chart_trace in He. cbn [map List.filter]. unfold has_data at 1.
    destruct (store !! fst e) as [d|].
    + destruct (EvolMercOld.normalized _) as [ys|]; [|discriminate].
      injection He as <-. unfold present in *. cbn. by rewrite IH.
    + injection He as <-. unfold present in *. cbn. exact IH.
Qed.

Lemma cards_old_length store l :
  length (omap (fun entry : string * EvolMercOld.asset_info =>
                  data ← store !! fst entry;
                  Some (EvolMercOld.DataCard (snd entry) data
                          (if py_ge (EvolMercOld.change data) (Fin 0)
                           then "#10B981" else "#EF4444")%string)) l)
  = length (List.filter (has_data store) (map fst l)).
Proof.
  induction l as [|e l IH]; [reflexivity|].
  cbn [omap list_omap map List.filter]. unfold has_data at 1.
  destruct (store !! fst e); cbn; by rewrite IH.
Qed.

Lemma traverse_length {A B} (f : A -> result B) l r :
  traverse f l = Ok r -> length r = length l.
Proof.
  revert r. induction l as [|a l IH]; intros r Hr; [by injection Hr as <-|].
  cbn [traverse] in Hr. destruct (f a); [|discriminate].
  cbn [mbind result_bind] in Hr.
  destruct (traverse f l) as [bs|]; [|discriminate].
  injection Hr as <-. cbn. by rewrite (IH bs).
Qed.

(** The cards are those of the entries of the table that have data, one
    each and in the order of the table. *)
Lemma cards_old_Forall2 store l :
  Forall2 (fun (entry : string * EvolMercOld.asset_info) card =>
             exists d,
               store !! fst entry = Some d /\
               card = EvolMercOld.DataCard (snd entry) d
                        (if py_ge (EvolMercOld.change d) (Fin 0)
                         then "#10B981" else "#EF4444")%string)
          (List.filter (fun entry => has_data store (fst entry)) l)
          (omap (fun entry : string * EvolMercOld.asset_info =>
                   data ← store !! fst entry;
                   Some (EvolMercOld.DataCard (snd entry) data
                           (if py_ge (EvolMercOld.change data) (Fin 0)
                            then "#10B981" else "#EF4444")%string)) l).
Proof.
  induction l as [|e l IH]; [constructor|].
  cbn [omap list_omap List.filter]. unfold has_data at 1.
  destruct (store !! fst e) as [d|] eqn:Hd; cbn; [|exact IH].
  constructor; [|exact IH]. by exists d.
Qed.

(** So are the traces. *)
Lemma traces_old_Forall2 store l opts :
  traverse (EvolMercOld.chart_trace store) l = Ok opts ->
  Forall2 (fun (entry : string * EvolMercOld.asset_info) trace =>
             exists d,
               store !! fst entry = Some d /\
               fst trace = fst entry /\
               EvolMercOld.normalized (EvolMercOld.prices d) = Ok (snd trace) /\
               length (snd trace) = length (EvolMercOld.prices d))
          (List.filter (fun entry => has_data store (fst entry)) l)
          (present opts).
Proof.
  revert opts. induction l as [|e l IH]; intros opts Ho.
  - injection Ho as <-. constructor.
  - cbn [traverse] in Ho.
    destruct (EvolMercOld.chart_trace store e) as [o|] eqn:He; [|discriminate].
    cbn [mbind result_bind] in Ho.
    destruct (traverse _ l) as [os|]; [|discriminate].
    injection Ho as <-. specialize (IH os eq_refl).
    unfold EvolMercOld.chart_trace in He. cbn [List.filter]. unfold has_data at 1.
    destruct (store !! fst e) as [d|] eqn:Hd.
    + destruct (EvolMercOld.normalized _) as [ys|] eqn:Hys; [|discriminate].
      injection He as <-. unfold present in *. cbn.
      constructor; [|exact IH]. exists d. cbn [fst snd].
      repeat split; try done.
      unfold EvolMercOld.normalized in Hys. by apply traverse_length in Hys.
    + injection He as <-. unfold present in *. cbn. exact IH.
Qed.

(** X17. The dashboard of the old script is always built.  Its cards are
    those of the assets of the table that have an entry in the store, one
    each and in the order of the table, none for the others: each card
    shows the entry of its asset, in green when the change is not
    negative and in red otherwise.  Its traces are those of the same
    assets, in the same order: each trace is named after its asset, holds
    the normalised prices of the entry and has as many points as the
    entry has prices. *)
Theorem X17_old_dashboard_covers_store (store : gmap string EvolMercOld.snapshot) :
  exists traces,
    EvolMercOld.chart_traces store = Ok traces /\
    Forall2 (fun (entry : string * EvolMercOld.asset_info) card =>
               exists d,
                 store !! fst entry = Some d /\
                 card = EvolMercOld.DataCard (snd entry) d
                          (if py_ge (EvolMercOld.change d) (Fin 0)
                           then "#10B981" else "#EF4444")%string)
            (List.filter (fun entry => has_data store (fst entry)) EvolMercOld.ASSETS)
            (EvolMercOld.cards store) /\
    Forall2 (fun (entry : string * EvolMercOld.asset_info) trace =>
               exists d,
                 store !! fst entry = Some d /\
                 fst trace = fst entry /\
                 EvolMercOld.normalized (EvolMercOld.prices d) = Ok (snd trace) /\
                 length (snd trace) = length (EvolMercOld.prices d))
            (List.filter (fun entry => has_data store (fst entry)) EvolMercOld.ASSETS)
            traces /\
    map fst traces = List.filter (has_data store) (map fst EvolMercOld.ASSETS) /\
    length (EvolMercOld.cards store) = length traces.
Proof.
  destruct (chart_traces_old_returns store) as [traces Ht].
  exists traces. split; [exact Ht|].
  pose proof Ht as Ht'. unfold EvolMercOld.chart_traces in Ht'.
  destruct (traverse _ _) as [opts|] eqn:Hopts; [|discriminate].
  injection Ht' as <-.
  pose proof (traverse_chart_trace_keys _ _ _ Hopts) as Hkeys.
  split; [apply cards_old_Forall2|]. split; [by apply traces_old_Forall2|].
  split; [exact Hkeys|].
  unfold EvolMercOld.cards. rewrite cards_old_length, <- Hkeys. by rewrite length_map.
Qed.

End OldDashboard.

(** * The two versions side by side *)

Section Versions.

Variable polyfit_illposed :
  list pyfloat -> list pyfloat -> result (pyfloat * pyfloat).

(** X18. On a frame of two or more finite prices whose first price is not
    zero the two versions of the script build the same snapshot: the same
    prices, times, current price, change, percentage change and angle, and
    the same label and colour (the old label only adds a pictogram). *)
Theorem X18_versions_agree symbol info q q' quotes :
  snd q <> 0 ->
  exists d d',
    EvolMerc.fetch_asset_data polyfit_illposed
      (always (finite_rows (q :: q' :: quotes))) symbol info = Ok (Some d) /\
    EvolMercOld.fetch_asset_data polyfit_illposed
      (always_old (finite_rows (q :: q' :: quotes))) symbol = Some d' /\
    EvolMerc.prices d = EvolMercOld.prices d' /\
    EvolMerc.times d = EvolMercOld.times d' /\
    EvolMerc.current_price d = EvolMercOld.current_price d' /\
    EvolMerc.change d = EvolMercOld.change d' /\
    EvolMerc.change_pct d = EvolMercOld.change_pct d' /\
    EvolMerc.angle d = EvolMercOld.angle d' /\
    EvolMerc.trend_color d = EvolMercOld.trend_color d' /\
    label_of_text (EvolMerc.trend d) = label_of_text (EvolMercOld.trend d').
Proof.
  intros Hq.
  destruct (fetch_asset_data_finite polyfit_illposed
              (always (finite_rows (q :: q' :: quotes))) symbol info q (q' :: quotes)
              eq_refl) as (slope & angle & l & Hs & Hl & Hnew).
  destruct (fetch_asset_data_try_finite polyfit_illposed
              (always_old (finite_rows (q :: q' :: quotes))) symbol q q' quotes
              eq_refl) as (slope' & angle' & l' & Hs' & Hl' & Hold).
  rewrite Hs in Hs'. injection Hs' as <- <-.
  rewrite <- (in_band_unique _ _ _ Hl Hl') in Hold.
  destruct (Req_dec_T (snd q) 0) as [|_]; [contradiction|].
  eexists _, _. split; [exact Hnew|]. split.
  { unfold EvolMercOld.fetch_asset_data. by rewrite Hold. }
  cbn. unfold guarded_change_pct.
  destruct (Req_dec_T (snd q) 0) as [|_]; [contradiction|].
  repeat split. by destruct l.
Qed.

(** X19. On a frame with a single finite price the versions differ:
    [EvolMerc.py] builds a snapshot with change 0, percentage change 0,
    angle 0 and the SIDEWAYS label, while the old script gives [None]
    (it wants two rows). *)
Theorem X19_single_price (symbol : string) (info : EvolMerc.asset_info)
    (t : Z) (p : R) :
  (exists d,
      EvolMerc.fetch_asset_data polyfit_illposed
        (always (finite_rows [(t, p)])) symbol info = Ok (Some d) /\
      EvolMerc.prices d = [Fin p] /\
      EvolMerc.current_price d = Fin p /\
      EvolMerc.change d = Fin 0 /\
      EvolMerc.change_pct d = Fin 0 /\
      EvolMerc.angle d = Fin 0 /\
      EvolMerc.trend d = label_text SIDEWAYS) /\
  EvolMercOld.fetch_asset_data polyfit_illposed
    (always_old (finite_rows [(t, p)])) symbol = None.
Proof.
  split; [|reflexivity].
  destruct (fetch_asset_data_finite polyfit_illposed
              (always (finite_rows [(t, p)])) symbol info (t, p) [] eq_refl)
    as (slope & angle & l & Hs & Hl & Hnew).
  cbn [map snd fst List.last] in *.
  rewrite calculate_slope_short in Hs by (simpl; lia). injection Hs as <- <-.
  assert (l = SIDEWAYS) as ->.
  { apply (in_band_unique 0); [exact Hl|constructor; lra]. }
  eexists. split; [exact Hnew|]. cbn. unfold guarded_change_pct.
  repeat split; try (f_equal; lra).
  destruct (Req_dec_T p 0); f_equal. unfold Rdiv. ring.
Qed.

End Versions.

Lemma X18_versions_agree_witness :
  10 <> 0 /\
  exists d d',
    EvolMerc.fetch_asset_data polyfit_raises
      (always (finite_rows [(0%Z, 10); (60%Z, 12)])) "GC=F"
      {| EvolMerc.asset_name := "Ouro (Gold)"; EvolMerc.asset_color := "#FFD700";
         EvolMerc.asset_unit := "$"; EvolMerc.asset_interval := "30m" |}
    = Ok (Some d) /\
    EvolMercOld.fetch_asset_data polyfit_raises
      (always_old (finite_rows [(0%Z, 10); (60%Z, 12)])) "GC=F" = Some d' /\
    EvolMerc.change_pct d = EvolMercOld.change_pct d' /\
    EvolMerc.angle d = EvolMercOld.angle d'.
Proof.
  assert (H : 10 <> 0) by lra. split; [exact H|].
  destruct (X18_versions_agree polyfit_raises "GC=F"%string
              {| EvolMerc.asset_name := "Ouro (Gold)"; EvolMerc.asset_color := "#FFD700";
                 EvolMerc.asset_unit := "$"; EvolMerc.asset_interval := "30m" |}
              (0%Z, 10) (60%Z, 12) [] H)
    as (d & d' & Hd & Hd' & _ & _ & _ & _ & Hpct & Hangle & _).
  by exists d, d'.
Defined.
